(** * TemperatureExperiment: the wake-cycle scheduler of the ESP32 sketches

    A shallow embedding of the two Arduino sketches of the repository:

    - [Slot]  : [save_temperature_humidity_supabase.ino], the sketch that
      checks the minute slot after the NTP sync and sleeps to the next
      epoch-aligned half hour (Strategy A);
    - [Phase] : the second sketch, whose [beginDeepSleep] aligns the wake
      time to a multiple of [SLEEP_DURATION] minutes counted from
      [WAKE_TIME], with skip-ahead and drift compensation (Strategy B);
    - [TimeT] : the boundary arithmetic of the first sketch once more, with
      the overflow of a signed 64-bit [time_t].

    Integers of the C++ code are [Z] with the conversions written out,
    [float] is IEEE binary32 through the Standard Library's [SpecFloat],
    and the Arduino calls are actions of a small state monad whose state
    is the uptime counter and the trace of hardware effects. *)

From Stdlib Require Import ZArith List Lia Bool String Ascii.
From Stdlib Require Import Floats.SpecFloat.
Import ListNotations.
Local Open Scope Z_scope.

(** ** C integer types *)

Module CInt.

(** Conversion to [uint64_t] and [uint32_t]: reduction modulo 2^w. *)
Definition to_uint64 (z : Z) : Z := z mod 2 ^ 64.
Definition to_uint32 (z : Z) : Z := z mod 2 ^ 32.

(** [time_t] is a signed integer, of 64 bits in the current ESP32
    toolchain. *)
Definition TIME_T_MAX : Z := 2 ^ 63 - 1.
Definition time_t_fits (z : Z) : Prop := - 2 ^ 63 <= z <= TIME_T_MAX.

(** [struct tm], the fields the sketches read or write. *)
Record tm : Type := mk_tm {
  tm_sec  : Z;
  tm_min  : Z;
  tm_hour : Z;
  tm_mday : Z;
  tm_mon  : Z;
  tm_year : Z   (* years since 1900 *)
}.

End CInt.

(** ** IEEE binary32, the [float] of the sketches *)

Module Float32.

Definition prec : Z := 24.
Definition emax : Z := 128.

Definition float : Type := spec_float.

(** Integer to [float], round to nearest even. *)
Definition of_Z (z : Z) : float := binary_normalize prec emax z 0 false.

Definition mul (x y : float) : float := SFmul prec emax x y.
Definition div (x y : float) : float := SFdiv prec emax x y.
(** [x > y] *)
Definition gtb (x y : float) : bool := SFltb y x.

(** [float] to integer, truncation toward zero.  C leaves the conversion
    undefined for NaN, the infinities and values outside the target
    type; the model yields 0 for the former. *)
Definition trunc (x : float) : Z :=
  match x with
  | S754_finite s m e =>
      let a := if 0 <=? e then Z.pos m * 2 ^ e else Z.pos m / 2 ^ (- e) in
      if s then - a else a
  | _ => 0
  end.

Definition to_uint64 (x : float) : Z := CInt.to_uint64 (trunc x).

(** The literals [1.0015f] and [0.95f]: the binary32 numbers nearest to
    the decimal ones. *)
Definition lit_1_0015 : float := S754_finite false 8401191 (-23).
Definition lit_0_95 : float := S754_finite false 15938355 (-24).

End Float32.

(** ** The Arduino runtime as a state monad

    An action runs from a [State] (the uptime counter read by [millis()],
    the [timeInfo] structure the second sketch passes around by pointer,
    and the chronological trace of hardware effects) against an [Env], the
    answers of the collaborators: the system clock, the C library's
    calendar functions, the WiFi and SNTP status, the sensor and the HTTP
    client.  Only [delay] advances the uptime counter: it is the nominal
    uptime, without the time that the WiFi, sensor and HTTP calls take, and
    it indexes the answers of the clock.  What a theorem says of the wall
    clock it says of these answers, [epoch_at], not of the counter.

    [esp_deep_sleep_start()] does not return: an action ends either
    [Returned], or [Suspended], and what follows a suspension never runs. *)

Module Arduino.
Import CInt.

Inductive Event : Type :=
| SerialPrint (msg : string)
| SerialPrintNum (msg : string) (n : Z)
| PinMode (pin : Z)
| DigitalWrite (pin : Z) (high : bool)
| GpioHold (pin : Z)
| WireBegin (sda scl : Z)
| WiFiBegin
| WiFiDisconnect
| SntpConfig
| BmeBegin (addr : Z)
| BmeReadTemperature
| BmeReadHumidity
| HttpPost (temperature humidity : Float32.float)
| HttpEnd
| TimerWakeup (us : Z)
| DeepSleepStart.

Record State : Type := mk_State {
  millis   : Z;
  timeInfo : tm;
  trace    : list Event
}.

Record Env : Type := mk_Env {
  (** [time(&now)] when the uptime counter shows the given value *)
  epoch_at          : Z -> Z;
  localtime_r       : Z -> tm;
  mktime            : tm -> Z;
  (** [WiFi.status() == WL_CONNECTED] at the given uptime *)
  wifi_connected_at : Z -> bool;
  (** [esp_sntp_get_sync_status() != SNTP_SYNC_STATUS_RESET] *)
  sntp_synced_at    : Z -> bool;
  bme_begin         : bool;
  bme_temperature   : Float32.float;
  bme_humidity      : Float32.float;
  http_begin        : bool;
  http_POST         : Z;
  (** [gettimeofday(&tv, nullptr) == 0] *)
  gettimeofday_ok   : bool;
  (** the board's [LED_BUILTIN] pin *)
  LED_BUILTIN       : Z;
  (** the default of [getLocalTime]'s parameter [ms] in the Arduino core's
      declaration (5000 there) *)
  getLocalTime_ms   : Z
}.

Inductive outcome (A : Type) : Type :=
| Returned (a : A) (s : State)
| Suspended (s : State)
| OutOfFuel.
Arguments Returned {A} a s.
Arguments Suspended {A} s.
Arguments OutOfFuel {A}.

Definition M (A : Type) : Type := State -> outcome A.

Definition ret {A} (a : A) : M A := fun s => Returned a s.

Definition bind {A B} (m : M A) (k : A -> M B) : M B :=
  fun s =>
    match m s with
    | Returned a s' => k a s'
    | Suspended s' => Suspended s'
    | OutOfFuel => OutOfFuel
    end.

Declare Scope arduino_scope.
Delimit Scope arduino_scope with arduino.
Notation "x <- c ;; k" := (bind c (fun x => k))
  (at level 100, c at next level, right associativity) : arduino_scope.
Notation "c ;; k" := (bind c (fun _ => k))
  (at level 100, right associativity) : arduino_scope.
Local Open Scope arduino_scope.

Definition emit (e : Event) : M unit :=
  fun s => Returned tt (mk_State (millis s) (timeInfo s) (trace s ++ [e])).

(** [millis()], an [unsigned long] of 32 bits *)
Definition get_millis : M Z := fun s => Returned (to_uint32 (millis s)) s.

Definition delay (ms : Z) : M unit :=
  fun s => Returned tt (mk_State (millis s + ms) (timeInfo s) (trace s)).

Definition get_timeInfo : M tm := fun s => Returned (timeInfo s) s.

Definition set_timeInfo (t : tm) : M unit :=
  fun s => Returned tt (mk_State (millis s) t (trace s)).

Definition esp_sleep_enable_timer_wakeup (us : Z) : M unit :=
  emit (TimerWakeup us).

Definition esp_deep_sleep_start {A} : M A :=
  fun s => Suspended (mk_State (millis s) (timeInfo s)
                               (trace s ++ [DeepSleepStart])).

Definition when (b : bool) (m : M unit) : M unit :=
  if b then m else ret tt.

(** A [while] loop whose body may [return] from the enclosing function.
    [L] is the loop's local state; [cond] may change it (as [attempts++]
    does); the body yields [inl l] to go round again and [inr r] to
    return [r]; [after] is the code that follows the loop. *)
Fixpoint while_ {L R} (fuel : nat) (cond : L -> M (bool * L))
    (body : L -> M (L + R)) (after : L -> M R) (l : L) : M R :=
  match fuel with
  | O => fun _ => OutOfFuel
  | S fuel' =>
      c <- cond l ;;
      if fst c then
        b <- body (snd c) ;;
        match b with
        | inl l' => while_ fuel' cond body after l'
        | inr r => ret r
        end
      else after (snd c)
  end.

(** The banner both sketches print first. *)
Definition banner : string :=
  "=== ESP32 BME280 -> Supabase (NTP minute check, deep sleep) ===".

(** The condition under which [postToSupabase] reports a failed POST, the
    same expression in both sketches. *)
Definition post_failed (code : Z) : bool :=
  (code <=? 0)
  || (negb (code =? 200) && negb (code =? 201) && negb (code =? 204)).

Section WithEnv.
Variable env : Env.

(** [time(&now)] *)
Definition time_ : M Z := fun s => Returned (epoch_at env (millis s)) s.

Definition WiFi_connected : M bool :=
  fun s => Returned (wifi_connected_at env (millis s)) s.

Definition sntp_synced : M bool :=
  fun s => Returned (sntp_synced_at env (millis s)) s.
End WithEnv.

(** *** What an action adds to the trace *)

(** [adds P m]: whatever [m] does, the trace it leaves is the trace it
    found followed by events that all satisfy [P]. *)
Definition extends (P : Event -> Prop) (s s' : State) : Prop :=
  exists l, trace s' = trace s ++ l /\ Forall P l.

Definition adds {A} (P : Event -> Prop) (m : M A) : Prop :=
  forall s,
    match m s with
    | Returned _ s' => extends P s s'
    | Suspended s' => extends P s s'
    | OutOfFuel => True
    end.

(** [terminates m]: the loops of [m] never run out of fuel. *)
Definition terminates {A} (m : M A) : Prop := forall s, m s <> OutOfFuel.

(** [suspends m]: [m] always ends in deep sleep. *)
Definition suspends {A} (m : M A) : Prop :=
  forall s, exists s', m s = Suspended s'.

End Arduino.

(** ** The slot-check sketch: [save_temperature_humidity_supabase.ino] *)

Module Slot.
Import CInt Arduino.
Local Open Scope string_scope.
Local Open Scope Z_scope.
Local Open Scope arduino_scope.

Definition WIFI_CONNECT_TIMEOUT_MS : Z := 15000.
Definition PIN_BME_SDA : Z := 17.
Definition PIN_BME_SCL : Z := 16.
Definition PIN_BME_PWR : Z := 4.
Definition BME_ADDRESS : Z := 118. (* 0x76 *)

(** An event other than driving the sensor's power pin high. *)
Definition sensor_off (e : Event) : Prop :=
  e <> DigitalWrite PIN_BME_PWR true.

(** *** Deep sleep *)

(** The seconds [deepSleepSeconds] programs: its argument, raised to 10
    when it is below 10. *)
Definition clampSeconds (seconds : Z) : Z :=
  if seconds <? 10 then 10 else seconds.

Definition deepSleepSeconds (seconds : Z) : M unit :=
  let seconds := clampSeconds seconds in
  esp_sleep_enable_timer_wakeup (to_uint64 (seconds * 1000000)) ;;
  emit (SerialPrintNum "[SLEEP] Deep sleeping for seconds" seconds) ;;
  esp_deep_sleep_start.

(** *** Strategy A: the epoch-aligned half-hour boundary *)

(** [now / period] is C's truncating division.  The arithmetic is in [Z]:
    the exact values, which are the sketch's as long as they fit [time_t];
    [TimeT] has the same functions with the overflow of [time_t]. *)
Definition nextHalfHourBoundary (now : Z) : Z :=
  let period := 1800 in
  (Z.quot now period + 1) * period.

Definition secondsUntilNextHalfHourBoundary (now : Z) : Z :=
  let next := nextHalfHourBoundary now in
  let next := if next <=? now then now + 60 else next in
  to_uint64 (next - now).

(** Whether [secondsUntilNextHalfHourBoundary] takes its safety branch. *)
Definition boundaryFallbackTaken (now : Z) : bool :=
  nextHalfHourBoundary now <=? now.

Section WithEnv.
Variable env : Env.

(** *** WiFi *)

Definition connectWiFi_cond (start : Z) (_ : unit) : M (bool * unit) :=
  c <- WiFi_connected env ;;
  m <- get_millis ;;
  ret (negb c && (to_uint32 (m - start) <? WIFI_CONNECT_TIMEOUT_MS), tt).

Definition connectWiFi_body (_ : unit) : M (unit + bool) :=
  delay 250 ;; emit (SerialPrint ".") ;; ret (inl tt).

Definition connectWiFi_after (_ : unit) : M bool :=
  c <- WiFi_connected env ;;
  if negb c then
    emit (SerialPrint "[WIFI] Failed to connect.") ;; ret false
  else
    emit (SerialPrint "[WIFI] Connected.") ;; ret true.

Definition connectWiFi : M bool :=
  emit WiFiBegin ;;
  start <- get_millis ;;
  while_ 62 (connectWiFi_cond start) connectWiFi_body connectWiFi_after tt.

(** *** NTP *)

(** The [for] loop of [syncTime] with [n] iterations left, and what
    follows it. *)
Fixpoint syncTime_poll (n : nat) : M bool :=
  match n with
  | O => emit (SerialPrint "[TIME] NTP sync failed.") ;; ret false
  | S n' =>
      now <- time_ env ;;
      if 1700000000 <? now then
        emit (SerialPrint "[TIME] Synced") ;; ret true
      else
        delay 250 ;; syncTime_poll n'
  end.

Definition syncTime : M bool :=
  emit SntpConfig ;;
  emit (SerialPrint "[TIME] Syncing via NTP...") ;;
  syncTime_poll 40.

(** *** Slots *)

Definition secondsUntilNextHalfHourSlot (nowLocal : Z) : Z :=
  let t := localtime_r env nowLocal in
  let targetMin := if tm_min t <? 30 then 30 else 0 in
  let addHours := if tm_min t <? 30 then 0 else 1 in
  let target :=
    mk_tm 0 targetMin (tm_hour t + addHours)
          (tm_mday t) (tm_mon t) (tm_year t) in
  let targetEpoch := mktime env target in
  let targetEpoch :=
    if targetEpoch <=? nowLocal then nowLocal + 60 else targetEpoch in
  to_uint64 (targetEpoch - nowLocal).

Definition isMinuteSlot (nowLocal : Z) : bool :=
  let t := localtime_r env nowLocal in
  (tm_min t =? 0) || (tm_min t =? 30).

(** *** BME280 *)

Definition initBME : M bool :=
  emit (PinMode PIN_BME_PWR) ;;
  emit (DigitalWrite PIN_BME_PWR true) ;;
  delay 50 ;;
  emit (WireBegin PIN_BME_SDA PIN_BME_SCL) ;;
  emit (SerialPrint "[BME] Initializing BME280...") ;;
  emit (BmeBegin BME_ADDRESS) ;;
  if negb (bme_begin env) then
    emit (SerialPrint "[BME] BME280 not found at given address.") ;;
    ret false
  else
    emit (SerialPrint "[BME] BME280 ready.") ;; ret true.

(** What [initBME] does up to and including [bme.begin]. *)
Definition init_events : list Event :=
  [PinMode PIN_BME_PWR; DigitalWrite PIN_BME_PWR true;
   WireBegin PIN_BME_SDA PIN_BME_SCL;
   SerialPrint "[BME] Initializing BME280..."; BmeBegin BME_ADDRESS].

Definition powerDownBME : M unit :=
  emit (DigitalWrite PIN_BME_PWR false).

Definition bme_readTemperature : M Float32.float :=
  emit BmeReadTemperature ;; ret (bme_temperature env).

Definition bme_readHumidity : M Float32.float :=
  emit BmeReadHumidity ;; ret (bme_humidity env).

(** *** Supabase POST *)

Definition postToSupabase (temperatureC humidityPct : Float32.float) : M Z :=
  if negb (http_begin env) then
    emit (SerialPrint "[HTTP] http.begin() failed.") ;; ret (-1)
  else
    emit (HttpPost temperatureC humidityPct) ;;
    let code := http_POST env in
    (if post_failed code then
       emit (SerialPrintNum "[HTTP] POST failed. Code=" code)
     else
       emit (SerialPrintNum "[HTTP] POST success. Code=" code)) ;;
    emit HttpEnd ;;
    ret code.

(** *** Main *)

(** [setup()] is cut in its stages: up to the WiFi connection, the slot
    check that follows the time sync, and the measurement. *)
Definition slotCheck : M unit :=
  nowLocal <- time_ env ;;
  when (negb (isMinuteSlot nowLocal))
    (let waitSec := secondsUntilNextHalfHourBoundary nowLocal in
     emit (SerialPrintNum "[SCHEDULE] Not at minute 00/30. Sleeping" waitSec) ;;
     deepSleepSeconds waitSec).

Definition measureAndSleep : M unit :=
  ok <- initBME ;;
  when (negb ok)
    (nowLocal <- time_ env ;;
     let waitSec := secondsUntilNextHalfHourSlot nowLocal in
     emit (SerialPrintNum "[BME] Init failed. Sleeping" waitSec) ;;
     deepSleepSeconds waitSec) ;;
  temperatureC <- bme_readTemperature ;;
  humidityPct <- bme_readHumidity ;;
  powerDownBME ;;
  postToSupabase temperatureC humidityPct ;;
  nowLocal <- time_ env ;;
  let waitSec := secondsUntilNextHalfHourBoundary nowLocal in
  emit (SerialPrintNum "[SCHEDULE] Done. Sleeping" waitSec) ;;
  deepSleepSeconds waitSec.

Definition networkUp : M unit :=
  delay 200 ;;
  emit (SerialPrint banner) ;;
  ok <- connectWiFi ;;
  when (negb ok) (deepSleepSeconds 60).

Definition setup : M unit :=
  networkUp ;;
  ok <- syncTime ;;
  when (negb ok) (deepSleepSeconds 60) ;;
  slotCheck ;;
  measureAndSleep.

End WithEnv.

End Slot.

(** ** The phase-aligned sketch, with [beginDeepSleep] *)

Module Phase.
Import CInt Arduino.
Local Open Scope string_scope.
Local Open Scope Z_scope.
Local Open Scope arduino_scope.

Definition NTP_TIMEOUT_MS : Z := 20000.
Definition PIN_BME_PWR : Z := 4.
Definition SLEEP_DURATION : Z := 30.
Definition WAKE_TIME : Z := 6.

(** *** Strategy B: the arithmetic of [beginDeepSleep]

    [wake] and [period] stand for the constants [WAKE_TIME] and
    [SLEEP_DURATION]; [%] is C's remainder, [/] its truncating division. *)

Section Alignment.
Variables wake period : Z.
Variable t : tm.

Definition curHour : Z := Z.rem (tm_hour t - wake + 24) 24.
Definition curMinute : Z := curHour * 60 + tm_min t.
Definition curSecond : Z := curHour * 3600 + tm_min t * 60 + tm_sec t.
Definition desiredSleepSeconds : Z := period * 60.
Definition offsetMinutes : Z := Z.rem curMinute period.
Definition offsetSeconds : Z := Z.rem curSecond desiredSleepSeconds.

(** The condition of the [if]: less than two minutes left, or more than
    95% of the period gone (a [float] division and comparison). *)
Definition skipAhead : bool :=
  (desiredSleepSeconds - offsetSeconds <? 120)
  || Float32.gtb
       (Float32.div (Float32.of_Z offsetSeconds)
                    (Float32.of_Z desiredSleepSeconds))
       Float32.lit_0_95.

Definition sleepMinutes : Z :=
  let sleepMinutes := period - offsetMinutes in
  if skipAhead then sleepMinutes + period else sleepMinutes.

Definition predictedWakeHour : Z :=
  Z.rem (Z.quot (curMinute + sleepMinutes) 60) 24.

(** [sleepDuration] before the compensation: [sleepMinutes * 60 - tm_sec]
    converted to [uint64_t]. *)
Definition alignedSeconds : Z := to_uint64 (sleepMinutes * 60 - tm_sec t).

(** [sleepDuration += 3ULL; sleepDuration *= 1.0015f;]: the product is
    taken in [float] and converted back to [uint64_t]. *)
Definition compensate (d : Z) : Z :=
  let d := to_uint64 (d + 3) in
  Float32.to_uint64 (Float32.mul (Float32.of_Z d) Float32.lit_1_0015).

Definition sleepDuration : Z := compensate alignedSeconds.

End Alignment.

(** The clock fields of a [struct tm] that [localtime_r] fills in (POSIX
    time has no leap second). *)
Definition valid_clock (t : tm) : Prop :=
  0 <= tm_hour t < 24 /\ 0 <= tm_min t < 60 /\ 0 <= tm_sec t < 60.

Section WithEnv.
Variable env : Env.

(** [connectWiFi], [initBME] and [powerDownBME] are, line for line, the
    functions of the other sketch. *)
Definition connectWiFi : M bool := Slot.connectWiFi env.
Definition initBME : M bool := Slot.initBME env.
Definition powerDownBME : M unit := Slot.powerDownBME.
Definition bme_readTemperature : M Float32.float :=
  Slot.bme_readTemperature env.
Definition bme_readHumidity : M Float32.float :=
  Slot.bme_readHumidity env.

Definition killWiFi : M unit := emit WiFiDisconnect.

Definition configTzTime : M unit := emit SntpConfig.

Definition disableBuiltinLED : M unit :=
  emit (PinMode (LED_BUILTIN env)) ;;
  emit (DigitalWrite (LED_BUILTIN env) false) ;;
  emit (GpioHold (LED_BUILTIN env)).

(** *** Time *)

(** [getLocalTime(&timeInfo, ms)]: every round stores the broken-down time
    in [timeInfo], valid or not. *)
Definition getLocalTime_cond (ms start : Z) (_ : unit) : M (bool * unit) :=
  m <- get_millis ;;
  ret (to_uint32 (m - start) <=? ms, tt).

Definition getLocalTime_body (_ : unit) : M (unit + bool) :=
  now <- time_ env ;;
  set_timeInfo (localtime_r env now) ;;
  info <- get_timeInfo ;;
  if 2016 - 1900 <? tm_year info then ret (inr true)
  else delay 10 ;; ret (inl tt).

Definition getLocalTime (ms : Z) : M bool :=
  start <- get_millis ;;
  while_ (Z.to_nat (ms / 10) + 2)
    (getLocalTime_cond ms start) getLocalTime_body (fun _ => ret false) tt.

(** [printLocalTime(&timeInfo)]; the loop's local state is [attempts], and
    its body returns. *)
Definition printLocalTime : M bool :=
  while_ 5
    (fun attempts : Z =>
       ok <- getLocalTime (getLocalTime_ms env) ;;
       if negb ok then ret (attempts <? 3, attempts + 1)
       else ret (false, attempts))
    (fun attempts =>
       emit (SerialPrint "Failed to get the time!") ;;
       ret (inr false))
    (fun _ =>
       emit (SerialPrint "%A, %B %d, %Y %H:%M:%S") ;;
       ret true)
    0.

Definition waitForSNTPSync_cond (timeout : Z) (_ : unit) : M (bool * unit) :=
  synced <- sntp_synced env ;;
  m <- get_millis ;;
  ret (negb synced && (m <? timeout), tt).

Definition waitForSNTPSync_body (_ : unit) : M (unit + unit) :=
  emit (SerialPrint ".") ;; delay 100 ;; ret (inl tt).

Definition waitForSNTPSync : M bool :=
  m <- get_millis ;;
  let timeout := to_uint32 (m + NTP_TIMEOUT_MS) in
  synced <- sntp_synced env ;;
  m <- get_millis ;;
  when (negb synced && (m <? timeout))
    (emit (SerialPrint "Waiting for SNTP synchronization.") ;;
     delay 100 ;;
     while_ 202 (waitForSNTPSync_cond timeout) waitForSNTPSync_body
       (fun _ => emit (SerialPrint "") ;; ret tt) tt) ;;
  printLocalTime.

(** *** Deep sleep *)

Definition failed_sync_msg : string :=
  "Failed to synchronize time before deep-sleep, referencing older time.".

Definition beginDeepSleep (startTime : Z) : M unit :=
  ok <- getLocalTime (getLocalTime_ms env) ;;
  when (negb ok) (emit (SerialPrint failed_sync_msg)) ;;
  info <- get_timeInfo ;;
  let sleepDuration := sleepDuration WAKE_TIME SLEEP_DURATION info in
  esp_sleep_enable_timer_wakeup (to_uint64 (sleepDuration * 1000000)) ;;
  m <- get_millis ;;
  emit (SerialPrintNum "Awake for (ms)" (to_uint32 (m - startTime))) ;;
  emit (SerialPrintNum "Entering deep sleep for (s)" sleepDuration) ;;
  esp_deep_sleep_start.

(** *** Supabase POST *)

Definition no_timestamp_msg : string :=
  "[TIME] Failed to build UTC timestamp, using empty created_at.".

Definition buildUtcTimestamp : M bool := ret (gettimeofday_ok env).

Definition postToSupabase (temperatureC humidityPct : Float32.float) : M Z :=
  timestampIsBuilt <- buildUtcTimestamp ;;
  when (negb timestampIsBuilt) (emit (SerialPrint no_timestamp_msg)) ;;
  if negb (http_begin env) then
    emit (SerialPrint "[HTTP] http.begin() failed.") ;; ret (-1)
  else
    emit (HttpPost temperatureC humidityPct) ;;
    let code := http_POST env in
    (if post_failed code
     then emit (SerialPrintNum "[HTTP] POST failed. Code=" code)
     else emit (SerialPrintNum "[HTTP] POST success. Code=" code)) ;;
    emit HttpEnd ;;
    ret code.

(** *** Main *)

(** [setup()] is cut in two stages: up to the SNTP configuration, which
    yields [startTime], and from [initBME()] on. *)
Definition measureAndSleep (startTime : Z) : M unit :=
  ok <- initBME ;;
  when (negb ok)
    (emit (SerialPrint "[BME] Init failed. Going to sleep.") ;;
     killWiFi ;;
     beginDeepSleep startTime) ;;
  temperatureC <- bme_readTemperature ;;
  humidityPct <- bme_readHumidity ;;
  powerDownBME ;;
  postToSupabase temperatureC humidityPct ;;
  emit (SerialPrint "[SCHEDULE] Done.Going to sleep") ;;
  killWiFi ;;
  beginDeepSleep startTime.

Definition networkUp : M Z :=
  startTime <- get_millis ;;
  disableBuiltinLED ;;
  set_timeInfo (mk_tm 0 0 0 0 0 0) ;;
  emit (SerialPrint banner) ;;
  ok <- connectWiFi ;;
  when (negb ok) (beginDeepSleep startTime) ;;
  configTzTime ;;
  ret startTime.

Definition setup : M unit :=
  startTime <- networkUp ;;
  timeConfigured <- waitForSNTPSync ;;
  when (negb timeConfigured)
    (emit (SerialPrint "Time Synchronization Failed") ;;
     killWiFi ;;
     beginDeepSleep startTime) ;;
  measureAndSleep startTime.

End WithEnv.

End Phase.

(** ** A test bench: a board in the UTC time zone

    [gmtime] and [timegm] are the proleptic Gregorian calendar; the
    environments below answer the sketches' calls with them. *)

Module Bench.
Import CInt Arduino.

Definition civil_from_days (z : Z) : Z * Z * Z :=
  let z := z + 719468 in
  let era := z / 146097 in
  let doe := z - era * 146097 in
  let yoe := (doe - doe / 1460 + doe / 36524 - doe / 146096) / 365 in
  let doy := doe - (365 * yoe + yoe / 4 - yoe / 100) in
  let mp := (5 * doy + 2) / 153 in
  let d := doy - (153 * mp + 2) / 5 + 1 in
  let m := if mp <? 10 then mp + 3 else mp - 9 in
  let y := yoe + era * 400 + (if m <=? 2 then 1 else 0) in
  (y, m, d).

Definition days_from_civil (y m d : Z) : Z :=
  let y := if m <=? 2 then y - 1 else y in
  let era := y / 400 in
  let yoe := y - era * 400 in
  let doy := (153 * (if 2 <? m then m - 3 else m + 9) + 2) / 5 + d - 1 in
  let doe := yoe * 365 + yoe / 4 - yoe / 100 + doy in
  era * 146097 + doe - 719468.

Definition gmtime (epoch : Z) : tm :=
  let '(y, m, d) := civil_from_days (epoch / 86400) in
  let sod := epoch mod 86400 in
  mk_tm (sod mod 60) (sod / 60 mod 60) (sod / 3600) d (m - 1) (y - 1900).

Definition timegm (t : tm) : Z :=
  days_from_civil (tm_year t + 1900) (tm_mon t + 1) (tm_mday t) * 86400
  + tm_hour t * 3600 + tm_min t * 60 + tm_sec t.

(** The state at power-on. *)
Definition boot : State := mk_State 0 (mk_tm 0 0 0 0 0 0) [].

(** A board whose clock shows [epoch0] at power-on and runs on from
    there, WiFi and SNTP up from the start, with the given answers of the
    sensor and of the server. *)
Definition board (epoch0 : Z) (bme_ok : bool) (code : Z) : Env :=
  mk_Env (fun ms => epoch0 + ms / 1000) gmtime timegm
         (fun _ => true) (fun _ => true)
         bme_ok (Float32.of_Z 21) (Float32.of_Z 55)
         true code true 2 5000.

(** A board that never gets the time: the clock starts at the epoch. *)
Definition board_unsynced : Env :=
  mk_Env (fun ms => ms / 1000) gmtime timegm
         (fun _ => true) (fun _ => false)
         true (Float32.of_Z 21) (Float32.of_Z 55)
         true 201 true 2 5000.

(** A board whose clock is at the epoch for the first six seconds of
    uptime and right from then on. *)
Definition board_late_sync : Env :=
  mk_Env (fun ms => if ms <? 6000 then ms / 1000 else 1700043420 + ms / 1000)
         gmtime timegm
         (fun _ => true) (fun _ => true)
         true (Float32.of_Z 21) (Float32.of_Z 55)
         true 201 true 2 5000.

(** 2023-11-15 10:29:50, 10:17:00 and 10:30:00 UTC. *)
Definition t_10_29_50 : Z := 1700044190.
Definition t_10_17_00 : Z := 1700043420.
Definition t_10_30_00 : Z := 1700044200.

(** The integers from 0 up to [n], excluded, for exhaustive checks. *)
Definition upto (n : nat) : list Z := map Z.of_nat (seq 0 n).

Definition timer_of (e : Event) : option Z :=
  match e with TimerWakeup us => Some us | _ => None end.

(** The timer values programmed in a trace, in microseconds. *)
Definition timers (l : list Event) : list Z :=
  flat_map (fun e => match timer_of e with Some us => [us] | None => [] end) l.

(** The [digitalWrite] calls of a trace, in order. *)
Definition pin_writes (l : list Event) : list (Z * bool) :=
  flat_map (fun e => match e with
                     | DigitalWrite pin high => [(pin, high)]
                     | _ => []
                     end) l.

Definition state_of {A} (o : outcome A) : State :=
  match o with
  | Returned _ s => s
  | Suspended s => s
  | OutOfFuel => boot
  end.

Definition final_trace {A} (o : outcome A) : list Event :=
  match o with
  | Returned _ s => trace s
  | Suspended s => trace s
  | OutOfFuel => []
  end.

End Bench.

(** * Strategy A in [time_t] arithmetic

    [Slot.nextHalfHourBoundary] and [Slot.secondsUntilNextHalfHourBoundary]
    compute in [Z]: the exact values.  The compiled sketch computes in a
    signed 64-bit [time_t], where a result that leaves the range wraps
    around.  These are the same two functions with every [time_t] result
    reduced into the range; they give the exact values for every time
    before the last half-hour boundary that a [time_t] holds, and differ in
    the eight seconds from there to the end of the type. *)

Module TimeT.
Import CInt.

(** Conversion to [time_t]: reduction into the signed 64-bit range. *)
Definition to_time_t (z : Z) : Z := (z + 2 ^ 63) mod 2 ^ 64 - 2 ^ 63.

(** The last half-hour boundary that a [time_t] holds. *)
Definition LAST_HALF_HOUR : Z := 9223372036854775800.

Definition nextHalfHourBoundary (now : Z) : Z :=
  let period := 1800 in
  to_time_t (to_time_t (Z.quot now period + 1) * period).

Definition secondsUntilNextHalfHourBoundary (now : Z) : Z :=
  let next := nextHalfHourBoundary now in
  let next := if next <=? now then to_time_t (now + 60) else next in
  to_uint64 (to_time_t (next - now)).

(** Whether [secondsUntilNextHalfHourBoundary] takes its safety branch. *)
Definition boundaryFallbackTaken (now : Z) : bool :=
  nextHalfHourBoundary now <=? now.

End TimeT.

(** * Observations on a run

    What the properties of a whole wake cycle look at in a trace, and the
    collaborators they quantify over. *)

Module Observe.
Import CInt Arduino Bench.
Local Open Scope list_scope.

(** The measurements handed to [http.POST], in order. *)
Definition posts (l : list Event) : list (Float32.float * Float32.float) :=
  flat_map (fun e => match e with
                     | HttpPost t h => [(t, h)]
                     | _ => []
                     end) l.

(** An event that programs no wake-up timer. *)
Definition quiet (e : Event) : Prop := timer_of e = None.

(** An event that neither posts a measurement nor writes a pin. *)
Definition idle (e : Event) : Prop := posts [e] = [] /\ pin_writes [e] = [].

(** An event of a cycle that stays off the network services and off the
    sensor: no SNTP configuration, no I2C or BME280 call, no HTTP call, and
    no pin driven high. *)
Definition offline (e : Event) : Prop :=
  match e with
  | SntpConfig | WireBegin _ _ | BmeBegin _ | BmeReadTemperature
  | BmeReadHumidity | HttpPost _ _ | HttpEnd => False
  | DigitalWrite _ high => high = false
  | _ => True
  end.

(** An action that programs no timer when it returns, and exactly one,
    followed by [esp_deep_sleep_start()] as the last event, when it puts the
    chip to sleep. *)
Definition single_sleep {A} (m : M A) : Prop :=
  forall s,
    match m s with
    | Returned _ s' => timers (trace s') = timers (trace s)
    | Suspended s' =>
        (exists us, timers (trace s') = timers (trace s) ++ [us])
        /\ last (trace s') DeepSleepStart = DeepSleepStart
    | OutOfFuel => False
    end.

(** The date that [secondsUntilNextHalfHourSlot] hands to [mktime]: minute
    30 of the local hour, or minute 0 of the next one. *)
Definition halfHourSlotTarget (t : tm) : tm :=
  mk_tm 0 (if tm_min t <? 30 then 30 else 0)
        (tm_hour t + (if tm_min t <? 30 then 0 else 1))
        (tm_mday t) (tm_mon t) (tm_year t).

(** The local minute is the minute of the epoch time up to a multiple of
    half an hour: a zone whose offset from UTC is a multiple of 30
    minutes. *)
Definition minute_follows_epoch (env : Env) : Prop :=
  forall t, 0 <= t ->
    0 <= tm_min (localtime_r env t) < 60
    /\ tm_min (localtime_r env t) mod 30 = (t / 60) mod 30.

(** A board out of reach of its access point; its clock, set in an earlier
    cycle, shows [epoch0] at power-on. *)
Definition board_offline (epoch0 : Z) : Env :=
  mk_Env (fun ms => epoch0 + ms / 1000) gmtime timegm
         (fun _ => false) (fun _ => false)
         true (Float32.of_Z 21) (Float32.of_Z 55)
         true 201 true 2 5000.

(** A board in reach of its access point whose SNTP client never
    synchronises; its clock shows [epoch0] at power-on. *)
Definition board_without_sntp (epoch0 : Z) : Env :=
  mk_Env (fun ms => epoch0 + ms / 1000) gmtime timegm
         (fun _ => true) (fun _ => false)
         true (Float32.of_Z 21) (Float32.of_Z 55)
         true 201 true 2 5000.

(** A board whose clock is at the epoch until the given uptime and right
    from then on. *)
Definition board_synced_after (uptime : Z) : Env :=
  mk_Env (fun ms => if ms <? uptime then ms / 1000
                    else 1700043420 + ms / 1000)
         gmtime timegm
         (fun _ => true) (fun _ => true)
         true (Float32.of_Z 21) (Float32.of_Z 55)
         true 201 true 2 5000.

End Observe.

(** * The text of [created_at]

    [buildUtcTimestamp] of the second sketch, with the characters that
    [snprintf] writes for ["%04d-%02d-%02d %02d:%02d:%02d.%06ld+00"].
    [Phase.buildUtcTimestamp] keeps the returned flag only. *)

Module Timestamp.
Import CInt.
Local Open Scope string_scope.
Local Open Scope Z_scope.

Definition digit (d : Z) : ascii := ascii_of_N (48 + Z.to_N d).

(** The decimal digits of a nonnegative [n] in front of [acc]; twenty
    rounds cover every 64-bit value. *)
Fixpoint decimal (fuel : nat) (n : Z) (acc : string) : string :=
  match fuel with
  | O => acc
  | S fuel' =>
      let acc' := String (digit (n mod 10)) acc in
      if n <? 10 then acc' else decimal fuel' (n / 10) acc'
  end.

Definition zeros (n : nat) : string :=
  string_of_list_ascii (repeat "0"%char n).

(** [%0<width>d]: the sign, then zeros up to the width, then the digits. *)
Definition fmt_0d (width : nat) (n : Z) : string :=
  let ds := decimal 20 (Z.abs n) "" in
  if n <? 0
  then "-" ++ zeros (width - 1 - String.length ds) ++ ds
  else zeros (width - String.length ds) ++ ds.

Definition formatUtcTimestamp (utc : tm) (tv_usec : Z) : string :=
  fmt_0d 4 (tm_year utc + 1900) ++ "-" ++ fmt_0d 2 (tm_mon utc + 1) ++ "-"
  ++ fmt_0d 2 (tm_mday utc) ++ " " ++ fmt_0d 2 (tm_hour utc) ++ ":"
  ++ fmt_0d 2 (tm_min utc) ++ ":" ++ fmt_0d 2 (tm_sec utc) ++ "."
  ++ fmt_0d 6 tv_usec ++ "+00".

(** [buildUtcTimestamp(out, outSize)]: the returned flag and the C string
    left in [out], which [postToSupabase] zeroes beforehand.
    [gettimeofday] answers [None] when the call fails, and the pair
    [(tv_sec, tv_usec)] otherwise. *)
Definition buildUtcTimestamp_text (gmtime_r : Z -> tm)
    (gettimeofday : option (Z * Z)) (outSize : Z) : bool * string :=
  match gettimeofday with
  | None => (false, "")
  | Some (tv_sec, tv_usec) =>
      let text := formatUtcTimestamp (gmtime_r tv_sec) tv_usec in
      let n := Z.of_nat (String.length text) in
      ((0 <? n) && (n <? outSize),
       substring 0 (Z.to_nat (outSize - 1)) text)
  end.

(** The number that a string of decimal digits denotes. *)
Fixpoint numeral_from (acc : Z) (s : string) : Z :=
  match s with
  | EmptyString => acc
  | String c s' => numeral_from (10 * acc + (Z.of_N (N_of_ascii c) - 48)) s'
  end.

Definition numeral (s : string) : Z := numeral_from 0 s.

End Timestamp.

(** * Facts *)

(** ** Integer conversions *)

Module CIntFacts.
Import CInt.

Lemma to_uint64_small z : 0 <= z < 2 ^ 64 -> to_uint64 z = z.
Proof. intros H. unfold to_uint64. apply Z.mod_small. exact H. Qed.

Lemma to_uint32_small z : 0 <= z < 2 ^ 32 -> to_uint32 z = z.
Proof. intros H. unfold to_uint32. apply Z.mod_small. exact H. Qed.

Lemma to_uint32_range (z : Z) : 0 <= to_uint32 z < 4294967296.
Proof. unfold to_uint32. apply Z.mod_pos_bound. reflexivity. Qed.

Lemma to_uint32_sub (a b : Z) :
  to_uint32 (to_uint32 a - to_uint32 b) = to_uint32 (a - b).
Proof. unfold to_uint32. rewrite <- Zminus_mod. reflexivity. Qed.

Lemma to_uint32_add (a b : Z) :
  0 <= to_uint32 a + b < 4294967296 -> to_uint32 (a + b) = to_uint32 a + b.
Proof.
  intros H. unfold to_uint32 in *.
  rewrite <- Zplus_mod_idemp_l. apply Z.mod_small.
  change (2 ^ 32) with 4294967296 in *. exact H.
Qed.

End CIntFacts.

(** ** The [float] literals *)

Module Float32Facts.
Import Float32.

(** Both literals are the correctly rounded quotients of their decimal
    numerator and denominator. *)
Lemma lit_1_0015_rounded : div (of_Z 10015) (of_Z 10000) = lit_1_0015.
Proof. vm_compute. reflexivity. Qed.

Lemma lit_0_95_rounded : div (of_Z 95) (of_Z 100) = lit_0_95.
Proof. vm_compute. reflexivity. Qed.

End Float32Facts.

(** ** Traces *)

Module ArduinoFacts.
Import CInt Arduino.

Lemma extends_same P s s' : trace s' = trace s -> extends P s s'.
Proof.
  intros E. exists []. split; [now rewrite app_nil_r | constructor].
Qed.

Lemma extends_refl P s : extends P s s.
Proof. apply extends_same. reflexivity. Qed.

Lemma extends_trans P s1 s2 s3 :
  extends P s1 s2 -> extends P s2 s3 -> extends P s1 s3.
Proof.
  intros [l1 [E1 F1]] [l2 [E2 F2]]. exists (l1 ++ l2). split.
  - rewrite E2, E1, app_assoc. reflexivity.
  - apply Forall_app. split; assumption.
Qed.

Lemma extends_Forall P s s' :
  extends P s s' -> Forall P (trace s) -> Forall P (trace s').
Proof.
  intros [l [E F]] H. rewrite E. apply Forall_app. split; assumption.
Qed.

Lemma adds_ret {A} P (a : A) : adds P (ret a).
Proof. intros s. apply extends_refl. Qed.

Lemma adds_bind {A B} P (m : M A) (k : A -> M B) :
  adds P m -> (forall a, adds P (k a)) -> adds P (bind m k).
Proof.
  intros Hm Hk s. unfold bind. specialize (Hm s).
  destruct (m s) as [a s'| s' |]; auto.
  specialize (Hk a s'). destruct (k a s') as [b s''| s'' |]; auto;
    eapply extends_trans; eauto.
Qed.

Lemma adds_emit (P : Event -> Prop) e : P e -> adds P (emit e).
Proof.
  intros H s. exists [e]. split; [reflexivity | repeat constructor; exact H].
Qed.

Lemma adds_delay P ms : adds P (delay ms).
Proof. intros s. apply extends_same. reflexivity. Qed.

Lemma adds_get_millis P : adds P get_millis.
Proof. intros s. apply extends_refl. Qed.

Lemma adds_get_timeInfo P : adds P get_timeInfo.
Proof. intros s. apply extends_refl. Qed.

Lemma adds_set_timeInfo P t : adds P (set_timeInfo t).
Proof. intros s. apply extends_same. reflexivity. Qed.

Lemma adds_time P env : adds P (time_ env).
Proof. intros s. apply extends_refl. Qed.

Lemma adds_WiFi_connected P env : adds P (WiFi_connected env).
Proof. intros s. apply extends_refl. Qed.

Lemma adds_sntp_synced P env : adds P (sntp_synced env).
Proof. intros s. apply extends_refl. Qed.

Lemma adds_deep_sleep_start {A} (P : Event -> Prop) :
  P DeepSleepStart -> adds P (@esp_deep_sleep_start A).
Proof.
  intros H s. exists [DeepSleepStart]. split;
    [reflexivity | repeat constructor; exact H].
Qed.

Lemma adds_when P b m : adds P m -> adds P (when b m).
Proof. intros H. destruct b; [exact H | apply adds_ret]. Qed.

Lemma adds_while {L R} P fuel (cond : L -> M (bool * L))
    (body : L -> M (L + R)) (after : L -> M R) :
  (forall l, adds P (cond l)) ->
  (forall l, adds P (body l)) ->
  (forall l, adds P (after l)) ->
  forall l, adds P (while_ fuel cond body after l).
Proof.
  intros Hc Hb Ha. induction fuel as [|fuel IH]; intros l.
  - intros s. exact I.
  - cbn [while_]. apply adds_bind; [apply Hc|]. intros [b l']. cbn [fst snd].
    destruct b; [|apply Ha].
    apply adds_bind; [apply Hb|]. intros [l''|r]; [apply IH | apply adds_ret].
Qed.

(** *** Running actions *)
Lemma bind_returned {A B} (m : M A) (k : A -> M B) s a s' :
  m s = Returned a s' -> bind m k s = k a s'.
Proof. intros H. unfold bind. rewrite H. reflexivity. Qed.

Lemma while_S {L R} (fuel : nat) (cond : L -> M (bool * L))
    (body : L -> M (L + R)) (after : L -> M R) (l : L) :
  while_ (S fuel) cond body after l =
  bind (cond l) (fun c =>
    if fst c then
      bind (body (snd c)) (fun b =>
        match b with
        | inl l' => while_ fuel cond body after l'
        | inr r => ret r
        end)
    else after (snd c)).
Proof. reflexivity. Qed.

Lemma adds_at {A} (P : Event -> Prop) (m : M A) (s s' : State) (a : A) :
  adds P m -> m s = Returned a s' -> extends P s s'.
Proof. intros H E. specialize (H s). rewrite E in H. exact H. Qed.

Lemma adds_at_suspended {A} (P : Event -> Prop) (m : M A) (s s' : State) :
  adds P m -> m s = Suspended s' -> extends P s s'.
Proof. intros H E. specialize (H s). rewrite E in H. exact H. Qed.

(** *** Termination and suspension *)

Lemma returns_terminates {A} (m : M A) :
  (forall s, exists a s', m s = Returned a s') -> terminates m.
Proof. intros H s. destruct (H s) as [a [s' E]]. rewrite E. discriminate. Qed.

Lemma suspends_terminates {A} (m : M A) : suspends m -> terminates m.
Proof. intros H s. destruct (H s) as [s' E]. rewrite E. discriminate. Qed.

Lemma terminates_ret {A} (a : A) : terminates (ret a).
Proof. intros s. discriminate. Qed.

Lemma terminates_bind {A B} (m : M A) (k : A -> M B) :
  terminates m -> (forall a, terminates (k a)) -> terminates (bind m k).
Proof.
  intros Hm Hk s. unfold bind. specialize (Hm s).
  destruct (m s) as [a s'| s' |]; [apply Hk | discriminate | contradiction].
Qed.

Lemma suspends_bind {A B} (m : M A) (k : A -> M B) :
  terminates m -> (forall a, suspends (k a)) -> suspends (bind m k).
Proof.
  intros Hm Hk s. unfold bind. specialize (Hm s).
  destruct (m s) as [a s'| s' |];
    [apply Hk | exists s'; reflexivity | contradiction].
Qed.

Lemma terminates_when b (m : M unit) : terminates m -> terminates (when b m).
Proof. intros H. destruct b; [exact H | apply terminates_ret]. Qed.

Lemma suspends_deep_sleep_start {A} : suspends (@esp_deep_sleep_start A).
Proof. intros s. eexists. reflexivity. Qed.

Ltac run_step :=
  lazymatch goal with
  | |- terminates (bind _ _) => apply terminates_bind; [|intros ?]
  | |- suspends (bind _ _) => apply suspends_bind; [|intros ?]
  | |- terminates (when _ _) => apply terminates_when
  | |- terminates (if ?b then _ else _) => destruct b
  | |- suspends (if ?b then _ else _) => destruct b
  | |- suspends esp_deep_sleep_start => apply suspends_deep_sleep_start
  | |- terminates (ret _) => apply terminates_ret
  | |- terminates (emit _) => intros ?; discriminate
  | |- terminates (esp_sleep_enable_timer_wakeup _) => intros ?; discriminate
  | |- terminates (delay _) => intros ?; discriminate
  | |- terminates get_millis => intros ?; discriminate
  | |- terminates get_timeInfo => intros ?; discriminate
  | |- terminates (set_timeInfo _) => intros ?; discriminate
  | |- terminates (time_ _) => intros ?; discriminate
  | |- terminates (WiFi_connected _) => intros ?; discriminate
  | |- terminates (sntp_synced _) => intros ?; discriminate
  end.

Ltac run_tac := repeat run_step.

End ArduinoFacts.

(** ** Strategy A: the epoch-aligned boundary and the sleep floor *)

Module StrategyA.
Import CInt Arduino Slot Bench CIntFacts.
Local Open Scope string_scope.
Local Open Scope Z_scope.

Lemma nextHalfHourBoundary_eq (now : Z) :
  0 <= now -> nextHalfHourBoundary now = now + (1800 - now mod 1800).
Proof.
  intros H. unfold nextHalfHourBoundary. cbv zeta.
  rewrite Z.quot_div_nonneg by lia.
  pose proof (Z.div_mod now 1800 ltac:(lia)). lia.
Qed.

(** The boundary stays inside [time_t] for every time that is not within
    half an hour of the type's end. *)
Lemma nextHalfHourBoundary_fits (now : Z) :
  0 <= now <= TIME_T_MAX - 1800 -> time_t_fits (nextHalfHourBoundary now).
Proof.
  intros H. unfold time_t_fits. rewrite nextHalfHourBoundary_eq by lia.
  pose proof (Z.mod_pos_bound now 1800 ltac:(lia)).
  unfold TIME_T_MAX in *. lia.
Qed.

Lemma to_time_t_fits (z : Z) : time_t_fits z -> TimeT.to_time_t z = z.
Proof.
  unfold time_t_fits, TIME_T_MAX, TimeT.to_time_t.
  change (2 ^ 63) with 9223372036854775808.
  change (2 ^ 64) with 18446744073709551616.
  intros H. rewrite Z.mod_small by lia. lia.
Qed.

(** The boundary at any [now], with C's remainder. *)
Lemma nextHalfHourBoundary_rem (now : Z) :
  nextHalfHourBoundary now = now + (1800 - Z.rem now 1800).
Proof.
  unfold nextHalfHourBoundary. cbv zeta.
  pose proof (Z.quot_rem' now 1800). lia.
Qed.

Lemma rem_1800_bounds (now : Z) :
  -1800 < Z.rem now 1800 < 1800
  /\ (now < 0 -> Z.rem now 1800 <= 0)
  /\ (0 <= now -> 0 <= Z.rem now 1800).
Proof.
  split; [pose proof (Z.rem_bound_abs now 1800 ltac:(lia)); lia|].
  split; intros H; [apply Z.rem_nonpos | apply Z.rem_nonneg]; lia.
Qed.

Lemma time_t_fits_nonneg (now : Z) :
  0 <= now < TimeT.LAST_HALF_HOUR -> time_t_fits now.
Proof.
  unfold time_t_fits, TIME_T_MAX, TimeT.LAST_HALF_HOUR.
  change (2 ^ 63) with 9223372036854775808. lia.
Qed.

(** Below the last boundary the [time_t] computation does not overflow:
    it gives the exact values. *)
Lemma time_t_nextHalfHourBoundary_exact (now : Z) :
  time_t_fits now -> now < TimeT.LAST_HALF_HOUR ->
  TimeT.nextHalfHourBoundary now = nextHalfHourBoundary now.
Proof.
  unfold time_t_fits, TIME_T_MAX, TimeT.LAST_HALF_HOUR.
  change (2 ^ 63) with 9223372036854775808.
  intros Hf Hl. unfold TimeT.nextHalfHourBoundary. cbv zeta.
  pose proof (nextHalfHourBoundary_rem now) as E.
  unfold nextHalfHourBoundary in E. cbv zeta in E.
  destruct (rem_1800_bounds now) as [Hr [Hn Hp]].
  pose proof (Z.quot_rem' now 1800) as Q.
  assert (Hm : Z.rem (now + (1800 - Z.rem now 1800)) 1800 = 0).
  { rewrite <- E. apply Z.rem_mul. lia. }
  rewrite (to_time_t_fits (Z.quot now 1800 + 1)).
  - apply to_time_t_fits. unfold time_t_fits, TIME_T_MAX.
    change (2 ^ 63) with 9223372036854775808.
    fold (nextHalfHourBoundary now).
    rewrite (nextHalfHourBoundary_rem now).
    destruct (Z.lt_ge_cases now 0) as [Hneg|Hpos].
    + specialize (Hn Hneg). lia.
    + specialize (Hp Hpos).
      assert (Hq : Z.quot now 1800 < 5124095576030431).
      { rewrite Z.quot_div_nonneg by lia.
        apply Z.div_lt_upper_bound; lia. }
      lia.
  - unfold time_t_fits, TIME_T_MAX.
    change (2 ^ 63) with 9223372036854775808. lia.
Qed.

Lemma time_t_secondsUntilNextHalfHourBoundary_exact (now : Z) :
  time_t_fits now -> now < TimeT.LAST_HALF_HOUR ->
  TimeT.boundaryFallbackTaken now = false
  /\ TimeT.secondsUntilNextHalfHourBoundary now
     = secondsUntilNextHalfHourBoundary now
  /\ secondsUntilNextHalfHourBoundary now = 1800 - Z.rem now 1800.
Proof.
  intros Hf Hl.
  unfold TimeT.boundaryFallbackTaken, TimeT.secondsUntilNextHalfHourBoundary,
    secondsUntilNextHalfHourBoundary. cbv zeta.
  rewrite (time_t_nextHalfHourBoundary_exact now Hf Hl).
  rewrite nextHalfHourBoundary_rem.
  destruct (rem_1800_bounds now) as [Hr _].
  destruct (Z.leb_spec (now + (1800 - Z.rem now 1800)) now); [lia|].
  split; [reflexivity|].
  replace (now + (1800 - Z.rem now 1800) - now) with (1800 - Z.rem now 1800)
    by lia.
  rewrite to_time_t_fits
    by (unfold time_t_fits, TIME_T_MAX;
        change (2 ^ 63) with 9223372036854775808; lia).
  split; [reflexivity|]. apply to_uint64_small.
  change (2 ^ 64) with 18446744073709551616. lia.
Qed.

Lemma time_t_wait_nonneg (x : Z) :
  0 <= x < TimeT.LAST_HALF_HOUR ->
  TimeT.nextHalfHourBoundary x = x + (1800 - x mod 1800)
  /\ TimeT.secondsUntilNextHalfHourBoundary x = 1800 - x mod 1800
  /\ Slot.secondsUntilNextHalfHourBoundary x = 1800 - x mod 1800.
Proof.
  intros Hx. pose proof (time_t_fits_nonneg x Hx) as Hf.
  destruct (time_t_secondsUntilNextHalfHourBoundary_exact x Hf (proj2 Hx))
    as [_ [E1 E2]].
  rewrite (time_t_nextHalfHourBoundary_exact x Hf (proj2 Hx)), E1, E2.
  rewrite nextHalfHourBoundary_rem, Z.rem_mod_nonneg by lia.
  repeat split.
Qed.

(** In the last eight seconds of [time_t] the product overflows: the
    boundary wraps to a negative value, and the safety branch answers. *)
Lemma time_t_nextHalfHourBoundary_overflow (now : Z) :
  TimeT.LAST_HALF_HOUR <= now <= TIME_T_MAX ->
  TimeT.nextHalfHourBoundary now = -9223372036854774016
  /\ TimeT.boundaryFallbackTaken now = true
  /\ TimeT.secondsUntilNextHalfHourBoundary now = 60.
Proof.
  unfold TimeT.LAST_HALF_HOUR, TIME_T_MAX.
  change (2 ^ 63) with 9223372036854775808. intros H.
  assert (Eq : Z.quot now 1800 = 5124095576030431).
  { rewrite Z.quot_div_nonneg by lia. symmetry.
    apply (Z.div_unique now 1800 _ (now - 9223372036854775800)); lia. }
  assert (En : TimeT.nextHalfHourBoundary now = -9223372036854774016).
  { unfold TimeT.nextHalfHourBoundary. cbv zeta. rewrite Eq.
    vm_compute. reflexivity. }
  split; [exact En|].
  unfold TimeT.boundaryFallbackTaken, TimeT.secondsUntilNextHalfHourBoundary.
  cbv zeta. rewrite En.
  destruct (Z.leb_spec (-9223372036854774016) now); [|lia].
  split; [reflexivity|].
  unfold TimeT.to_time_t, to_uint64.
  change (2 ^ 63) with 9223372036854775808.
  change (2 ^ 64) with 18446744073709551616.
  assert (E1 : (now + 60 + 9223372036854775808) mod 18446744073709551616
               = now + 60 - 9223372036854775808).
  { symmetry. apply (Z.mod_unique _ _ 1); lia. }
  rewrite E1.
  replace (now + 60 - 9223372036854775808 - 9223372036854775808 - now
           + 9223372036854775808)
    with (60 + 9223372036854775808 + (-1) * 18446744073709551616) by lia.
  rewrite Z.mod_add by lia. reflexivity.
Qed.

(** C1, as the code has it.  For every nonnegative epoch time [now] before
    the last half-hour boundary of [time_t], the boundary computed by
    [nextHalfHourBoundary] in [time_t] is the exact value,
    [(now / 1800 + 1) * 1800], a multiple of the period 1800 (which
    divides 86400) that lies strictly after [now], and no multiple of 1800
    strictly after [now] is smaller.  In the eight
    seconds from that last boundary to the end of [time_t] the product
    overflows: the value returned is negative, before [now], and no
    multiple of 1800. *)
Theorem nextHalfHourBoundary_smallest_multiple_after (now : Z) :
  (0 <= now < TimeT.LAST_HALF_HOUR ->
   86400 mod 1800 = 0
   /\ TimeT.nextHalfHourBoundary now = nextHalfHourBoundary now
   /\ TimeT.nextHalfHourBoundary now = (now / 1800 + 1) * 1800
   /\ TimeT.nextHalfHourBoundary now mod 1800 = 0
   /\ now < TimeT.nextHalfHourBoundary now
   /\ forall m, m mod 1800 = 0 -> now < m ->
                TimeT.nextHalfHourBoundary now <= m)
  /\ (TimeT.LAST_HALF_HOUR <= now <= TIME_T_MAX ->
      TimeT.nextHalfHourBoundary now = -9223372036854774016
      /\ TimeT.nextHalfHourBoundary now < now
      /\ TimeT.nextHalfHourBoundary now mod 1800 <> 0).
Proof.
  split.
  - intros H.
    assert (Hf : time_t_fits now).
    { unfold time_t_fits, TIME_T_MAX, TimeT.LAST_HALF_HOUR in *.
      change (2 ^ 63) with 9223372036854775808. lia. }
    rewrite (time_t_nextHalfHourBoundary_exact now Hf (proj2 H)).
    assert (E : nextHalfHourBoundary now = (now / 1800 + 1) * 1800).
    { unfold nextHalfHourBoundary. cbv zeta.
      rewrite Z.quot_div_nonneg by lia. reflexivity. }
    pose proof (Z.mod_pos_bound now 1800 ltac:(lia)) as Hb.
    pose proof (Z.div_mod now 1800 ltac:(lia)) as Hd.
    split; [reflexivity|]. split; [reflexivity|]. split; [exact E|].
    rewrite E. split; [apply Z.mod_mul; lia|]. split; [lia|].
    intros m Hm Hlt. pose proof (Z.div_mod m 1800 ltac:(lia)). nia.
  - intros H.
    destruct (time_t_nextHalfHourBoundary_overflow now H) as [E _].
    rewrite E. unfold TimeT.LAST_HALF_HOUR in H.
    split; [reflexivity|]. split; [lia|]. vm_compute. discriminate.
Qed.

Lemma nextHalfHourBoundary_smallest_multiple_after_witness :
  0 <= t_10_17_00 < TimeT.LAST_HALF_HOUR
  /\ TimeT.nextHalfHourBoundary t_10_17_00 mod 1800 = 0
  /\ t_10_17_00 < TimeT.nextHalfHourBoundary t_10_17_00.
Proof.
  assert (H : 0 <= t_10_17_00 < TimeT.LAST_HALF_HOUR)
    by (unfold t_10_17_00, TimeT.LAST_HALF_HOUR; lia).
  split; [exact H|].
  destruct (proj1 (nextHalfHourBoundary_smallest_multiple_after t_10_17_00) H)
    as [_ [_ [_ [H1 [H2 _]]]]].
  split; assumption.
Defined.

(** At the end of [time_t] the boundary is not after [now]. *)
Lemma nextHalfHourBoundary_overflows_at_TIME_T_MAX :
  0 <= TIME_T_MAX
  /\ TimeT.nextHalfHourBoundary TIME_T_MAX = -9223372036854774016
  /\ ~ TIME_T_MAX < TimeT.nextHalfHourBoundary TIME_T_MAX
  /\ TimeT.nextHalfHourBoundary TIME_T_MAX mod 1800 <> 0.
Proof.
  split; [vm_compute; discriminate|]. split; [vm_compute; reflexivity|].
  split; vm_compute; intros H; discriminate H.
Qed.

Lemma secondsUntilNextHalfHourBoundary_eq (now : Z) :
  0 <= now -> secondsUntilNextHalfHourBoundary now = 1800 - now mod 1800.
Proof.
  intros H. unfold secondsUntilNextHalfHourBoundary. cbv zeta.
  pose proof (Z.mod_pos_bound now 1800 ltac:(lia)).
  rewrite nextHalfHourBoundary_eq by exact H.
  destruct (Z.leb_spec (now + (1800 - now mod 1800)) now); [lia|].
  rewrite to_uint64_small; [lia|].
  change (2 ^ 64) with 18446744073709551616. lia.
Qed.

(** C10, as the code has it.  For every nonnegative [time_t] the wait
    computed by [secondsUntilNextHalfHourBoundary] is between 1 and 1800
    seconds.  Before the last half-hour boundary of [time_t] the safety
    branch [next <= now] is not taken and the wait is the exact value, the
    distance to the boundary, [1800 - now mod 1800]; in the eight seconds
    from there to the end of [time_t] the boundary has overflowed, the
    safety branch is taken and the wait is 60 seconds. *)
Theorem secondsUntilNextHalfHourBoundary_range (now : Z) :
  (0 <= now <= TIME_T_MAX ->
   1 <= TimeT.secondsUntilNextHalfHourBoundary now <= 1800)
  /\ (0 <= now < TimeT.LAST_HALF_HOUR ->
      TimeT.boundaryFallbackTaken now = false
      /\ TimeT.secondsUntilNextHalfHourBoundary now
         = secondsUntilNextHalfHourBoundary now
      /\ TimeT.secondsUntilNextHalfHourBoundary now
         = TimeT.nextHalfHourBoundary now - now
      /\ TimeT.secondsUntilNextHalfHourBoundary now = 1800 - now mod 1800)
  /\ (TimeT.LAST_HALF_HOUR <= now <= TIME_T_MAX ->
      TimeT.boundaryFallbackTaken now = true
      /\ TimeT.secondsUntilNextHalfHourBoundary now = 60).
Proof.
  assert (A : 0 <= now < TimeT.LAST_HALF_HOUR ->
              TimeT.boundaryFallbackTaken now = false
              /\ TimeT.secondsUntilNextHalfHourBoundary now
                 = secondsUntilNextHalfHourBoundary now
              /\ TimeT.secondsUntilNextHalfHourBoundary now
                 = TimeT.nextHalfHourBoundary now - now
              /\ TimeT.secondsUntilNextHalfHourBoundary now
                 = 1800 - now mod 1800).
  { intros H.
    assert (Hf : time_t_fits now).
    { unfold time_t_fits, TIME_T_MAX, TimeT.LAST_HALF_HOUR in *.
      change (2 ^ 63) with 9223372036854775808. lia. }
    destruct (time_t_secondsUntilNextHalfHourBoundary_exact now Hf (proj2 H))
      as [F [E1 E2]].
    rewrite (time_t_nextHalfHourBoundary_exact now Hf (proj2 H)).
    rewrite E1, E2, nextHalfHourBoundary_rem.
    rewrite Z.rem_mod_nonneg by lia.
    split; [exact F|]. split; [reflexivity|]. split; [lia | reflexivity]. }
  assert (B : TimeT.LAST_HALF_HOUR <= now <= TIME_T_MAX ->
              TimeT.boundaryFallbackTaken now = true
              /\ TimeT.secondsUntilNextHalfHourBoundary now = 60).
  { intros H. destruct (time_t_nextHalfHourBoundary_overflow now H)
      as [_ HB]. exact HB. }
  split; [|split; [exact A | exact B]].
  intros H. destruct (Z.lt_ge_cases now TimeT.LAST_HALF_HOUR) as [Hl|Hg].
  - destruct (A (conj (proj1 H) Hl)) as [_ [_ [_ E]]]. rewrite E.
    pose proof (Z.mod_pos_bound now 1800 ltac:(lia)). lia.
  - destruct (B (conj Hg (proj2 H))) as [_ E]. rewrite E. lia.
Qed.

Lemma secondsUntilNextHalfHourBoundary_range_witness :
  0 <= t_10_17_00 < TimeT.LAST_HALF_HOUR
  /\ TimeT.boundaryFallbackTaken t_10_17_00 = false
  /\ TimeT.secondsUntilNextHalfHourBoundary t_10_17_00 = 780.
Proof.
  assert (H : 0 <= t_10_17_00 < TimeT.LAST_HALF_HOUR)
    by (unfold t_10_17_00, TimeT.LAST_HALF_HOUR; lia).
  split; [exact H|].
  destruct (proj1 (proj2 (secondsUntilNextHalfHourBoundary_range t_10_17_00))
              H) as [F [_ [_ E]]].
  split; [exact F|]. rewrite E. reflexivity.
Defined.

(** At the end of [time_t] the safety branch is taken. *)
Lemma boundary_fallback_taken_at_TIME_T_MAX :
  0 <= TIME_T_MAX
  /\ TimeT.boundaryFallbackTaken TIME_T_MAX = true
  /\ TimeT.secondsUntilNextHalfHourBoundary TIME_T_MAX = 60.
Proof.
  split; [vm_compute; discriminate|]. split; vm_compute; reflexivity.
Qed.

(** End-to-end scenario 1: at 10:17:00 the wait is 780 seconds. *)
Example scenario_10_17_00 : secondsUntilNextHalfHourBoundary t_10_17_00 = 780.
Proof. vm_compute. reflexivity. Qed.

(** What [deepSleepSeconds] does: it programs the timer, prints, and
    suspends. *)
Lemma deepSleepSeconds_run (seconds : Z) (s : State) :
  deepSleepSeconds seconds s =
  Suspended (mk_State (millis s) (timeInfo s)
    (trace s ++ [TimerWakeup (to_uint64 (clampSeconds seconds * 1000000));
                 SerialPrintNum "[SLEEP] Deep sleeping for seconds"
                                (clampSeconds seconds);
                 DeepSleepStart])).
Proof.
  unfold deepSleepSeconds, esp_sleep_enable_timer_wakeup, esp_deep_sleep_start,
    emit, bind. cbn. rewrite <- !app_assoc. reflexivity.
Qed.

Lemma clampSeconds_max (seconds : Z) : clampSeconds seconds = Z.max seconds 10.
Proof. unfold clampSeconds. destruct (Z.ltb_spec seconds 10); lia. Qed.




End StrategyA.

(** ** Strategy B: the arithmetic of [beginDeepSleep] *)

Module StrategyB.
Import CInt Arduino Phase Bench CIntFacts.
Local Open Scope Z_scope.

Lemma forallb_upto (f : Z -> bool) (n : nat) :
  forallb f (upto n) = true -> forall z, 0 <= z < Z.of_nat n -> f z = true.
Proof.
  intros H z Hz. rewrite forallb_forall in H. apply H.
  unfold upto. apply in_map_iff. exists (Z.to_nat z). split; [lia|].
  apply in_seq. lia.
Qed.

(** The compensation never shortens a sleep: [+ 3] and the factor
    [1.0015f] add between 3 and 9 seconds to anything below 4000. *)
Lemma compensate_bounds (d : Z) :
  0 <= d < 4000 -> d + 3 <= compensate d <= d + 9.
Proof.
  intros H.
  pose (f := fun d => (d + 3 <=? compensate d) && (compensate d <=? d + 9)).
  assert (E : f d = true).
  { apply (forallb_upto f 4000); [vm_compute; reflexivity | lia]. }
  unfold f in E. lia.
Qed.

(** The [float] test [offsetSeconds / (float)desiredSleepSeconds > 0.95f]
    holds from second 1711 of the half hour on: at 1710 the quotient
    rounds to [0.95f] itself. *)
Lemma elapsed_fraction_gt (o : Z) :
  0 <= o < 1800 ->
  Float32.gtb (Float32.div (Float32.of_Z o) (Float32.of_Z 1800))
              Float32.lit_0_95
  = (1710 <? o).
Proof.
  intros H.
  pose (f := fun o =>
    Bool.eqb (Float32.gtb (Float32.div (Float32.of_Z o) (Float32.of_Z 1800))
                          Float32.lit_0_95)
             (1710 <? o)).
  assert (E : f o = true).
  { apply (forallb_upto f 1800); [vm_compute; reflexivity | lia]. }
  unfold f in E. apply Bool.eqb_prop in E. exact E.
Qed.

Section HalfHour.
Variable wake : Z.
Variable t : tm.
Hypothesis Hwake : 0 <= wake < 24.
Hypothesis Ht : valid_clock t.

Lemma curHour_range : 0 <= curHour wake t < 24.
Proof.
  destruct Ht as [Hh _]. unfold curHour.
  rewrite Z.rem_mod_nonneg by lia. apply Z.mod_pos_bound. lia.
Qed.

Lemma offsetMinutes_eq : offsetMinutes wake 30 t = tm_min t mod 30.
Proof.
  destruct Ht as [_ [Hm _]]. pose proof curHour_range as Hc.
  unfold offsetMinutes, curMinute. rewrite Z.rem_mod_nonneg by lia.
  replace (curHour wake t * 60 + tm_min t)
    with (tm_min t + (2 * curHour wake t) * 30) by lia.
  apply Z.mod_add. lia.
Qed.

Lemma offsetSeconds_eq :
  offsetSeconds wake 30 t = (tm_min t mod 30) * 60 + tm_sec t.
Proof.
  destruct Ht as [_ [Hm Hs]]. pose proof curHour_range as Hc.
  unfold offsetSeconds, curSecond, desiredSleepSeconds.
  rewrite Z.rem_mod_nonneg by lia.
  change (30 * 60) with 1800.
  symmetry. apply (Z.mod_unique _ _ (2 * curHour wake t + tm_min t / 30)).
  - left. pose proof (Z.mod_pos_bound (tm_min t) 30 ltac:(lia)). lia.
  - pose proof (Z.div_mod (tm_min t) 30 ltac:(lia)). lia.
Qed.

Lemma offsetSeconds_range : 0 <= offsetSeconds wake 30 t < 1800.
Proof.
  destruct Ht as [_ [Hm Hs]]. rewrite offsetSeconds_eq.
  pose proof (Z.mod_pos_bound (tm_min t) 30 ltac:(lia)). lia.
Qed.

(** Both tests of the [if] amount to: fewer than 120 seconds are left. *)
Lemma skipAhead_eq : skipAhead wake 30 t = (1680 <? offsetSeconds wake 30 t).
Proof.
  pose proof offsetSeconds_range as Ho.
  unfold skipAhead, desiredSleepSeconds. change (30 * 60) with 1800.
  rewrite elapsed_fraction_gt by lia.
  destruct (Z.ltb_spec (1800 - offsetSeconds wake 30 t) 120);
    destruct (Z.ltb_spec 1710 (offsetSeconds wake 30 t));
    destruct (Z.ltb_spec 1680 (offsetSeconds wake 30 t)); cbn; lia.
Qed.

(** The seconds slept before compensation: what is left of the current
    half hour, plus a whole half hour when fewer than 120 seconds are
    left. *)
Lemma alignedSeconds_eq :
  alignedSeconds wake 30 t =
  (1800 - offsetSeconds wake 30 t)
  + (if skipAhead wake 30 t then 1800 else 0).
Proof.
  destruct Ht as [_ [Hm Hs]].
  pose proof (Z.mod_pos_bound (tm_min t) 30 ltac:(lia)) as Hr.
  unfold alignedSeconds, sleepMinutes. cbv zeta.
  rewrite offsetMinutes_eq, offsetSeconds_eq.
  destruct (skipAhead wake 30 t);
    (rewrite to_uint64_small;
     [lia | change (2 ^ 64) with 18446744073709551616; lia]).
Qed.

End HalfHour.

(** C3. Skip-ahead, for the half-hour period and any reference hour: the
    [if] of [beginDeepSleep] fires exactly when at least 95% of the
    current period has elapsed or fewer than 120 seconds remain to the
    naive boundary; when it fires the sleep chosen is the naive one plus
    exactly one period of [SLEEP_DURATION] minutes, otherwise the naive
    one; the compensation is then applied to that choice. *)
Theorem skipAhead_adds_one_period (wake : Z) (t : tm) :
  0 <= wake < 24 -> valid_clock t ->
  let elapsed := offsetSeconds wake SLEEP_DURATION t in
  let remaining := desiredSleepSeconds SLEEP_DURATION - elapsed in
  let naiveMinutes := SLEEP_DURATION - offsetMinutes wake SLEEP_DURATION t in
  let naiveSeconds := naiveMinutes * 60 - tm_sec t in
  let extraMinutes :=
    if skipAhead wake SLEEP_DURATION t then SLEEP_DURATION else 0 in
  (skipAhead wake SLEEP_DURATION t = true <->
     95 * desiredSleepSeconds SLEEP_DURATION <= 100 * elapsed
     \/ remaining < 120)
  /\ naiveSeconds = remaining
  /\ sleepMinutes wake SLEEP_DURATION t = naiveMinutes + extraMinutes
  /\ alignedSeconds wake SLEEP_DURATION t = naiveSeconds + extraMinutes * 60
  /\ sleepDuration wake SLEEP_DURATION t
     = compensate (naiveSeconds + extraMinutes * 60).
Proof.
  intros Hwake Ht. cbv zeta. unfold SLEEP_DURATION.
  pose proof (offsetSeconds_range wake t Hwake Ht) as Ho.
  pose proof (offsetSeconds_eq wake t Hwake Ht) as Eo.
  pose proof (offsetMinutes_eq wake t Hwake Ht) as Em.
  pose proof (alignedSeconds_eq wake t Hwake Ht) as Ea.
  pose proof (skipAhead_eq wake t Hwake Ht) as Es.
  assert (Er : (30 - offsetMinutes wake 30 t) * 60 - tm_sec t
               = desiredSleepSeconds 30 - offsetSeconds wake 30 t).
  { unfold desiredSleepSeconds. lia. }
  split; [|split; [exact Er|split; [|split]]].
  - rewrite Es. unfold desiredSleepSeconds. rewrite Z.ltb_lt. lia.
  - unfold sleepMinutes. cbv zeta. destruct (skipAhead wake 30 t); lia.
  - rewrite Ea, Er. unfold desiredSleepSeconds.
    destruct (skipAhead wake 30 t); lia.
  - unfold sleepDuration. rewrite Ea, Er. unfold desiredSleepSeconds.
    f_equal. destruct (skipAhead wake 30 t); lia.
Qed.

Lemma skipAhead_adds_one_period_witness :
  0 <= WAKE_TIME < 24 /\ valid_clock (mk_tm 30 28 10 15 10 123)
  /\ skipAhead WAKE_TIME SLEEP_DURATION (mk_tm 30 28 10 15 10 123) = true
  /\ sleepMinutes WAKE_TIME SLEEP_DURATION (mk_tm 30 28 10 15 10 123) = 2 + 30.
Proof.
  assert (Hw : 0 <= WAKE_TIME < 24) by (unfold WAKE_TIME; lia).
  assert (Ht : valid_clock (mk_tm 30 28 10 15 10 123))
    by (unfold valid_clock; cbn; lia).
  pose proof (skipAhead_adds_one_period WAKE_TIME _ Hw Ht) as [_ [_ [H _]]].
  split; [exact Hw | split; [exact Ht | split; [reflexivity|]]].
  rewrite H. reflexivity.
Defined.

(** C2. Strategy B, for the half-hour period and any reference hour: the
    duration computed by [beginDeepSleep] is positive, and the instant it
    leads to is at or after the next boundary, the least multiple of the
    period strictly after the wake time, both on the clock of the day and
    on the clock counted from the reference hour. *)
Theorem sleepDuration_reaches_next_boundary (wake : Z) (t : tm) :
  0 <= wake < 24 -> valid_clock t ->
  let period := desiredSleepSeconds SLEEP_DURATION in
  let now := tm_hour t * 3600 + tm_min t * 60 + tm_sec t in
  let d := sleepDuration wake SLEEP_DURATION t in
  0 < d
  /\ (exists next,
        next mod period = 0 /\ now < next
        /\ (forall b, b mod period = 0 -> now < b -> next <= b)
        /\ next <= now + d)
  /\ (exists next,
        next mod period = 0 /\ curSecond wake t < next
        /\ (forall b, b mod period = 0 -> curSecond wake t < b -> next <= b)
        /\ next <= curSecond wake t + d).
Proof.
  intros Hwake Ht. cbv zeta. unfold SLEEP_DURATION, desiredSleepSeconds.
  change (30 * 60) with 1800.
  pose proof (offsetSeconds_range wake t Hwake Ht) as Ho.
  pose proof (offsetSeconds_eq wake t Hwake Ht) as Eo.
  pose proof (alignedSeconds_eq wake t Hwake Ht) as Ea.
  pose proof (curHour_range wake t Hwake Ht) as Hc.
  destruct Ht as [Hh [Hm Hs]].
  assert (Hd : 1800 - offsetSeconds wake 30 t + 3
               <= sleepDuration wake 30 t).
  { unfold sleepDuration. rewrite Ea.
    destruct (skipAhead wake 30 t);
      match goal with |- _ <= compensate ?x =>
        pose proof (compensate_bounds x ltac:(lia)) end; lia. }
  pose proof (Z.mod_pos_bound (tm_min t) 30 ltac:(lia)) as Hr.
  pose proof (Z.div_mod (tm_min t) 30 ltac:(lia)) as Hq.
  assert (Hq' : 0 <= tm_min t / 30 < 2)
    by (split; [apply Z.div_pos; lia | apply Z.div_lt_upper_bound; lia]).
  split; [lia|]. split.
  - exists ((2 * tm_hour t + tm_min t / 30 + 1) * 1800).
    split; [apply Z.mod_mul; lia|]. split; [lia|]. split; [|lia].
    intros b Hb Hlt. pose proof (Z.div_mod b 1800 ltac:(lia)). nia.
  - unfold curSecond.
    exists ((2 * curHour wake t + tm_min t / 30 + 1) * 1800).
    split; [apply Z.mod_mul; lia|]. split; [lia|]. split; [|lia].
    intros b Hb Hlt. pose proof (Z.div_mod b 1800 ltac:(lia)). nia.
Qed.

Lemma sleepDuration_reaches_next_boundary_witness :
  0 <= WAKE_TIME < 24 /\ valid_clock (mk_tm 0 1 6 15 10 123)
  /\ 0 < sleepDuration WAKE_TIME SLEEP_DURATION (mk_tm 0 1 6 15 10 123).
Proof.
  assert (Hw : 0 <= WAKE_TIME < 24) by (unfold WAKE_TIME; lia).
  assert (Ht : valid_clock (mk_tm 0 1 6 15 10 123))
    by (unfold valid_clock; cbn; lia).
  pose proof (sleepDuration_reaches_next_boundary WAKE_TIME _ Hw Ht) as [H _].
  split; [exact Hw | split; [exact Ht | exact H]].
Defined.

(** End-to-end scenario 3: reference hour 6, clock 06:01:00; the offset is
    one minute, no skip-ahead, and the duration is (29 * 60 + 3) * 1.0015
    in [float], truncated: 1745 seconds. *)
Example scenario_06_01 :
  offsetMinutes WAKE_TIME SLEEP_DURATION (mk_tm 0 1 6 15 10 123) = 1
  /\ skipAhead WAKE_TIME SLEEP_DURATION (mk_tm 0 1 6 15 10 123) = false
  /\ sleepDuration WAKE_TIME SLEEP_DURATION (mk_tm 0 1 6 15 10 123) = 1745.
Proof. vm_compute. repeat split. Qed.

End StrategyB.

(** ** Every wake cycle ends in deep sleep *)

Module Termination.
Import CInt Arduino Bench CIntFacts ArduinoFacts.
Local Open Scope string_scope.
Local Open Scope list_scope.
Local Open Scope Z_scope.

(** *** The loops come to an end

    Each round of [getLocalTime] adds 10 ms to the uptime, so the test
    [(millis() - start) <= ms] fails after [ms / 10 + 1] rounds at most. *)
Section GetLocalTime.
Variable env : Env.
Variable ms : Z.
Hypothesis Hms : 0 <= ms <= 4294967285.
Variable start : Z.

Lemma getLocalTime_loop_returns (fuel : nat) :
  forall (k : Z) (s : State),
    0 <= k <= ms / 10 + 1 ->
    millis s = start + 10 * k ->
    ms / 10 - k + 2 <= Z.of_nat fuel ->
    exists ok s',
      while_ fuel (Phase.getLocalTime_cond ms (to_uint32 start))
        (Phase.getLocalTime_body env) (fun _ => ret false) tt s
      = Returned ok s'
      /\ trace s' = trace s.
Proof.
  induction fuel as [|fuel IH]; intros k s Hk Hm Hf; [lia|].
  assert (Hq : 10 * (ms / 10) <= ms) by (apply Z.mul_div_le; lia).
  assert (Ec : Phase.getLocalTime_cond ms (to_uint32 start) tt s
               = Returned (10 * k <=? ms, tt) s).
  { unfold Phase.getLocalTime_cond, bind, get_millis, ret.
    rewrite to_uint32_sub, Hm.
    replace (start + 10 * k - start) with (10 * k) by lia.
    rewrite to_uint32_small by (change (2 ^ 32) with 4294967296; lia).
    reflexivity. }
  cbn [while_]. rewrite (bind_returned _ _ _ _ _ Ec). cbn [fst snd].
  destruct (Z.leb_spec (10 * k) ms) as [Hle|Hgt].
  - set (info := localtime_r env (epoch_at env (millis s))).
    destruct (2016 - 1900 <? tm_year info) eqn:Ey.
    + assert (Eb : Phase.getLocalTime_body env tt s =
                   Returned (inr true) (mk_State (millis s) info (trace s))).
      { unfold Phase.getLocalTime_body, bind, time_, set_timeInfo,
          get_timeInfo, ret.
        cbn [timeInfo millis trace]. fold info. rewrite Ey. reflexivity. }
      rewrite (bind_returned _ _ _ _ _ Eb).
      eexists _, _. split; reflexivity.
    + assert (Eb : Phase.getLocalTime_body env tt s =
                   Returned (inl tt) (mk_State (millis s + 10) info (trace s))).
      { unfold Phase.getLocalTime_body, bind, time_, set_timeInfo,
          get_timeInfo, ret, delay.
        cbn [timeInfo millis trace]. fold info. rewrite Ey. reflexivity. }
      rewrite (bind_returned _ _ _ _ _ Eb).
      assert (k <= ms / 10) by (apply Z.div_le_lower_bound; lia).
      destruct (IH (k + 1) (mk_State (millis s + 10) info (trace s)))
        as [ok [s' [E T]]]; [lia | cbn [millis]; lia | lia |].
      exists ok, s'. split; [exact E | exact T].
  - eexists _, _. split; reflexivity.
Qed.

End GetLocalTime.

Lemma getLocalTime_returns (env : Env) (ms : Z) (s : State) :
  0 <= ms <= 4294967285 ->
  exists ok s',
    Phase.getLocalTime env ms s = Returned ok s' /\ trace s' = trace s.
Proof.
  intros Hms. unfold Phase.getLocalTime.
  rewrite (bind_returned _ _ s (to_uint32 (millis s)) s) by reflexivity.
  pose proof (getLocalTime_loop_returns env ms Hms (millis s)
    (Z.to_nat (ms / 10) + 2) 0 s) as H.
  apply H.
  - split; [lia|]. assert (0 <= ms / 10) by (apply Z.div_pos; lia). lia.
  - lia.
  - assert (0 <= ms / 10) by (apply Z.div_pos; lia). lia.
Qed.

(** Each round of [connectWiFi] adds 250 ms: at most 60 rounds. *)
Section ConnectWiFi.
Variable env : Env.
Variable start : Z.

Lemma connectWiFi_loop_returns (fuel : nat) :
  forall (k : Z) (s : State),
    0 <= k <= 60 ->
    millis s = start + 250 * k ->
    61 - k <= Z.of_nat fuel ->
    exists ok s',
      while_ fuel (Slot.connectWiFi_cond env (to_uint32 start))
        Slot.connectWiFi_body (Slot.connectWiFi_after env) tt s
      = Returned ok s'.
Proof.
  induction fuel as [|fuel IH]; intros k s Hk Hm Hf; [lia|].
  assert (Ec : Slot.connectWiFi_cond env (to_uint32 start) tt s
               = Returned (negb (wifi_connected_at env (millis s))
                           && (250 * k <? 15000), tt) s).
  { unfold Slot.connectWiFi_cond, bind, WiFi_connected, get_millis, ret,
      Slot.WIFI_CONNECT_TIMEOUT_MS.
    rewrite to_uint32_sub, Hm.
    replace (start + 250 * k - start) with (250 * k) by lia.
    rewrite to_uint32_small by (change (2 ^ 32) with 4294967296; lia).
    reflexivity. }
  rewrite while_S, (bind_returned _ _ _ _ _ Ec). cbn [fst snd].
  destruct (negb (wifi_connected_at env (millis s)) && (250 * k <? 15000))
    eqn:Eb.
  - apply andb_true_iff in Eb. destruct Eb as [_ Eb]. apply Z.ltb_lt in Eb.
    rewrite (bind_returned _ _ s (inl tt)
               (mk_State (millis s + 250) (timeInfo s)
                         (trace s ++ [SerialPrint "."])))
      by reflexivity.
    apply (IH (k + 1)); [lia | cbn [millis]; lia | lia].
  - unfold Slot.connectWiFi_after, bind, WiFi_connected.
    destruct (negb (wifi_connected_at env (millis s)));
      eexists _, _; reflexivity.
Qed.

End ConnectWiFi.

Lemma connectWiFi_returns (env : Env) (s : State) :
  exists ok s', Slot.connectWiFi env s = Returned ok s'.
Proof.
  unfold Slot.connectWiFi.
  rewrite (bind_returned _ _ s tt
             (mk_State (millis s) (timeInfo s) (trace s ++ [WiFiBegin])))
    by reflexivity.
  rewrite (bind_returned _ _ _ (to_uint32 (millis s)) _) by reflexivity.
  apply (connectWiFi_loop_returns env (millis s) 62 0); cbn [millis]; lia.
Qed.

Lemma syncTime_poll_returns (env : Env) (n : nat) :
  forall s, exists ok s', Slot.syncTime_poll env n s = Returned ok s'.
Proof.
  induction n as [|n IH]; intros s; cbn [Slot.syncTime_poll].
  - eexists _, _. reflexivity.
  - unfold bind at 1, time_.
    destruct (1700000000 <? epoch_at env (millis s)).
    + eexists _, _. reflexivity.
    + unfold bind at 1, delay. apply IH.
Qed.

Lemma syncTime_returns (env : Env) (s : State) :
  exists ok s', Slot.syncTime env s = Returned ok s'.
Proof.
  unfold Slot.syncTime. unfold bind, emit. apply syncTime_poll_returns.
Qed.

(** Each round of [waitForSNTPSync] adds 100 ms: at most 200 rounds,
    when [timeout] has not wrapped around. *)
Section WaitForSNTPSync.
Variable env : Env.
Variable start : Z.
Hypothesis Hstart : to_uint32 start + 20000 < 4294967296.

Lemma waitForSNTPSync_loop_returns (fuel : nat) :
  forall (k : Z) (s : State),
    0 <= k <= 200 ->
    millis s = start + 100 * k ->
    201 - k <= Z.of_nat fuel ->
    exists s',
      while_ fuel (Phase.waitForSNTPSync_cond env (to_uint32 start + 20000))
        Phase.waitForSNTPSync_body
        (fun _ => bind (emit (SerialPrint "")) (fun _ => ret tt)) tt s
      = Returned tt s'.
Proof.
  induction fuel as [|fuel IH]; intros k s Hk Hm Hf; [lia|].
  pose proof (to_uint32_range start) as Hr.
  assert (Ec : Phase.waitForSNTPSync_cond env (to_uint32 start + 20000) tt s
               = Returned (negb (sntp_synced_at env (millis s))
                           && (100 * k <? 20000), tt) s).
  { unfold Phase.waitForSNTPSync_cond, bind, sntp_synced, get_millis, ret.
    rewrite Hm, to_uint32_add by lia.
    replace (to_uint32 start + 100 * k <? to_uint32 start + 20000)
      with (100 * k <? 20000); [reflexivity|].
    destruct (Z.ltb_spec (100 * k) 20000);
      destruct (Z.ltb_spec (to_uint32 start + 100 * k)
                           (to_uint32 start + 20000)); lia. }
  rewrite while_S, (bind_returned _ _ _ _ _ Ec). cbn [fst snd].
  destruct (negb (sntp_synced_at env (millis s)) && (100 * k <? 20000))
    eqn:Eb.
  - apply andb_true_iff in Eb. destruct Eb as [_ Eb]. apply Z.ltb_lt in Eb.
    rewrite (bind_returned _ _ s (inl tt)
               (mk_State (millis s + 100) (timeInfo s)
                         (trace s ++ [SerialPrint "."])))
      by reflexivity.
    apply (IH (k + 1)); [lia | cbn [millis]; lia | lia].
  - eexists. reflexivity.
Qed.

End WaitForSNTPSync.

(** When [millis() + NTP_TIMEOUT_MS] wraps around, [millis() < timeout]
    is false at once and the wait is skipped. *)
Lemma waitForSNTPSync_wait_returns (env : Env) (s : State) :
  let timeout := to_uint32 (to_uint32 (millis s) + Phase.NTP_TIMEOUT_MS) in
  exists s',
    when (negb (sntp_synced_at env (millis s))
          && (to_uint32 (millis s) <? timeout))
      (bind (emit (SerialPrint "Waiting for SNTP synchronization."))
         (fun _ => bind (delay 100) (fun _ =>
            while_ 202 (Phase.waitForSNTPSync_cond env timeout)
              Phase.waitForSNTPSync_body
              (fun _ => bind (emit (SerialPrint "")) (fun _ => ret tt)) tt)))
      s
    = Returned tt s'.
Proof.
  cbv zeta. unfold Phase.NTP_TIMEOUT_MS.
  pose proof (to_uint32_range (millis s)) as Hr.
  destruct (negb (sntp_synced_at env (millis s))
            && (to_uint32 (millis s)
                <? to_uint32 (to_uint32 (millis s) + 20000))) eqn:Eb;
    cbn [when]; [|eexists; reflexivity].
  apply andb_true_iff in Eb. destruct Eb as [_ Eb]. apply Z.ltb_lt in Eb.
  assert (Hnowrap : to_uint32 (millis s) + 20000 < 4294967296).
  { destruct (Z.lt_ge_cases (to_uint32 (millis s) + 20000) 4294967296)
      as [H|H]; [exact H|exfalso].
    assert (E : to_uint32 (to_uint32 (millis s) + 20000)
                = to_uint32 (millis s) + 20000 - 4294967296).
    { unfold to_uint32 at 1. symmetry.
      apply (Z.mod_unique _ _ 1); change (2 ^ 32) with 4294967296; lia. }
    lia. }
  rewrite (to_uint32_small (to_uint32 (millis s) + 20000))
    by (change (2 ^ 32) with 4294967296; lia).
  unfold bind at 1 2, emit, delay. cbn [millis timeInfo trace].
  apply (waitForSNTPSync_loop_returns env (millis s) Hnowrap 202 1);
    cbn [millis]; lia.
Qed.

Lemma suspends_deepSleepSeconds seconds :
  suspends (Slot.deepSleepSeconds seconds).
Proof. unfold Slot.deepSleepSeconds. run_tac. Qed.

Lemma terminates_connectWiFi env : terminates (Slot.connectWiFi env).
Proof. apply returns_terminates, connectWiFi_returns. Qed.

Lemma terminates_syncTime env : terminates (Slot.syncTime env).
Proof. apply returns_terminates, syncTime_returns. Qed.

Lemma terminates_getLocalTime env ms :
  0 <= ms <= 4294967285 -> terminates (Phase.getLocalTime env ms).
Proof.
  intros Hms. apply returns_terminates. intros s.
  destruct (getLocalTime_returns env ms s Hms) as [ok [s' [E _]]].
  exists ok, s'. exact E.
Qed.

Lemma terminates_printLocalTime env :
  0 <= getLocalTime_ms env <= 4294967285 ->
  terminates (Phase.printLocalTime env).
Proof.
  intros Hms. unfold Phase.printLocalTime. intros s. rewrite while_S.
  unfold bind at 1 2.
  destruct (getLocalTime_returns env _ s Hms) as [ok [s' [E _]]].
  rewrite E. destruct ok; cbn [negb fst snd]; cbv [ret bind emit]; discriminate.
Qed.

Lemma terminates_waitForSNTPSync env :
  0 <= getLocalTime_ms env <= 4294967285 ->
  terminates (Phase.waitForSNTPSync env).
Proof.
  intros Hms s. unfold Phase.waitForSNTPSync.
  rewrite (bind_returned _ _ s (to_uint32 (millis s)) s) by reflexivity.
  cbv zeta.
  rewrite (bind_returned _ _ s (sntp_synced_at env (millis s)) s)
    by reflexivity.
  rewrite (bind_returned _ _ s (to_uint32 (millis s)) s) by reflexivity.
  destruct (waitForSNTPSync_wait_returns env s) as [s' E]. cbv zeta in E.
  rewrite (bind_returned _ _ _ _ _ E).
  apply terminates_printLocalTime. exact Hms.
Qed.

(** What [beginDeepSleep] does: it reads the time, programs the timer with
    the Strategy B duration of the time information, prints, and
    suspends. *)
Lemma beginDeepSleep_run (env : Env) (startTime : Z) (s : State) :
  0 <= getLocalTime_ms env <= 4294967285 ->
  exists ok s1,
    Phase.getLocalTime env (getLocalTime_ms env) s = Returned ok s1
    /\ trace s1 = trace s
    /\ Phase.beginDeepSleep env startTime s =
       Suspended (mk_State (millis s1) (timeInfo s1)
         (trace s
          ++ (if ok then [] else [SerialPrint Phase.failed_sync_msg])
          ++ [TimerWakeup
                (to_uint64 (Phase.sleepDuration Phase.WAKE_TIME
                              Phase.SLEEP_DURATION (timeInfo s1) * 1000000));
              SerialPrintNum "Awake for (ms)"
                (to_uint32 (to_uint32 (millis s1) - startTime));
              SerialPrintNum "Entering deep sleep for (s)"
                (Phase.sleepDuration Phase.WAKE_TIME Phase.SLEEP_DURATION
                   (timeInfo s1));
              DeepSleepStart])).
Proof.
  intros Hms.
  destruct (getLocalTime_returns env _ s Hms) as [ok [s1 [E T]]].
  exists ok, s1. split; [exact E|]. split; [exact T|].
  unfold Phase.beginDeepSleep. rewrite (bind_returned _ _ _ _ _ E).
  destruct s1 as [m1 i1 t1]. cbn [trace] in T. subst t1.
  destruct ok; cbv [when negb bind ret emit get_timeInfo get_millis
    esp_sleep_enable_timer_wakeup esp_deep_sleep_start millis timeInfo trace];
    cbn [millis timeInfo trace]; rewrite <- ?app_assoc; reflexivity.
Qed.

Lemma suspends_beginDeepSleep env startTime :
  0 <= getLocalTime_ms env <= 4294967285 ->
  suspends (Phase.beginDeepSleep env startTime).
Proof.
  intros Hms s.
  destruct (beginDeepSleep_run env startTime s Hms) as [ok [s1 [_ [_ R]]]].
  eexists. exact R.
Qed.

(** The terminal action of every path of [setup()] is the deep sleep, in
    both sketches. *)
Theorem slot_setup_suspends (env : Env) : suspends (Slot.setup env).
Proof.
  unfold Slot.setup, Slot.networkUp, Slot.slotCheck, Slot.measureAndSleep,
    Slot.initBME, Slot.bme_readTemperature, Slot.bme_readHumidity,
    Slot.powerDownBME, Slot.postToSupabase.
  run_tac;
    try apply terminates_connectWiFi; try apply terminates_syncTime;
    try (apply suspends_terminates); try apply suspends_deepSleepSeconds.
Qed.

Theorem phase_setup_suspends (env : Env) :
  0 <= getLocalTime_ms env <= 4294967285 -> suspends (Phase.setup env).
Proof.
  intros Hms.
  unfold Phase.setup, Phase.networkUp, Phase.measureAndSleep,
    Phase.disableBuiltinLED, Phase.configTzTime, Phase.killWiFi,
    Phase.connectWiFi, Phase.initBME, Slot.initBME,
    Phase.bme_readTemperature, Phase.bme_readHumidity,
    Slot.bme_readTemperature, Slot.bme_readHumidity,
    Phase.powerDownBME, Slot.powerDownBME,
    Phase.postToSupabase, Phase.buildUtcTimestamp.
  run_tac;
    try apply terminates_connectWiFi;
    try (apply terminates_waitForSNTPSync; exact Hms);
    try (apply suspends_terminates);
    try (apply suspends_beginDeepSleep; exact Hms).
Qed.

End Termination.

(** ** The wake cycle *)

Module Cycle.
Import CInt Arduino Bench CIntFacts ArduinoFacts Termination.
Local Open Scope string_scope.
Local Open Scope list_scope.
Local Open Scope Z_scope.

(** *** Neither sketch powers the sensor before [initBME] *)
Ltac adds_step :=
  lazymatch goal with
  | |- adds _ (bind _ _) => apply adds_bind; [|intros ?]
  | |- adds _ (ret _) => apply adds_ret
  | |- adds _ (emit _) =>
      apply adds_emit; unfold Slot.sensor_off; discriminate
  | |- adds _ (esp_sleep_enable_timer_wakeup _) =>
      apply adds_emit; unfold Slot.sensor_off; discriminate
  | |- adds _ esp_deep_sleep_start =>
      apply adds_deep_sleep_start; unfold Slot.sensor_off; discriminate
  | |- adds _ (delay _) => apply adds_delay
  | |- adds _ get_millis => apply adds_get_millis
  | |- adds _ get_timeInfo => apply adds_get_timeInfo
  | |- adds _ (set_timeInfo _) => apply adds_set_timeInfo
  | |- adds _ (time_ _) => apply adds_time
  | |- adds _ (WiFi_connected _) => apply adds_WiFi_connected
  | |- adds _ (sntp_synced _) => apply adds_sntp_synced
  | |- adds _ (when _ _) => apply adds_when
  | |- adds _ (while_ _ _ _ _ _) => apply adds_while; intros ?
  | |- adds _ (if ?b then _ else _) => destruct b
  end.

Ltac adds_tac := repeat adds_step.

Lemma adds_deepSleepSeconds seconds :
  adds Slot.sensor_off (Slot.deepSleepSeconds seconds).
Proof.
  unfold Slot.deepSleepSeconds, esp_sleep_enable_timer_wakeup. adds_tac.
Qed.

Lemma adds_connectWiFi env : adds Slot.sensor_off (Slot.connectWiFi env).
Proof.
  unfold Slot.connectWiFi, Slot.connectWiFi_cond, Slot.connectWiFi_body,
    Slot.connectWiFi_after.
  adds_tac.
Qed.

Lemma adds_syncTime_poll env n :
  adds Slot.sensor_off (Slot.syncTime_poll env n).
Proof.
  induction n as [|n IH]; cbn [Slot.syncTime_poll]; adds_tac. exact IH.
Qed.

Lemma adds_syncTime env : adds Slot.sensor_off (Slot.syncTime env).
Proof. unfold Slot.syncTime. adds_tac. apply adds_syncTime_poll. Qed.

Lemma adds_slot_networkUp env : adds Slot.sensor_off (Slot.networkUp env).
Proof.
  unfold Slot.networkUp. adds_tac; [apply adds_connectWiFi|].
  apply adds_deepSleepSeconds.
Qed.

Lemma adds_getLocalTime env ms :
  adds Slot.sensor_off (Phase.getLocalTime env ms).
Proof.
  unfold Phase.getLocalTime, Phase.getLocalTime_cond, Phase.getLocalTime_body.
  adds_tac.
Qed.

Lemma adds_printLocalTime env :
  adds Slot.sensor_off (Phase.printLocalTime env).
Proof.
  unfold Phase.printLocalTime. adds_tac. apply adds_getLocalTime.
Qed.

Lemma adds_waitForSNTPSync env :
  adds Slot.sensor_off (Phase.waitForSNTPSync env).
Proof.
  unfold Phase.waitForSNTPSync, Phase.waitForSNTPSync_cond,
    Phase.waitForSNTPSync_body.
  adds_tac. apply adds_printLocalTime.
Qed.

Lemma adds_beginDeepSleep env startTime :
  adds Slot.sensor_off (Phase.beginDeepSleep env startTime).
Proof.
  unfold Phase.beginDeepSleep, esp_sleep_enable_timer_wakeup.
  adds_tac. apply adds_getLocalTime.
Qed.

Lemma adds_phase_networkUp env : adds Slot.sensor_off (Phase.networkUp env).
Proof.
  unfold Phase.networkUp, Phase.disableBuiltinLED, Phase.configTzTime,
    Phase.connectWiFi.
  adds_tac; [apply adds_connectWiFi|]. apply adds_beginDeepSleep.
Qed.

(** *** What [syncTime] tells *)
Section SyncTime.
Variable env : Env.

Lemma syncTime_poll_false (n : nat) :
  forall s s',
    Slot.syncTime_poll env n s = Returned false s' ->
    trace s' = trace s ++ [SerialPrint "[TIME] NTP sync failed."].
Proof.
  induction n as [|n IH]; intros s s' H; cbn [Slot.syncTime_poll] in H.
  - cbv [bind emit ret] in H. injection H as <-. reflexivity.
  - unfold bind at 1, time_ in H.
    destruct (1700000000 <? epoch_at env (millis s)).
    + cbv [bind emit ret] in H. discriminate.
    + unfold bind at 1, delay in H. apply IH in H. exact H.
Qed.

Lemma syncTime_poll_true (n : nat) :
  forall s s',
    Slot.syncTime_poll env n s = Returned true s' ->
    1700000000 < epoch_at env (millis s').
Proof.
  induction n as [|n IH]; intros s s' H; cbn [Slot.syncTime_poll] in H.
  - cbv [bind emit ret] in H. discriminate.
  - unfold bind at 1, time_ in H.
    destruct (Z.ltb_spec 1700000000 (epoch_at env (millis s))) as [Hv|Hv].
    + cbv [bind emit ret] in H. injection H as <-. exact Hv.
    + unfold bind at 1, delay in H. apply IH in H. exact H.
Qed.

(** One invalid reading is not yet a failure of [syncTime]: when the
    second reading, 250 ms later, is valid, the sync succeeds. *)
Lemma syncTime_second_read (s : State) :
  epoch_at env (millis s) <= 1700000000 ->
  1700000000 < epoch_at env (millis s + 250) ->
  exists s', Slot.syncTime env s = Returned true s'.
Proof.
  intros H1 H2. unfold Slot.syncTime. unfold bind at 1 2, emit.
  change 40%nat with (S (S 38)).
  set (p := Slot.syncTime_poll env 38). cbn [Slot.syncTime_poll]. fold p.
  unfold bind at 1, time_. cbn [millis].
  destruct (Z.ltb_spec 1700000000 (epoch_at env (millis s))); [lia|].
  unfold bind at 1, delay. cbn [millis timeInfo trace].
  unfold bind at 1. cbn [millis].
  destruct (Z.ltb_spec 1700000000 (epoch_at env (millis s + 250))); [|lia].
  eexists. reflexivity.
Qed.

Lemma syncTime_false (s s' : State) :
  Slot.syncTime env s = Returned false s' ->
  trace s' = trace s ++ [SntpConfig; SerialPrint "[TIME] Syncing via NTP...";
                         SerialPrint "[TIME] NTP sync failed."].
Proof.
  unfold Slot.syncTime. intros H. cbv [bind emit] in H.
  apply syncTime_poll_false in H. rewrite H. cbn [trace].
  rewrite <- !app_assoc. reflexivity.
Qed.

Lemma syncTime_true (s s' : State) :
  Slot.syncTime env s = Returned true s' ->
  1700000000 < epoch_at env (millis s').
Proof.
  unfold Slot.syncTime. intros H. cbv [bind emit] in H.
  apply syncTime_poll_true in H. exact H.
Qed.

End SyncTime.

Lemma timers_app (l1 l2 : list Event) :
  timers (l1 ++ l2) = timers l1 ++ timers l2.
Proof. unfold timers. apply flat_map_app. Qed.

Ltac trace_eq :=
  cbn [trace];
  match goal with
  | |- _ = ?R =>
      let rhs := fresh "rhs" in
      set (rhs := R); rewrite <- ?app_assoc; cbn [app]; subst rhs
  end;
  cbn [app]; reflexivity.

(** *** The measurement stage of the slot-check sketch

    [measureAndSleep] always suspends; it starts with [initBME]; when the
    sensor answers, the two reads follow and the power pin is driven low;
    when it does not, nothing writes to a pin any more. *)
Lemma slot_measureAndSleep_run (env : Env) (s : State) :
  exists s' l,
    Slot.measureAndSleep env s = Suspended s'
    /\ trace s' = trace s ++ Slot.init_events ++ l
    /\ if bme_begin env
       then exists l',
              l = [SerialPrint "[BME] BME280 ready."; BmeReadTemperature;
                   BmeReadHumidity; DigitalWrite Slot.PIN_BME_PWR false] ++ l'
       else pin_writes l = [].
Proof.
  unfold Slot.measureAndSleep, Slot.initBME, Slot.bme_readTemperature,
    Slot.bme_readHumidity, Slot.powerDownBME, Slot.postToSupabase,
    Slot.deepSleepSeconds, Slot.init_events.
  destruct (bme_begin env).
  - destruct (http_begin env); [destruct (post_failed (http_POST env))|];
      cbv [bind emit ret when negb delay time_ esp_sleep_enable_timer_wakeup
           esp_deep_sleep_start millis timeInfo trace];
      cbn [millis timeInfo trace];
      (eexists _, _; split; [reflexivity|]; split;
       [trace_eq | eexists; reflexivity]).
  - cbv [bind emit ret when negb delay time_ esp_sleep_enable_timer_wakeup
         esp_deep_sleep_start millis timeInfo trace].
    cbn [millis timeInfo trace].
    eexists _, _. split; [reflexivity|]. split; [trace_eq | reflexivity].
Qed.

Lemma isMinuteSlot_iff (env : Env) (nowLocal : Z) :
  Slot.isMinuteSlot env nowLocal = true
  <-> tm_min (localtime_r env nowLocal) = 0
      \/ tm_min (localtime_r env nowLocal) = 30.
Proof.
  unfold Slot.isMinuteSlot. cbv zeta. rewrite orb_true_iff, !Z.eqb_eq.
  reflexivity.
Qed.

(** C6, at the failing input.  When [bme.begin] fails, both sketches
    suspend with the sensor's power pin driven high and never low: the
    only writes to it are the ones listed. *)
Theorem init_failure_leaves_sensor_powered :
  let slot_run := Slot.setup (board t_10_30_00 false 201) boot in
  let phase_run := Phase.setup (board t_10_30_00 false 201) boot in
  pin_writes (final_trace slot_run) = [(Slot.PIN_BME_PWR, true)]
  /\ last (final_trace slot_run) DeepSleepStart = DeepSleepStart
  /\ slot_run = Suspended (state_of slot_run)
  /\ pin_writes (final_trace phase_run)
     = [(LED_BUILTIN (board t_10_30_00 false 201), false);
        (Phase.PIN_BME_PWR, true)]
  /\ phase_run = Suspended (state_of phase_run).
Proof.
  cbv zeta. split; [|split; [|split; [|split]]]; vm_compute; reflexivity.
Qed.

(** The sibling paths: with the sensor found, the pin is driven low after
    the read whatever the POST answers. *)
Example transmit_failure_releases_sensor :
  pin_writes (final_trace (Slot.setup (board t_10_30_00 true 500) boot))
  = [(Slot.PIN_BME_PWR, true); (Slot.PIN_BME_PWR, false)]
  /\ pin_writes (final_trace (Phase.setup (board t_10_30_00 true 500) boot))
     = [(2, false); (Phase.PIN_BME_PWR, true); (Phase.PIN_BME_PWR, false)].
Proof. split; vm_compute; reflexivity. Qed.

(** The body of the retry loop returns: one failed [getLocalTime] is the
    failure of [printLocalTime], on every board. *)
Lemma printLocalTime_single_attempt (env : Env) (s s1 : State) :
  Phase.getLocalTime env (getLocalTime_ms env) s = Returned false s1 ->
  Phase.printLocalTime env s =
  Returned false (mk_State (millis s1) (timeInfo s1)
                    (trace s1 ++ [SerialPrint "Failed to get the time!"])).
Proof.
  intros H. unfold Phase.printLocalTime. rewrite while_S. 
  unfold bind at 1 2. rewrite H. reflexivity.
Qed.

Lemma post_failed_iff (code : Z) :
  post_failed code = false <-> code = 200 \/ code = 201 \/ code = 204.
Proof.
  unfold post_failed.
  destruct (Z.leb_spec code 0); destruct (Z.eqb_spec code 200);
    destruct (Z.eqb_spec code 201); destruct (Z.eqb_spec code 204);
    cbn; split; intros; try discriminate; try lia; auto.
Qed.

(** C8. In both sketches [postToSupabase] takes its success branch
    exactly for the status codes 200, 201 and 204, its failure branch for
    every other code, zero and negative ones included, and returns the
    code to its caller either way. *)
Theorem post_classification
    (env : Env) (temperatureC humidityPct : Float32.float) (s : State) :
  http_begin env = true ->
  let code := http_POST env in
  let verdict :=
    if post_failed code then SerialPrintNum "[HTTP] POST failed. Code=" code
    else SerialPrintNum "[HTTP] POST success. Code=" code in
  (post_failed code = false <-> code = 200 \/ code = 201 \/ code = 204)
  /\ Slot.postToSupabase env temperatureC humidityPct s =
     Returned code (mk_State (millis s) (timeInfo s)
       (trace s ++ [HttpPost temperatureC humidityPct; verdict; HttpEnd]))
  /\ exists l,
       Phase.postToSupabase env temperatureC humidityPct s =
       Returned code (mk_State (millis s) (timeInfo s)
         (trace s ++ l
          ++ [HttpPost temperatureC humidityPct; verdict; HttpEnd])).
Proof.
  intros Hb. cbv zeta. split; [apply post_failed_iff|]. split.
  - unfold Slot.postToSupabase. rewrite Hb. cbn.
    destruct (post_failed (http_POST env)); cbn; rewrite <- !app_assoc;
      reflexivity.
  - unfold Phase.postToSupabase, Phase.buildUtcTimestamp. rewrite Hb.
    destruct (gettimeofday_ok env).
    + exists []. cbn. 
      destruct (post_failed (http_POST env)); cbn; rewrite <- !app_assoc;
        reflexivity.
    + exists [SerialPrint Phase.no_timestamp_msg]. cbn.
      destruct (post_failed (http_POST env)); cbn; rewrite <- !app_assoc;
        reflexivity.
Qed.

Lemma post_classification_witness :
  let env := board t_10_30_00 true 500 in
  http_begin env = true
  /\ Slot.postToSupabase env (bme_temperature env) (bme_humidity env) boot =
     Returned 500
       (mk_State 0 (mk_tm 0 0 0 0 0 0)
          [HttpPost (bme_temperature env) (bme_humidity env);
           SerialPrintNum "[HTTP] POST failed. Code=" 500; HttpEnd]).
Proof.
  cbv zeta. split; [reflexivity|].
  destruct (post_classification (board t_10_30_00 true 500)
              (bme_temperature (board t_10_30_00 true 500))
              (bme_humidity (board t_10_30_00 true 500)) boot eq_refl)
    as [_ [H _]].
  exact H.
Defined.



End Cycle.

(** ** The slot sketch's waits, at any time *)

Module SlotSchedule.
Import CInt Arduino Bench Observe CIntFacts ArduinoFacts.
Import Slot.
Local Open Scope string_scope.
Local Open Scope list_scope.
Local Open Scope Z_scope.

(** X1. For every [time_t] value, negative ones included, the wait of
    [secondsUntilNextHalfHourBoundary] is between 1 and 3599 seconds.
    Before the last half-hour boundary of [time_t] the boundary of
    [nextHalfHourBoundary] is a multiple of 1800 after [now], the safety
    branch is not taken and the wait is [1800 - now rem 1800].  Before the
    epoch the division truncates toward zero: off a boundary the wait
    exceeds 1800 seconds and one boundary is skipped.  From the last
    boundary on the product overflows, the safety branch is taken and the
    wait is 60 seconds. *)
Theorem boundary_for_any_epoch (now : Z) :
  time_t_fits now ->
  1 <= TimeT.secondsUntilNextHalfHourBoundary now <= 3599
  /\ (now < TimeT.LAST_HALF_HOUR ->
      TimeT.nextHalfHourBoundary now mod 1800 = 0
      /\ now < TimeT.nextHalfHourBoundary now
      /\ TimeT.boundaryFallbackTaken now = false
      /\ TimeT.secondsUntilNextHalfHourBoundary now
         = 1800 - Z.rem now 1800)
  /\ (now < 0 -> Z.rem now 1800 <> 0 ->
      1800 < TimeT.secondsUntilNextHalfHourBoundary now
      /\ now < TimeT.nextHalfHourBoundary now - 1800)
  /\ (TimeT.LAST_HALF_HOUR <= now ->
      TimeT.boundaryFallbackTaken now = true
      /\ TimeT.secondsUntilNextHalfHourBoundary now = 60).
Proof.
  intros Hf.
  destruct (StrategyA.rem_1800_bounds now) as [Hr [Hs Hp]].
  assert (A : now < TimeT.LAST_HALF_HOUR ->
              TimeT.nextHalfHourBoundary now = now + (1800 - Z.rem now 1800)
              /\ TimeT.boundaryFallbackTaken now = false
              /\ TimeT.secondsUntilNextHalfHourBoundary now
                 = 1800 - Z.rem now 1800).
  { intros Hl.
    destruct (StrategyA.time_t_secondsUntilNextHalfHourBoundary_exact now Hf Hl)
      as [F [E1 E2]].
    rewrite (StrategyA.time_t_nextHalfHourBoundary_exact now Hf Hl), E1, E2.
    split; [apply StrategyA.nextHalfHourBoundary_rem|].
    split; [exact F | reflexivity]. }
  assert (B : TimeT.LAST_HALF_HOUR <= now ->
              TimeT.boundaryFallbackTaken now = true
              /\ TimeT.secondsUntilNextHalfHourBoundary now = 60).
  { intros Hg.
    destruct (StrategyA.time_t_nextHalfHourBoundary_overflow now
                (conj Hg (proj2 Hf))) as [_ HB]. exact HB. }
  split; [|split; [|split; [|exact B]]].
  - destruct (Z.lt_ge_cases now TimeT.LAST_HALF_HOUR) as [Hl|Hg].
    + destruct (A Hl) as [_ [_ E]]. rewrite E. lia.
    + destruct (B Hg) as [_ E]. rewrite E. lia.
  - intros Hl. destruct (A Hl) as [En [F E]].
    split; [|split; [rewrite En; lia | split; [exact F | exact E]]].
    rewrite (StrategyA.time_t_nextHalfHourBoundary_exact now Hf Hl).
    unfold nextHalfHourBoundary. cbv zeta. apply Z.mod_mul. lia.
  - intros Hneg Hnz. specialize (Hs Hneg).
    assert (Hl : now < TimeT.LAST_HALF_HOUR)
      by (unfold TimeT.LAST_HALF_HOUR; lia).
    destruct (A Hl) as [En [_ E]]. rewrite En, E. lia.
Qed.

Lemma boundary_for_any_epoch_witness :
  time_t_fits (-1) /\ TimeT.secondsUntilNextHalfHourBoundary (-1) = 1801.
Proof.
  assert (Hf : time_t_fits (-1)) by (vm_compute; split; discriminate).
  split; [exact Hf|].
  destruct (boundary_for_any_epoch (-1) Hf) as [_ [H _]].
  destruct (H ltac:(vm_compute; reflexivity)) as [_ [_ [_ E]]].
  rewrite E. reflexivity.
Defined.

(** X2. More than half an hour before the last boundary of [time_t], a
    wake [d] seconds into the wait, before the boundary, aims at the same
    boundary with the remaining [wait - d] seconds; a wake exactly on the
    boundary waits a full 1800 seconds. *)
Theorem early_wake_keeps_the_boundary (now d : Z) :
  0 <= now < TimeT.LAST_HALF_HOUR - 1800 ->
  0 <= d < TimeT.secondsUntilNextHalfHourBoundary now ->
  TimeT.nextHalfHourBoundary (now + d) = TimeT.nextHalfHourBoundary now
  /\ TimeT.secondsUntilNextHalfHourBoundary (now + d)
     = TimeT.secondsUntilNextHalfHourBoundary now - d
  /\ TimeT.secondsUntilNextHalfHourBoundary (TimeT.nextHalfHourBoundary now)
     = 1800.
Proof.
  intros Hn Hd.
  pose proof (Z.mod_pos_bound now 1800 ltac:(lia)) as Hr.
  pose proof (Z.div_mod now 1800 ltac:(lia)) as Hq.
  assert (T : forall x, 0 <= x < TimeT.LAST_HALF_HOUR ->
            TimeT.nextHalfHourBoundary x = x + (1800 - x mod 1800)
            /\ TimeT.secondsUntilNextHalfHourBoundary x = 1800 - x mod 1800).
  { intros x Hx. pose proof (StrategyA.time_t_fits_nonneg x Hx) as Hf.
    destruct (StrategyA.time_t_secondsUntilNextHalfHourBoundary_exact x Hf
                (proj2 Hx))
      as [_ [E1 E2]].
    rewrite (StrategyA.time_t_nextHalfHourBoundary_exact x Hf (proj2 Hx)).
    rewrite E1, E2.
    rewrite StrategyA.nextHalfHourBoundary_rem, Z.rem_mod_nonneg by lia.
    split; reflexivity. }
  unfold TimeT.LAST_HALF_HOUR in *.
  destruct (T now ltac:(lia)) as [En Es]. rewrite Es in Hd.
  assert (Em : (now + d) mod 1800 = now mod 1800 + d).
  { symmetry. apply (Z.mod_unique _ _ (now / 1800)); lia. }
  destruct (T (now + d) ltac:(lia)) as [End Esd].
  assert (Eb : (now + (1800 - now mod 1800)) mod 1800 = 0).
  { replace (now + (1800 - now mod 1800))
      with ((now / 1800 + 1) * 1800) by lia.
    apply Z.mod_mul. lia. }
  destruct (T (now + (1800 - now mod 1800)) ltac:(lia)) as [_ Esb].
  rewrite End, Esd, En, Es, Esb, Em, Eb.
  split; [lia|]. split; [lia | reflexivity].
Qed.

Lemma early_wake_keeps_the_boundary_witness :
  TimeT.secondsUntilNextHalfHourBoundary (t_10_17_00 + 5) = 775.
Proof.
  destruct (early_wake_keeps_the_boundary t_10_17_00 5) as [_ [E _]].
  - vm_compute; split; [discriminate | reflexivity].
  - vm_compute; split; [discriminate | reflexivity].
  - rewrite E. vm_compute. reflexivity.
Defined.

(** X3. [secondsUntilNextHalfHourSlot], the calendar computation used after
    a failed [initBME], gives the same wait as
    [secondsUntilNextHalfHourBoundary], between 1 and 1800 seconds,
    whenever the local minute and second are those of the epoch time
    modulo half an hour and [mktime] places the target date of this call
    as many minutes ahead of [now] as its fields say, that is, when no
    change of the clock lies in between; [mktime]'s answer is then the
    boundary itself, and the 60-second fallback is not taken. *)
Theorem secondsUntilNextHalfHourSlot_agrees (env : Env) (now : Z) :
  0 <= now < TimeT.LAST_HALF_HOUR ->
  0 <= tm_min (localtime_r env now) < 60 ->
  (tm_min (localtime_r env now) mod 30) * 60 + tm_sec (localtime_r env now)
  = now mod 1800 ->
  mktime env (halfHourSlotTarget (localtime_r env now))
  = now + (if tm_min (localtime_r env now) <? 30
           then 30 - tm_min (localtime_r env now)
           else 60 - tm_min (localtime_r env now)) * 60
    - tm_sec (localtime_r env now) ->
  Slot.secondsUntilNextHalfHourSlot env now
  = TimeT.secondsUntilNextHalfHourBoundary now
  /\ 1 <= Slot.secondsUntilNextHalfHourSlot env now <= 1800
  /\ mktime env (halfHourSlotTarget (localtime_r env now))
     = TimeT.nextHalfHourBoundary now.
Proof.
  intros Hn Hm Hr Hk. set (t := localtime_r env now) in *.
  pose proof (Z.mod_pos_bound now 1800 ltac:(lia)) as Hb.
  destruct (StrategyA.time_t_wait_nonneg now Hn) as [En [Es _]].
  assert (D : mktime env (halfHourSlotTarget t)
              = now + (1800 - now mod 1800)).
  { rewrite Hk, <- Hr.
    destruct (Z.ltb_spec (tm_min t) 30) as [Hlt|Hge].
    - rewrite (Z.mod_small (tm_min t) 30) by lia. lia.
    - assert (Em : tm_min t mod 30 = tm_min t - 30).
      { symmetry. apply (Z.mod_unique (tm_min t) 30 1); lia. }
      rewrite Em. lia. }
  assert (E : Slot.secondsUntilNextHalfHourSlot env now
              = 1800 - now mod 1800).
  { unfold Slot.secondsUntilNextHalfHourSlot. cbv zeta. fold t.
    change (mk_tm 0 (if tm_min t <? 30 then 30 else 0)
              (tm_hour t + (if tm_min t <? 30 then 0 else 1))
              (tm_mday t) (tm_mon t) (tm_year t))
      with (halfHourSlotTarget t).
    rewrite D.
    destruct (Z.leb_spec (now + (1800 - now mod 1800)) now); [lia|].
    rewrite to_uint64_small; [lia|].
    change (2 ^ 64) with 18446744073709551616. lia. }
  rewrite E, Es, En, D. split; [reflexivity|]. split; [lia | reflexivity].
Qed.

Lemma secondsUntilNextHalfHourSlot_agrees_witness :
  Slot.secondsUntilNextHalfHourSlot (board t_10_17_00 false 201) t_10_17_00
  = 780.
Proof.
  destruct (secondsUntilNextHalfHourSlot_agrees
              (board t_10_17_00 false 201) t_10_17_00) as [E _].
  - vm_compute; split; [discriminate | reflexivity].
  - vm_compute; split; [discriminate | reflexivity].
  - vm_compute; reflexivity.
  - vm_compute; reflexivity.
  - rewrite E. vm_compute. reflexivity.
Defined.

(** [isMinuteSlot] in terms of the epoch time. *)
Lemma isMinuteSlot_window (env : Env) (now : Z) :
  minute_follows_epoch env -> 0 <= now ->
  Slot.isMinuteSlot env now = (now mod 1800 <? 60).
Proof.
  intros He Hn. destruct (He now Hn) as [Hr Hm].
  unfold Slot.isMinuteSlot. cbv zeta.
  pose proof (Z.div_mod now 60 ltac:(lia)) as D1.
  pose proof (Z.mod_pos_bound now 60 ltac:(lia)) as B1.
  pose proof (Z.div_mod (now / 60) 30 ltac:(lia)) as D2.
  pose proof (Z.mod_pos_bound (now / 60) 30 ltac:(lia)) as B2.
  assert (E : now mod 1800 = 60 * ((now / 60) mod 30) + now mod 60).
  { symmetry. apply (Z.mod_unique _ _ (now / 60 / 30)); lia. }
  rewrite E, <- Hm.
  destruct (Z.ltb_spec (tm_min (localtime_r env now)) 30) as [Hlt|Hge].
  - rewrite (Z.mod_small _ 30) by lia.
    destruct (Z.eqb_spec (tm_min (localtime_r env now)) 0) as [E0|N0];
      destruct (Z.eqb_spec (tm_min (localtime_r env now)) 30) as [E3|N3];
      destruct (Z.ltb_spec (60 * tm_min (localtime_r env now) + now mod 60) 60);
      cbn [orb]; try reflexivity; lia.
  - assert (Em : tm_min (localtime_r env now) mod 30
                 = tm_min (localtime_r env now) - 30).
    { symmetry. apply (Z.mod_unique _ 30 1); lia. }
    rewrite Em.
    destruct (Z.eqb_spec (tm_min (localtime_r env now)) 0) as [E0|N0];
      destruct (Z.eqb_spec (tm_min (localtime_r env now)) 30) as [E3|N3];
      destruct (Z.ltb_spec
                  (60 * (tm_min (localtime_r env now) - 30) + now mod 60) 60);
      cbn [orb]; try reflexivity; lia.
Qed.

(** X18. In a zone whose minutes follow the epoch time, and more than half
    an hour before the last boundary of [time_t], [isMinuteSlot] holds
    exactly during the first 60 seconds after a half-hour boundary.  So
    the wake programmed by [secondsUntilNextHalfHourBoundary] lands in a
    slot, a wake 60 seconds late or more misses it, the sleep after a
    measurement is longer than 1740 seconds and leaves the slot, and the
    sleep outside a slot is at most 1740 seconds. *)
Theorem slot_stays_open_one_minute (env : Env) (now : Z) :
  minute_follows_epoch env ->
  0 <= now < TimeT.LAST_HALF_HOUR - 1800 ->
  Slot.isMinuteSlot env now = (now mod 1800 <? 60)
  /\ (forall d, 0 <= d < 1800 ->
      Slot.isMinuteSlot env (TimeT.nextHalfHourBoundary now + d)
      = (d <? 60))
  /\ (Slot.isMinuteSlot env now = true ->
      1740 < TimeT.secondsUntilNextHalfHourBoundary now <= 1800)
  /\ (Slot.isMinuteSlot env now = false ->
      1 <= TimeT.secondsUntilNextHalfHourBoundary now <= 1740).
Proof.
  intros He Hn.
  pose proof (Z.mod_pos_bound now 1800 ltac:(lia)) as Hb.
  pose proof (Z.div_mod now 1800 ltac:(lia)) as Hd.
  rewrite (isMinuteSlot_window env now He (proj1 Hn)).
  assert (Hl : 0 <= now < TimeT.LAST_HALF_HOUR)
    by (unfold TimeT.LAST_HALF_HOUR in *; lia).
  destruct (StrategyA.time_t_wait_nonneg now Hl) as [En [Es _]].
  rewrite En, Es.
  split; [reflexivity|]. split; [|split].
  - intros d Hd'.
    rewrite (isMinuteSlot_window env
               (now + (1800 - now mod 1800) + d) He ltac:(lia)).
    assert (E : (now + (1800 - now mod 1800) + d) mod 1800 = d).
    { replace (now + (1800 - now mod 1800) + d)
        with (d + (now / 1800 + 1) * 1800) by lia.
      rewrite Z.mod_add by lia. apply Z.mod_small. lia. }
    rewrite E. reflexivity.
  - intros H. apply Z.ltb_lt in H. lia.
  - intros H. apply Z.ltb_ge in H. lia.
Qed.

(** The minutes of [gmtime] follow the epoch time. *)
Lemma gmtime_minute_follows_epoch (env : Env) :
  localtime_r env = gmtime -> minute_follows_epoch env.
Proof.
  intros El t Ht. rewrite El. unfold gmtime.
  destruct (civil_from_days (t / 86400)) as [[y m] d]. cbn [tm_min].
  pose proof (Z.div_mod t 86400 ltac:(lia)) as D0.
  pose proof (Z.mod_pos_bound t 86400 ltac:(lia)) as B0.
  pose proof (Z.mod_pos_bound (t mod 86400 / 60) 60 ltac:(lia)) as B1.
  split; [lia|].
  rewrite (Z.mod_mod_divide _ 60 30) by (exists 2; reflexivity).
  assert (Eq : t / 60 = t / 86400 * 1440 + t mod 86400 / 60).
  { rewrite D0 at 1.
    replace (86400 * (t / 86400) + t mod 86400)
      with (t mod 86400 + (t / 86400 * 1440) * 60) by lia.
    rewrite Z.div_add by lia. lia. }
  rewrite Eq.
  replace (t / 86400 * 1440 + t mod 86400 / 60)
    with (t mod 86400 / 60 + (t / 86400 * 48) * 30) by lia.
  rewrite Z.mod_add by lia. reflexivity.
Qed.

Lemma slot_stays_open_one_minute_witness :
  Slot.isMinuteSlot (board t_10_17_00 true 201) t_10_17_00 = false.
Proof.
  destruct (slot_stays_open_one_minute (board t_10_17_00 true 201)
              t_10_17_00) as [E _].
  - apply gmtime_minute_follows_epoch. reflexivity.
  - vm_compute; split; [discriminate | reflexivity].
  - rewrite E. vm_compute. reflexivity.
Defined.

End SlotSchedule.

(** ** The phase-aligned sleep, bounded *)

Module PhaseSchedule.
Import CInt Arduino Bench CIntFacts ArduinoFacts.
Import Phase StrategyB.
Local Open Scope Z_scope.

(** Below 1920 seconds the compensation adds 3 to 5 seconds. *)
Lemma compensate_overshoot (d : Z) :
  0 <= d < 1920 -> d + 3 <= compensate d <= d + 5.
Proof.
  intros H.
  pose (f := fun d => (d + 3 <=? compensate d) && (compensate d <=? d + 5)).
  assert (E : f d = true).
  { apply (forallb_upto f 1920); [vm_compute; reflexivity | lia]. }
  unfold f in E. lia.
Qed.

(** With a valid clock the aligned duration ends on a multiple of 1800
    seconds counted from the wake hour, 120 to 1919 seconds ahead. *)
Lemma alignedSeconds_range (wake : Z) (t : tm) :
  0 <= wake < 24 -> valid_clock t ->
  120 <= alignedSeconds wake 30 t <= 1919
  /\ (curSecond wake t + alignedSeconds wake 30 t) mod 1800 = 0.
Proof.
  intros Hw Ht.
  pose proof (offsetSeconds_range wake t Hw Ht) as Ho.
  pose proof (curHour_range wake t Hw Ht) as Hc.
  rewrite (alignedSeconds_eq wake t Hw Ht), (skipAhead_eq wake t Hw Ht).
  assert (Hcs : 0 <= curSecond wake t).
  { destruct Ht as [_ [Hm Hs]]. unfold curSecond. lia. }
  assert (Eo : offsetSeconds wake 30 t = curSecond wake t mod 1800).
  { unfold offsetSeconds, desiredSleepSeconds. change (30 * 60) with 1800.
    apply Z.rem_mod_nonneg; lia. }
  pose proof (Z.div_mod (curSecond wake t) 1800 ltac:(lia)) as Hq.
  destruct (Z.ltb_spec 1680 (offsetSeconds wake 30 t)).
  - split; [lia|].
    replace (curSecond wake t + (1800 - offsetSeconds wake 30 t + 1800))
      with ((curSecond wake t / 1800 + 2) * 1800) by lia.
    apply Z.mod_mul. lia.
  - split; [lia|].
    replace (curSecond wake t + (1800 - offsetSeconds wake 30 t + 0))
      with ((curSecond wake t / 1800 + 1) * 1800) by lia.
    apply Z.mod_mul. lia.
Qed.

(** X4. With a valid clock the sleep of [beginDeepSleep] is the aligned
    duration, between 120 and 1919 seconds, plus 3 to 5 seconds of
    compensation: never below 123 and never above 1924 seconds. *)
Theorem sleepDuration_bounds (wake : Z) (t : tm) :
  0 <= wake < 24 -> valid_clock t ->
  let aligned := alignedSeconds wake SLEEP_DURATION t in
  let d := sleepDuration wake SLEEP_DURATION t in
  (curSecond wake t + aligned) mod 1800 = 0
  /\ 120 <= aligned <= 1919
  /\ aligned + 3 <= d <= aligned + 5
  /\ 123 <= d <= 1924.
Proof.
  intros Hw Ht. cbv zeta. unfold SLEEP_DURATION.
  destruct (alignedSeconds_range wake t Hw Ht) as [Hr Hm].
  pose proof (compensate_overshoot (alignedSeconds wake 30 t) ltac:(lia)) as Hc.
  unfold sleepDuration. repeat split; try lia; exact Hm.
Qed.

Lemma sleepDuration_bounds_witness :
  0 <= WAKE_TIME < 24 /\ valid_clock (mk_tm 59 29 23 15 10 123)
  /\ 123 <= sleepDuration WAKE_TIME SLEEP_DURATION (mk_tm 59 29 23 15 10 123)
     <= 1924.
Proof.
  assert (Hw : 0 <= WAKE_TIME < 24) by (unfold WAKE_TIME; lia).
  assert (Ht : valid_clock (mk_tm 59 29 23 15 10 123))
    by (unfold valid_clock; cbn; lia).
  destruct (sleepDuration_bounds WAKE_TIME _ Hw Ht) as [_ [_ [_ H]]].
  split; [exact Hw | split; [exact Ht | exact H]].
Defined.

(** X5. With [SLEEP_DURATION] 30 the sleep depends on the minute modulo 30
    and on the second only: neither [WAKE_TIME] nor the hour, the day or the
    year changes it. *)
Theorem sleepDuration_ignores_the_hour (wake wake' : Z) (t t' : tm) :
  0 <= wake < 24 -> 0 <= wake' < 24 -> valid_clock t -> valid_clock t' ->
  tm_min t mod 30 = tm_min t' mod 30 -> tm_sec t = tm_sec t' ->
  skipAhead wake SLEEP_DURATION t = skipAhead wake' SLEEP_DURATION t'
  /\ sleepDuration wake SLEEP_DURATION t
     = sleepDuration wake' SLEEP_DURATION t'.
Proof.
  intros Hw Hw' Ht Ht' Em Es. unfold SLEEP_DURATION.
  assert (Eo : offsetSeconds wake 30 t = offsetSeconds wake' 30 t').
  { rewrite (offsetSeconds_eq wake t Hw Ht),
      (offsetSeconds_eq wake' t' Hw' Ht').
    rewrite Em, Es. reflexivity. }
  assert (Ek : skipAhead wake 30 t = skipAhead wake' 30 t').
  { rewrite (skipAhead_eq wake t Hw Ht), (skipAhead_eq wake' t' Hw' Ht'), Eo.
    reflexivity. }
  split; [exact Ek|]. unfold sleepDuration.
  rewrite (alignedSeconds_eq wake t Hw Ht),
    (alignedSeconds_eq wake' t' Hw' Ht').
  rewrite Eo, Ek. reflexivity.
Qed.

Lemma sleepDuration_ignores_the_hour_witness :
  sleepDuration 6 SLEEP_DURATION (mk_tm 7 41 3 15 10 123)
  = sleepDuration 17 SLEEP_DURATION (mk_tm 7 11 22 1 0 100).
Proof.
  refine (proj2 (sleepDuration_ignores_the_hour 6 17
            (mk_tm 7 41 3 15 10 123) (mk_tm 7 11 22 1 0 100) _ _ _ _ _ _));
    unfold valid_clock; cbn; try lia; reflexivity.
Defined.

End PhaseSchedule.

(** ** The polling loops, step by step *)

Module Polling.
Import CInt Arduino Bench Observe CIntFacts ArduinoFacts Termination.
Local Open Scope string_scope.
Local Open Scope list_scope.
Local Open Scope Z_scope.

Section ConnectWiFiSpec.
Variable env : Env.
Variable start : Z.

(** The loop of [connectWiFi] entered at poll [k], 250 ms apart from
    [start]: it leaves at the first poll that sees the connection, or at
    poll 60. *)
Lemma connectWiFi_loop_spec (fuel : nat) :
  forall (k : Z) (s : State),
    0 <= k <= 60 ->
    millis s = start + 250 * k ->
    61 - k <= Z.of_nat fuel ->
    exists ok s' k',
      while_ fuel (Slot.connectWiFi_cond env (to_uint32 start))
        Slot.connectWiFi_body (Slot.connectWiFi_after env) tt s
      = Returned ok s'
      /\ k <= k' <= 60
      /\ millis s' = start + 250 * k'
      /\ timeInfo s' = timeInfo s
      /\ ok = wifi_connected_at env (millis s')
      /\ (k' < 60 -> ok = true)
      /\ (forall j, k <= j < k' ->
          wifi_connected_at env (start + 250 * j) = false).
Proof.
  induction fuel as [|fuel IH]; intros k s Hk Hm Hf; [lia|].
  assert (Ec : Slot.connectWiFi_cond env (to_uint32 start) tt s
               = Returned (negb (wifi_connected_at env (millis s))
                           && (250 * k <? 15000), tt) s).
  { unfold Slot.connectWiFi_cond, bind, WiFi_connected, get_millis, ret,
      Slot.WIFI_CONNECT_TIMEOUT_MS.
    rewrite to_uint32_sub, Hm.
    replace (start + 250 * k - start) with (250 * k) by lia.
    rewrite to_uint32_small by (change (2 ^ 32) with 4294967296; lia).
    reflexivity. }
  rewrite while_S, (bind_returned _ _ _ _ _ Ec). cbn [fst snd].
  destruct (negb (wifi_connected_at env (millis s)) && (250 * k <? 15000))
    eqn:Eb.
  - apply andb_true_iff in Eb. destruct Eb as [Ew Eb]. apply Z.ltb_lt in Eb.
    apply negb_true_iff in Ew.
    rewrite (bind_returned _ _ s (inl tt)
               (mk_State (millis s + 250) (timeInfo s)
                         (trace s ++ [SerialPrint "."])))
      by reflexivity.
    destruct (IH (k + 1)
                (mk_State (millis s + 250) (timeInfo s)
                          (trace s ++ [SerialPrint "."])))
      as [ok [s' [k' [E [Hk' [Hm' [Ht' [Ho [Hlt Hall]]]]]]]]];
      [lia | cbn [millis]; lia | lia |].
    exists ok, s', k'. split; [exact E|]. split; [lia|].
    split; [exact Hm'|]. split; [exact Ht'|]. split; [exact Ho|].
    split; [exact Hlt|]. intros j Hj.
    destruct (Z.eq_dec j k) as [->|Hne]; [rewrite <- Hm; exact Ew|].
    apply Hall. lia.
  - apply andb_false_iff in Eb.
    assert (Eo : Slot.connectWiFi_after env tt s
                 = Returned (wifi_connected_at env (millis s))
                     (mk_State (millis s) (timeInfo s)
                        (trace s ++ [SerialPrint
                           (if wifi_connected_at env (millis s)
                            then "[WIFI] Connected."
                            else "[WIFI] Failed to connect.")]))).
    { unfold Slot.connectWiFi_after, bind, WiFi_connected.
      destruct (wifi_connected_at env (millis s)); reflexivity. }
    rewrite Eo. exists (wifi_connected_at env (millis s)). eexists. exists k.
    split; [reflexivity|]. cbn [millis timeInfo].
    split; [lia|]. split; [exact Hm|]. split; [reflexivity|].
    split; [reflexivity|]. split; [|intros j Hj; lia].
    intros Hlt. destruct Eb as [Eb|Eb].
    + apply negb_false_iff in Eb. exact Eb.
    + apply Z.ltb_ge in Eb. lia.
Qed.

End ConnectWiFiSpec.

(** X6. [connectWiFi] always returns, after [k <= 60] polls 250 ms apart,
    with the status read at the last poll; every earlier poll saw no
    connection, and a failure is reported exactly
    [WIFI_CONNECT_TIMEOUT_MS] after the start, also across a wrap of
    [millis()]. *)
Theorem connectWiFi_bounded_wait (env : Env) (s : State) :
  exists ok s' k,
    Slot.connectWiFi env s = Returned ok s'
    /\ 0 <= k <= 60
    /\ millis s' = millis s + 250 * k
    /\ ok = wifi_connected_at env (millis s')
    /\ (forall j, 0 <= j < k ->
        wifi_connected_at env (millis s + 250 * j) = false)
    /\ (ok = false -> millis s' = millis s + Slot.WIFI_CONNECT_TIMEOUT_MS).
Proof.
  unfold Slot.connectWiFi.
  rewrite (bind_returned _ _ s tt
             (mk_State (millis s) (timeInfo s) (trace s ++ [WiFiBegin])))
    by reflexivity.
  rewrite (bind_returned _ _ _ (to_uint32 (millis s)) _) by reflexivity.
  destruct (connectWiFi_loop_spec env (millis s) 62 0
              (mk_State (millis s) (timeInfo s) (trace s ++ [WiFiBegin])))
    as [ok [s' [k [E [Hk [Hm [_ [Ho [Hlt Hall]]]]]]]]];
    [lia | cbn [millis]; lia | lia |].
  exists ok, s', k. split; [exact E|]. split; [exact Hk|].
  split; [exact Hm|]. split; [exact Ho|]. split; [exact Hall|].
  intros Hf. unfold Slot.WIFI_CONNECT_TIMEOUT_MS.
  destruct (Z.lt_ge_cases k 60) as [H|H]; [|lia].
  rewrite (Hlt H) in Hf. discriminate.
Qed.

(** The [for] loop of [syncTime] with [n] readings left. *)
Lemma syncTime_poll_spec (env : Env) (n : nat) :
  forall s, exists ok s' j,
    Slot.syncTime_poll env n s = Returned ok s'
    /\ 0 <= j <= Z.of_nat n
    /\ millis s' = millis s + 250 * j
    /\ (forall i, 0 <= i < j ->
        epoch_at env (millis s + 250 * i) <= 1700000000)
    /\ (if ok then j < Z.of_nat n /\ 1700000000 < epoch_at env (millis s')
        else j = Z.of_nat n).
Proof.
  induction n as [|n IH]; intros s; cbn [Slot.syncTime_poll].
  - eexists false, _, 0. split; [reflexivity|]. cbn [millis].
    split; [lia|]. split; [lia|]. split; [intros i Hi; lia | reflexivity].
  - unfold bind at 1, time_.
    destruct (Z.ltb_spec 1700000000 (epoch_at env (millis s))) as [Hv|Hv].
    + eexists true, _, 0. split; [reflexivity|]. cbn [millis].
      split; [lia|]. split; [lia|]. split; [intros i Hi; lia|].
      split; [lia | exact Hv].
    + unfold bind at 1, delay.
      destruct (IH (mk_State (millis s + 250) (timeInfo s) (trace s)))
        as [ok [s' [j [E [Hj [Hm [Hall Hok]]]]]]].
      cbn [millis] in Hm, Hall.
      exists ok, s', (j + 1). split; [exact E|]. split; [lia|].
      split; [lia|]. split.
      * intros i Hi. destruct (Z.eq_dec i 0) as [->|Hne].
        -- replace (millis s + 250 * 0) with (millis s) by lia. exact Hv.
        -- replace (millis s + 250 * i) with (millis s + 250 + 250 * (i - 1))
             by lia.
           apply Hall. lia.
      * destruct ok; [destruct Hok; split; [lia | assumption] | lia].
Qed.

(** X7. [syncTime] reads the clock at most 40 times, 250 ms apart: it
    returns true at the first reading after 1700000000, and false after
    exactly 40 invalid readings, ten seconds after the start. *)
Theorem syncTime_polls_forty_times (env : Env) (s : State) :
  exists ok s' j,
    Slot.syncTime env s = Returned ok s'
    /\ 0 <= j <= 40
    /\ millis s' = millis s + 250 * j
    /\ (forall i, 0 <= i < j ->
        epoch_at env (millis s + 250 * i) <= 1700000000)
    /\ (if ok then j < 40 /\ 1700000000 < epoch_at env (millis s')
        else j = 40).
Proof.
  unfold Slot.syncTime. unfold bind at 1 2, emit.
  destruct (syncTime_poll_spec env 40
              (mk_State (millis s) (timeInfo s)
                 ((trace s ++ [SntpConfig])
                  ++ [SerialPrint "[TIME] Syncing via NTP..."])))
    as [ok [s' [j [E H]]]].
  exists ok, s', j. split; [exact E|]. exact H.
Qed.

Section GetLocalTimeSpec.
Variable env : Env.
Variable ms : Z.
Hypothesis Hms : 0 <= ms <= 4294967285.
Variable start : Z.

(** The loop of [getLocalTime] entered at round [k], 10 ms apart from
    [start]: every round stores its reading. *)
Lemma getLocalTime_loop_spec (fuel : nat) :
  forall (k : Z) (s : State),
    0 <= k <= ms / 10 + 1 ->
    millis s = start + 10 * k ->
    ms / 10 - k + 2 <= Z.of_nat fuel ->
    exists ok s' k',
      while_ fuel (Phase.getLocalTime_cond ms (to_uint32 start))
        (Phase.getLocalTime_body env) (fun _ => ret false) tt s
      = Returned ok s'
      /\ trace s' = trace s
      /\ k <= k' <= ms / 10 + 1
      /\ millis s' = start + 10 * k'
      /\ (forall j, k <= j < k' ->
          tm_year (localtime_r env (epoch_at env (start + 10 * j))) <= 116)
      /\ (if ok
          then k' <= ms / 10
               /\ timeInfo s' = localtime_r env (epoch_at env (millis s'))
               /\ 116 < tm_year (timeInfo s')
          else k' = ms / 10 + 1
               /\ (k < k' ->
                   timeInfo s'
                   = localtime_r env (epoch_at env (millis s' - 10)))
               /\ (k = k' -> timeInfo s' = timeInfo s)).
Proof.
  induction fuel as [|fuel IH]; intros k s Hk Hm Hf; [lia|].
  assert (Hq : 10 * (ms / 10) <= ms) by (apply Z.mul_div_le; lia).
  assert (Hq' : ms < 10 * (ms / 10 + 1)).
  { pose proof (Z.div_mod ms 10 ltac:(lia)).
    pose proof (Z.mod_pos_bound ms 10 ltac:(lia)). lia. }
  assert (Ec : Phase.getLocalTime_cond ms (to_uint32 start) tt s
               = Returned (10 * k <=? ms, tt) s).
  { unfold Phase.getLocalTime_cond, bind, get_millis, ret.
    rewrite to_uint32_sub, Hm.
    replace (start + 10 * k - start) with (10 * k) by lia.
    rewrite to_uint32_small by (change (2 ^ 32) with 4294967296; lia).
    reflexivity. }
  rewrite while_S, (bind_returned _ _ _ _ _ Ec). cbn [fst snd].
  destruct (Z.leb_spec (10 * k) ms) as [Hle|Hgt].
  - set (info := localtime_r env (epoch_at env (millis s))).
    assert (Hkq : k <= ms / 10) by (apply Z.div_le_lower_bound; lia).
    destruct (Z.ltb_spec (2016 - 1900) (tm_year info)) as [Hy|Hy].
    + assert (Eb : Phase.getLocalTime_body env tt s =
                   Returned (inr true) (mk_State (millis s) info (trace s))).
      { unfold Phase.getLocalTime_body, bind, time_, set_timeInfo,
          get_timeInfo, ret.
        cbn [timeInfo millis trace]. fold info.
        destruct (Z.ltb_spec (2016 - 1900) (tm_year info)); [reflexivity|lia]. }
      rewrite (bind_returned _ _ _ _ _ Eb).
      eexists true, _, k. split; [reflexivity|]. cbn [millis timeInfo trace].
      split; [reflexivity|]. split; [lia|]. split; [exact Hm|].
      split; [intros j Hj; lia|]. split; [exact Hkq|].
      split; [reflexivity | lia].
    + assert (Eb : Phase.getLocalTime_body env tt s =
                   Returned (inl tt) (mk_State (millis s + 10) info (trace s))).
      { unfold Phase.getLocalTime_body, bind, time_, set_timeInfo,
          get_timeInfo, ret, delay.
        cbn [timeInfo millis trace]. fold info.
        destruct (Z.ltb_spec (2016 - 1900) (tm_year info)); [lia|reflexivity]. }
      rewrite (bind_returned _ _ _ _ _ Eb).
      destruct (IH (k + 1) (mk_State (millis s + 10) info (trace s)))
        as [ok [s' [k' [E [T [Hk' [Hm' [Hall Hok]]]]]]]];
        [lia | cbn [millis]; lia | lia |].
      cbn [trace timeInfo] in T, Hok.
      exists ok, s', k'. split; [exact E|]. split; [exact T|].
      split; [lia|]. split; [exact Hm'|]. split.
      * intros j Hj. destruct (Z.eq_dec j k) as [->|Hne].
        -- rewrite <- Hm. fold info. lia.
        -- apply Hall. lia.
      * destruct ok; [exact Hok|].
        destruct Hok as [Ek' [Hlt Heq]]. split; [exact Ek'|].
        split; [|intros Hkk; lia]. intros _.
        destruct (Z.eq_dec (k + 1) k') as [He|Hne].
        -- rewrite (Heq He). unfold info. f_equal. f_equal. lia.
        -- apply Hlt. lia.
  - eexists false, _, k. split; [reflexivity|].
    split; [reflexivity|]. split; [lia|]. split; [exact Hm|].
    split; [intros j Hj; lia|].
    assert (k = ms / 10 + 1).
    { assert (ms / 10 < k) by (apply Z.div_lt_upper_bound; lia). lia. }
    split; [assumption|]. split; [intros; lia | reflexivity].
Qed.

End GetLocalTimeSpec.

(** X8. [getLocalTime] prints nothing and returns after [k] rounds of
    10 ms. On success [timeInfo] holds the valid reading of that moment,
    taken within [ms] of the start; on a timeout, after [ms / 10 + 1]
    rounds, [timeInfo] holds the last reading, which is invalid: the
    caller's earlier value is overwritten either way. *)
Theorem getLocalTime_overwrites_timeInfo (env : Env) (ms : Z) (s : State) :
  0 <= ms <= 4294967285 ->
  exists ok s' k,
    Phase.getLocalTime env ms s = Returned ok s'
    /\ trace s' = trace s
    /\ 0 <= k
    /\ millis s' = millis s + 10 * k
    /\ (forall j, 0 <= j < k ->
        tm_year (localtime_r env (epoch_at env (millis s + 10 * j))) <= 116)
    /\ (if ok
        then 10 * k <= ms
             /\ timeInfo s' = localtime_r env (epoch_at env (millis s'))
             /\ 116 < tm_year (timeInfo s')
        else k = ms / 10 + 1
             /\ timeInfo s'
                = localtime_r env (epoch_at env (millis s' - 10))
             /\ tm_year (timeInfo s') <= 116).
Proof.
  intros Hms. unfold Phase.getLocalTime.
  rewrite (bind_returned _ _ s (to_uint32 (millis s)) s) by reflexivity.
  assert (H0 : 0 <= ms / 10) by (apply Z.div_pos; lia).
  destruct (getLocalTime_loop_spec env ms Hms (millis s)
              (Z.to_nat (ms / 10) + 2) 0 s)
    as [ok [s' [k [E [T [Hk [Hm [Hall Hok]]]]]]]]; [lia | lia | lia |].
  exists ok, s', k. split; [exact E|]. split; [exact T|].
  split; [lia|]. split; [exact Hm|]. split; [exact Hall|].
  destruct ok.
  - destruct Hok as [Hk' Hrest]. split; [|exact Hrest].
    pose proof (Z.mul_div_le ms 10 ltac:(lia)). lia.
  - destruct Hok as [Ek [Hlt _]]. split; [exact Ek|].
    assert (Ei : timeInfo s' = localtime_r env (epoch_at env (millis s' - 10)))
      by (apply Hlt; lia).
    split; [exact Ei|]. rewrite Ei, Hm.
    replace (millis s + 10 * k - 10) with (millis s + 10 * (k - 1)) by lia.
    apply Hall. lia.
Qed.

Lemma getLocalTime_overwrites_timeInfo_witness :
  0 <= 5000 <= 4294967285
  /\ exists ok s',
       Phase.getLocalTime board_unsynced 5000 boot = Returned ok s'
       /\ trace s' = trace boot.
Proof.
  assert (Hms : 0 <= 5000 <= 4294967285) by lia.
  split; [exact Hms|].
  destruct (getLocalTime_overwrites_timeInfo board_unsynced 5000 boot Hms)
    as [ok [s' [k [E [T _]]]]].
  exists ok, s'. split; [exact E | exact T].
Defined.

(** An action that runs alike from two states binds alike. *)
Lemma bind_same {A B} (m : M A) (k : A -> M B) (s1 s2 : State) :
  m s1 = m s2 -> bind m k s1 = bind m k s2.
Proof. intros H. unfold bind. rewrite H. reflexivity. Qed.

(** [getLocalTime] does not read [timeInfo] before writing it. *)
Lemma getLocalTime_forgets (env : Env) (ms : Z) (s : State) (stale : tm) :
  0 <= ms <= 4294967285 ->
  Phase.getLocalTime env ms (mk_State (millis s) stale (trace s))
  = Phase.getLocalTime env ms s.
Proof.
  intros Hms. unfold Phase.getLocalTime.
  rewrite (bind_returned _ _ (mk_State (millis s) stale (trace s))
             (to_uint32 (millis s)) (mk_State (millis s) stale (trace s)))
    by reflexivity.
  rewrite (bind_returned _ _ s (to_uint32 (millis s)) s) by reflexivity.
  replace (Z.to_nat (ms / 10) + 2)%nat with (S (S (Z.to_nat (ms / 10))))
    by lia.
  rewrite !while_S.
  assert (Ec : forall s0, millis s0 = millis s ->
            Phase.getLocalTime_cond ms (to_uint32 (millis s)) tt s0
            = Returned (true, tt) s0).
  { intros s0 E0. unfold Phase.getLocalTime_cond, bind, get_millis, ret.
    rewrite E0, to_uint32_sub, Z.sub_diag.
    rewrite to_uint32_small by (change (2 ^ 32) with 4294967296; lia).
    destruct (Z.leb_spec 0 ms); [reflexivity|lia]. }
  rewrite (bind_returned _ _ _ _ _ (Ec s eq_refl)).
  rewrite (bind_returned _ _ _ _ _
             (Ec (mk_State (millis s) stale (trace s)) eq_refl)).
  cbn [fst snd]. apply bind_same.
  unfold Phase.getLocalTime_body, bind, time_, set_timeInfo, get_timeInfo.
  cbn [millis timeInfo trace]. reflexivity.
Qed.

(** X9. [beginDeepSleep] does not depend on the [timeInfo] it finds: the
    run from any stale value is the run from the current one. The single
    timer it programs is computed from a reading of the clock taken during
    the call, also on the path that reports an older time. *)
Theorem beginDeepSleep_reads_the_clock_itself
    (env : Env) (startTime : Z) (s : State) (stale : tm) :
  0 <= getLocalTime_ms env <= 4294967285 ->
  Phase.beginDeepSleep env startTime (mk_State (millis s) stale (trace s))
  = Phase.beginDeepSleep env startTime s
  /\ exists s' m,
       Phase.beginDeepSleep env startTime s = Suspended s'
       /\ millis s <= m <= millis s + getLocalTime_ms env
       /\ timeInfo s' = localtime_r env (epoch_at env m)
       /\ timers (trace s')
          = timers (trace s)
            ++ [to_uint64
                  (Phase.sleepDuration Phase.WAKE_TIME Phase.SLEEP_DURATION
                     (localtime_r env (epoch_at env m)) * 1000000)].
Proof.
  intros Hms. split.
  - unfold Phase.beginDeepSleep. apply bind_same.
    apply getLocalTime_forgets. exact Hms.
  - assert (H0 : 0 <= getLocalTime_ms env / 10) by (apply Z.div_pos; lia).
    pose proof (Z.mul_div_le (getLocalTime_ms env) 10 ltac:(lia)) as Hq.
    destruct (beginDeepSleep_run env startTime s Hms) as [ok [s1 [E [T R]]]].
    assert (E' := E). unfold Phase.getLocalTime in E'.
    rewrite (bind_returned _ _ s (to_uint32 (millis s)) s) in E'
      by reflexivity.
    destruct (getLocalTime_loop_spec env _ Hms (millis s)
                (Z.to_nat (getLocalTime_ms env / 10) + 2) 0 s)
      as [ok' [s1' [k [L [_ [Hk [Hm [_ Hok]]]]]]]]; [lia | lia | lia |].
    rewrite L in E'. injection E' as -> ->.
    eexists. exists (if ok then millis s1 else millis s1 - 10).
    split; [exact R|]. cbn [timeInfo trace]. split; [|split].
    + destruct ok; [destruct Hok; lia | destruct Hok as [-> _]; lia].
    + destruct ok; [destruct Hok as [_ [Ei _]]; exact Ei|].
      destruct Hok as [Ek [Ei _]]. apply Ei. lia.
    + assert (Ei : timeInfo s1
                   = localtime_r env
                       (epoch_at env (if ok then millis s1
                                      else millis s1 - 10))).
      { destruct ok; [destruct Hok as [_ [Ei _]]; exact Ei|].
        destruct Hok as [Ek [Ei _]]. apply Ei. lia. }
      rewrite <- Ei. rewrite !Cycle.timers_app.
      destruct ok; cbn [timers flat_map timer_of app]; rewrite ?app_nil_r;
        reflexivity.
Qed.

Lemma beginDeepSleep_reads_the_clock_itself_witness :
  0 <= getLocalTime_ms board_unsynced <= 4294967285
  /\ Phase.beginDeepSleep board_unsynced 0
       (mk_State 0 (mk_tm 10 17 10 15 10 123) [])
     = Phase.beginDeepSleep board_unsynced 0 boot.
Proof.
  assert (Hms : 0 <= getLocalTime_ms board_unsynced <= 4294967285)
    by (cbn; lia).
  split; [exact Hms|].
  exact (proj1 (beginDeepSleep_reads_the_clock_itself board_unsynced 0 boot
                  (mk_tm 10 17 10 15 10 123) Hms)).
Defined.

Section WaitSpec.
Variable env : Env.
Variable start : Z.
Hypothesis Hstart : to_uint32 start + 20000 < 4294967296.

(** The loop of [waitForSNTPSync] entered after [k] waits of 100 ms, with
    the deadline 20 seconds after [start]. *)
Lemma waitForSNTPSync_loop_spec (fuel : nat) :
  forall (k : Z) (s : State),
    0 <= k <= 200 ->
    millis s = start + 100 * k ->
    201 - k <= Z.of_nat fuel ->
    exists s' k',
      while_ fuel (Phase.waitForSNTPSync_cond env (to_uint32 start + 20000))
        Phase.waitForSNTPSync_body
        (fun _ => bind (emit (SerialPrint "")) (fun _ => ret tt)) tt s
      = Returned tt s'
      /\ k <= k' <= 200
      /\ millis s' = start + 100 * k'
      /\ timeInfo s' = timeInfo s
      /\ (k' < 200 -> sntp_synced_at env (millis s') = true)
      /\ (forall j, k <= j < k' ->
          sntp_synced_at env (start + 100 * j) = false).
Proof.
  induction fuel as [|fuel IH]; intros k s Hk Hm Hf; [lia|].
  pose proof (to_uint32_range start) as Hr.
  assert (Ec : Phase.waitForSNTPSync_cond env (to_uint32 start + 20000) tt s
               = Returned (negb (sntp_synced_at env (millis s))
                           && (100 * k <? 20000), tt) s).
  { unfold Phase.waitForSNTPSync_cond, bind, sntp_synced, get_millis, ret.
    rewrite Hm, to_uint32_add by lia.
    replace (to_uint32 start + 100 * k <? to_uint32 start + 20000)
      with (100 * k <? 20000); [reflexivity|].
    destruct (Z.ltb_spec (100 * k) 20000);
      destruct (Z.ltb_spec (to_uint32 start + 100 * k)
                           (to_uint32 start + 20000)); lia. }
  rewrite while_S, (bind_returned _ _ _ _ _ Ec). cbn [fst snd].
  destruct (negb (sntp_synced_at env (millis s)) && (100 * k <? 20000))
    eqn:Eb.
  - apply andb_true_iff in Eb. destruct Eb as [Ew Eb]. apply Z.ltb_lt in Eb.
    apply negb_true_iff in Ew.
    rewrite (bind_returned _ _ s (inl tt)
               (mk_State (millis s + 100) (timeInfo s)
                         (trace s ++ [SerialPrint "."])))
      by reflexivity.
    destruct (IH (k + 1)
                (mk_State (millis s + 100) (timeInfo s)
                          (trace s ++ [SerialPrint "."])))
      as [s' [k' [E [Hk' [Hm' [Ht' [Hlt Hall]]]]]]];
      [lia | cbn [millis]; lia | lia |].
    exists s', k'. split; [exact E|]. split; [lia|].
    split; [exact Hm'|]. split; [exact Ht'|]. split; [exact Hlt|].
    intros j Hj. destruct (Z.eq_dec j k) as [->|Hne];
      [rewrite <- Hm; exact Ew | apply Hall; lia].
  - apply andb_false_iff in Eb. eexists. exists k.
    split; [reflexivity|]. cbn [millis timeInfo].
    split; [lia|]. split; [exact Hm|]. split; [reflexivity|].
    split; [|intros j Hj; lia]. intros Hlt. destruct Eb as [Eb|Eb].
    + apply negb_false_iff in Eb. exact Eb.
    + apply Z.ltb_ge in Eb. lia.
Qed.

End WaitSpec.

(** The waiting stage of [waitForSNTPSync]. *)
Lemma waitForSNTPSync_wait_spec (env : Env) (s : State) :
  let timeout := to_uint32 (to_uint32 (millis s) + Phase.NTP_TIMEOUT_MS) in
  exists s' w,
    when (negb (sntp_synced_at env (millis s))
          && (to_uint32 (millis s) <? timeout))
      (bind (emit (SerialPrint "Waiting for SNTP synchronization."))
         (fun _ => bind (delay 100) (fun _ =>
            while_ 202 (Phase.waitForSNTPSync_cond env timeout)
              Phase.waitForSNTPSync_body
              (fun _ => bind (emit (SerialPrint "")) (fun _ => ret tt)) tt)))
      s
    = Returned tt s'
    /\ 0 <= w <= 200
    /\ millis s' = millis s + 100 * w
    /\ timeInfo s' = timeInfo s
    /\ (sntp_synced_at env (millis s) = true -> w = 0).
Proof.
  cbv zeta. unfold Phase.NTP_TIMEOUT_MS.
  pose proof (to_uint32_range (millis s)) as Hr.
  destruct (negb (sntp_synced_at env (millis s))
            && (to_uint32 (millis s)
                <? to_uint32 (to_uint32 (millis s) + 20000))) eqn:Eb;
    cbn [when].
  2:{ exists s, 0. split; [reflexivity|]. split; [lia|]. split; [lia|].
      split; reflexivity. }
  apply andb_true_iff in Eb. destruct Eb as [Ew Eb]. apply Z.ltb_lt in Eb.
  apply negb_true_iff in Ew.
  assert (Hnowrap : to_uint32 (millis s) + 20000 < 4294967296).
  { destruct (Z.lt_ge_cases (to_uint32 (millis s) + 20000) 4294967296)
      as [H|H]; [exact H|exfalso].
    assert (E : to_uint32 (to_uint32 (millis s) + 20000)
                = to_uint32 (millis s) + 20000 - 4294967296).
    { unfold to_uint32 at 1. symmetry.
      apply (Z.mod_unique _ _ 1); change (2 ^ 32) with 4294967296; lia. }
    lia. }
  rewrite (to_uint32_small (to_uint32 (millis s) + 20000))
    by (change (2 ^ 32) with 4294967296; lia).
  unfold bind at 1 2, emit, delay. cbn [millis timeInfo trace].
  destruct (waitForSNTPSync_loop_spec env (millis s) Hnowrap 202 1
              (mk_State (millis s + 100) (timeInfo s)
                 (trace s
                  ++ [SerialPrint "Waiting for SNTP synchronization."])))
    as [s' [k [E [Hk [Hm [Ht _]]]]]]; [lia | cbn [millis]; lia | lia |].
  exists s', k. split; [exact E|]. split; [lia|]. split; [exact Hm|].
  split; [exact Ht|]. intros Hs. rewrite Hs in Ew. discriminate.
Qed.

(** [printLocalTime] is one call of [getLocalTime] and one line of
    output. *)
Lemma printLocalTime_run (env : Env) (s s1 : State) (ok : bool) :
  Phase.getLocalTime env (getLocalTime_ms env) s = Returned ok s1 ->
  exists msg,
    Phase.printLocalTime env s
    = Returned ok (mk_State (millis s1) (timeInfo s1)
                     (trace s1 ++ [SerialPrint msg])).
Proof.
  intros H. unfold Phase.printLocalTime. rewrite while_S.
  unfold bind at 1 2. rewrite H. destruct ok; eexists; reflexivity.
Qed.

(** X10. [waitForSNTPSync] returns after at most 200 waits of 100 ms and
    [getLocalTime_ms / 10 + 1] rounds of 10 ms, without waiting at all when
    SNTP is synchronised at entry. It returns true exactly when the
    [timeInfo] it leaves has a year after 2016, and at once when the clock
    is valid at the end of the wait. *)
Theorem waitForSNTPSync_hard_timeout (env : Env) (s : State) :
  0 <= getLocalTime_ms env <= 4294967285 ->
  exists ok s' w k,
    Phase.waitForSNTPSync env s = Returned ok s'
    /\ 0 <= w <= 200
    /\ 0 <= k <= getLocalTime_ms env / 10 + 1
    /\ millis s' = millis s + 100 * w + 10 * k
    /\ (sntp_synced_at env (millis s) = true -> w = 0)
    /\ (ok = true <-> 116 < tm_year (timeInfo s'))
    /\ (116 < tm_year (localtime_r env (epoch_at env (millis s + 100 * w)))
        -> ok = true /\ k = 0).
Proof.
  intros Hms. unfold Phase.waitForSNTPSync.
  rewrite (bind_returned _ _ s (to_uint32 (millis s)) s) by reflexivity.
  cbv zeta.
  rewrite (bind_returned _ _ s (sntp_synced_at env (millis s)) s)
    by reflexivity.
  rewrite (bind_returned _ _ s (to_uint32 (millis s)) s) by reflexivity.
  destruct (waitForSNTPSync_wait_spec env s) as [s1 [w [E [Hw [Hm [_ Hs]]]]]].
  cbv zeta in E. rewrite (bind_returned _ _ _ _ _ E).
  assert (H0 : 0 <= getLocalTime_ms env / 10) by (apply Z.div_pos; lia).
  assert (G : exists ok s2 k,
            Phase.getLocalTime env (getLocalTime_ms env) s1 = Returned ok s2
            /\ 0 <= k <= getLocalTime_ms env / 10 + 1
            /\ millis s2 = millis s1 + 10 * k
            /\ (forall j, 0 <= j < k ->
                tm_year (localtime_r env (epoch_at env (millis s1 + 10 * j)))
                <= 116)
            /\ (ok = true <-> 116 < tm_year (timeInfo s2))).
  { unfold Phase.getLocalTime.
    rewrite (bind_returned _ _ s1 (to_uint32 (millis s1)) s1) by reflexivity.
    destruct (getLocalTime_loop_spec env _ Hms (millis s1)
                (Z.to_nat (getLocalTime_ms env / 10) + 2) 0 s1)
      as [ok [s2 [k [L [_ [Hk [Hm2 [Hall Hok]]]]]]]]; [lia | lia | lia |].
    exists ok, s2, k. split; [exact L|]. split; [lia|]. split; [exact Hm2|].
    split; [exact Hall|]. destruct ok.
    - destruct Hok as [_ [_ Hy]]. split; [intros _; exact Hy | reflexivity].
    - destruct Hok as [Ek [Ei _]]. split; [discriminate|]. intros Hy.
      rewrite Ei in Hy by lia. rewrite Hm2 in Hy.
      replace (millis s1 + 10 * k - 10) with (millis s1 + 10 * (k - 1)) in Hy
        by lia.
      specialize (Hall (k - 1) ltac:(lia)). lia. }
  destruct G as [ok [s2 [k [G [Hk [Hm2 [Hall Hy]]]]]]].
  destruct (printLocalTime_run env s1 s2 ok G) as [msg P].
  exists ok. eexists. exists w, k. split; [exact P|]. cbn [millis timeInfo].
  split; [exact Hw|]. split; [exact Hk|]. split; [lia|].
  split; [exact Hs|]. split; [exact Hy|]. intros Hv.
  rewrite <- Hm in Hv.
  assert (Ek : k = 0).
  { destruct (Z.eq_dec k 0) as [Ez|Hne]; [exact Ez|exfalso].
    specialize (Hall 0 ltac:(lia)).
    replace (millis s1 + 10 * 0) with (millis s1) in Hall by lia. lia. }
  split; [|exact Ek]. subst k. destruct ok; [reflexivity|exfalso].
  revert G. unfold Phase.getLocalTime.
  rewrite (bind_returned _ _ s1 (to_uint32 (millis s1)) s1) by reflexivity.
  destruct (getLocalTime_loop_spec env _ Hms (millis s1)
              (Z.to_nat (getLocalTime_ms env / 10) + 2) 0 s1)
    as [ok' [s2' [k' [L [_ [Hk' [Hm2' [_ Hok']]]]]]]]; [lia | lia | lia |].
  rewrite L. intros G. injection G as -> ->.
  destruct Hok' as [Ek' _]. lia.
Qed.

Lemma waitForSNTPSync_hard_timeout_witness :
  exists ok s',
    Phase.waitForSNTPSync board_unsynced boot = Returned ok s'
    /\ millis s' <= 25010.
Proof.
  assert (Hms : 0 <= getLocalTime_ms board_unsynced <= 4294967285)
    by (cbn; lia).
  destruct (waitForSNTPSync_hard_timeout board_unsynced boot Hms)
    as [ok [s' [w [k [E [Hw [Hk [Hm _]]]]]]]].
  exists ok, s'. split; [exact E|].
  change (getLocalTime_ms board_unsynced / 10) with 500 in Hk.
  change (millis boot) with 0 in Hm. lia.
Defined.

End Polling.

(** ** One timer, then sleep *)

Module SingleSleep.
Import CInt Arduino Bench Observe CIntFacts ArduinoFacts Termination Polling.
Local Open Scope string_scope.
Local Open Scope list_scope.
Local Open Scope Z_scope.

(** Quiet events program no timer. *)
Lemma timers_quiet (l : list Event) : Forall quiet l -> timers l = [].
Proof.
  induction 1 as [|e l He _ IH]; [reflexivity|].
  unfold timers in *. cbn [flat_map]. unfold quiet in He. rewrite He, IH.
  reflexivity.
Qed.

Lemma extends_quiet (s s' : State) :
  extends quiet s s' -> timers (trace s') = timers (trace s).
Proof.
  intros [l [E F]]. rewrite E, Cycle.timers_app, (timers_quiet l F).
  apply app_nil_r.
Qed.

(** The rules of [single_sleep], one for each way of building an
    action. *)
Lemma single_sleep_returns {A} (m : M A) :
  adds quiet m -> (forall s, exists a s', m s = Returned a s') ->
  single_sleep m.
Proof.
  intros Ha Hr s. destruct (Hr s) as [a [s' E]]. specialize (Ha s).
  rewrite E in *. apply extends_quiet. exact Ha.
Qed.

Lemma single_sleep_ret {A} (a : A) : single_sleep (ret a).
Proof. intros s. reflexivity. Qed.

Lemma single_sleep_emit (e : Event) : quiet e -> single_sleep (emit e).
Proof.
  intros H s. cbn. rewrite Cycle.timers_app. unfold timers at 2.
  cbn [flat_map]. unfold quiet in H. rewrite H. rewrite app_nil_r.
  reflexivity.
Qed.

Lemma single_sleep_same {A} (m : M A) :
  (forall s, exists a s', m s = Returned a s' /\ trace s' = trace s) ->
  single_sleep m.
Proof.
  intros H s. destruct (H s) as [a [s' [E T]]]. rewrite E, T. reflexivity.
Qed.

Lemma single_sleep_bind {A B} (m : M A) (k : A -> M B) :
  single_sleep m -> (forall a, single_sleep (k a)) -> single_sleep (bind m k).
Proof.
  intros Hm Hk s. unfold bind. specialize (Hm s).
  destruct (m s) as [a s1| s1 |]; [|exact Hm|exact Hm].
  specialize (Hk a s1). destruct (k a s1) as [b s2| s2 |]; [| |exact Hk].
  - rewrite Hk. exact Hm.
  - destruct Hk as [[us Hk] Hl]. split; [|exact Hl].
    exists us. rewrite Hk, Hm. reflexivity.
Qed.

Lemma single_sleep_when (b : bool) (m : M unit) :
  single_sleep m -> single_sleep (when b m).
Proof. intros H. destruct b; [exact H | apply single_sleep_ret]. Qed.

Lemma single_sleep_deepSleepSeconds (seconds : Z) :
  single_sleep (Slot.deepSleepSeconds seconds).
Proof.
  intros s. rewrite StrategyA.deepSleepSeconds_run. cbn [trace]. split.
  - eexists. rewrite Cycle.timers_app. reflexivity.
  - change [TimerWakeup (to_uint64 (Slot.clampSeconds seconds * 1000000));
            SerialPrintNum "[SLEEP] Deep sleeping for seconds"
              (Slot.clampSeconds seconds); DeepSleepStart]
      with ([TimerWakeup (to_uint64 (Slot.clampSeconds seconds * 1000000));
             SerialPrintNum "[SLEEP] Deep sleeping for seconds"
               (Slot.clampSeconds seconds)] ++ [DeepSleepStart]).
    rewrite app_assoc. apply last_last.
Qed.

Lemma single_sleep_beginDeepSleep (env : Env) (startTime : Z) :
  0 <= getLocalTime_ms env <= 4294967285 ->
  single_sleep (Phase.beginDeepSleep env startTime).
Proof.
  intros Hms s.
  destruct (beginDeepSleep_run env startTime s Hms) as [ok [s1 [_ [_ R]]]].
  rewrite R. cbn [trace]. split.
  - eexists. rewrite !Cycle.timers_app.
    destruct ok; cbn [timers flat_map timer_of app]; rewrite ?app_nil_r;
      reflexivity.
  - match goal with
    | |- last (_ ++ _ ++ [?a; ?b; ?c; DeepSleepStart]) _ = _ =>
        change [a; b; c; DeepSleepStart] with ([a; b; c] ++ [DeepSleepStart])
    end.
    rewrite !app_assoc. apply last_last.
Qed.

Ltac quiet_step :=
  lazymatch goal with
  | |- adds _ (bind _ _) => apply adds_bind; [|intros ?]
  | |- adds _ (ret _) => apply adds_ret
  | |- adds _ (emit _) => apply adds_emit; reflexivity
  | |- adds _ (delay _) => apply adds_delay
  | |- adds _ get_millis => apply adds_get_millis
  | |- adds _ get_timeInfo => apply adds_get_timeInfo
  | |- adds _ (set_timeInfo _) => apply adds_set_timeInfo
  | |- adds _ (time_ _) => apply adds_time
  | |- adds _ (WiFi_connected _) => apply adds_WiFi_connected
  | |- adds _ (sntp_synced _) => apply adds_sntp_synced
  | |- adds _ (when _ _) => apply adds_when
  | |- adds _ (while_ _ _ _ _ _) => apply adds_while; intros ?
  | |- adds _ (if ?b then _ else _) => destruct b
  end.

(** The polling loops program no timer. *)
Lemma quiet_connectWiFi env : adds quiet (Slot.connectWiFi env).
Proof.
  unfold Slot.connectWiFi, Slot.connectWiFi_cond, Slot.connectWiFi_body,
    Slot.connectWiFi_after.
  repeat quiet_step.
Qed.

Lemma quiet_syncTime_poll env n : adds quiet (Slot.syncTime_poll env n).
Proof.
  induction n as [|n IH]; cbn [Slot.syncTime_poll]; repeat quiet_step.
  exact IH.
Qed.

Lemma quiet_syncTime env : adds quiet (Slot.syncTime env).
Proof. unfold Slot.syncTime. repeat quiet_step. apply quiet_syncTime_poll. Qed.

Lemma quiet_getLocalTime env ms : adds quiet (Phase.getLocalTime env ms).
Proof.
  unfold Phase.getLocalTime, Phase.getLocalTime_cond, Phase.getLocalTime_body.
  repeat quiet_step.
Qed.

Lemma quiet_waitForSNTPSync env : adds quiet (Phase.waitForSNTPSync env).
Proof.
  unfold Phase.waitForSNTPSync, Phase.waitForSNTPSync_cond,
    Phase.waitForSNTPSync_body, Phase.printLocalTime.
  repeat quiet_step. apply quiet_getLocalTime.
Qed.

(** [waitForSNTPSync] always returns. *)
Lemma waitForSNTPSync_returns (env : Env) (s : State) :
  0 <= getLocalTime_ms env <= 4294967285 ->
  exists ok s', Phase.waitForSNTPSync env s = Returned ok s'.
Proof.
  intros Hms. unfold Phase.waitForSNTPSync.
  rewrite (bind_returned _ _ s (to_uint32 (millis s)) s) by reflexivity.
  cbv zeta.
  rewrite (bind_returned _ _ s (sntp_synced_at env (millis s)) s)
    by reflexivity.
  rewrite (bind_returned _ _ s (to_uint32 (millis s)) s) by reflexivity.
  destruct (waitForSNTPSync_wait_returns env s) as [s1 E]. cbv zeta in E.
  rewrite (bind_returned _ _ _ _ _ E).
  destruct (getLocalTime_returns env _ s1 Hms) as [ok [s2 [G _]]].
  destruct (printLocalTime_run env s1 s2 ok G) as [msg P].
  eexists _, _. exact P.
Qed.

Ltac sleep_step :=
  lazymatch goal with
  | |- single_sleep (bind _ _) => apply single_sleep_bind; [|intros ?]
  | |- single_sleep (ret _) => apply single_sleep_ret
  | |- single_sleep (emit _) => apply single_sleep_emit; reflexivity
  | |- single_sleep (when _ _) => apply single_sleep_when
  | |- single_sleep (if ?b then _ else _) => destruct b
  | |- single_sleep (Slot.deepSleepSeconds _) =>
      apply single_sleep_deepSleepSeconds
  | |- single_sleep (delay _) =>
      apply single_sleep_same; intros ?; eexists _, _; split; reflexivity
  | |- single_sleep get_millis =>
      apply single_sleep_same; intros ?; eexists _, _; split; reflexivity
  | |- single_sleep (set_timeInfo _) =>
      apply single_sleep_same; intros ?; eexists _, _; split; reflexivity
  | |- single_sleep (time_ _) =>
      apply single_sleep_same; intros ?; eexists _, _; split; reflexivity
  | |- single_sleep (Slot.connectWiFi _) =>
      apply single_sleep_returns;
      [apply quiet_connectWiFi | apply connectWiFi_returns]
  | |- single_sleep (Slot.syncTime _) =>
      apply single_sleep_returns;
      [apply quiet_syncTime | apply syncTime_returns]
  end.

(** X11. Every wake cycle of the slot sketch, whatever the network, the
    clock, the sensor and the server answer, ends in deep sleep with exactly
    one wake-up timer programmed, [esp_deep_sleep_start()] being its last
    effect. *)
Theorem slot_cycle_sleeps_once (env : Env) (s : State) :
  exists s' us,
    Slot.setup env s = Suspended s'
    /\ timers (trace s') = timers (trace s) ++ [us]
    /\ last (trace s') DeepSleepStart = DeepSleepStart.
Proof.
  assert (H : single_sleep (Slot.setup env)).
  { unfold Slot.setup, Slot.networkUp, Slot.slotCheck, Slot.measureAndSleep,
      Slot.initBME, Slot.bme_readTemperature, Slot.bme_readHumidity,
      Slot.powerDownBME, Slot.postToSupabase.
    repeat sleep_step. }
  destruct (slot_setup_suspends env s) as [s' E].
  specialize (H s). rewrite E in H. destruct H as [[us Hu] Hl].
  exists s', us. split; [exact E|]. split; assumption.
Qed.

(** X12. The same for the phase-aligned sketch: every wake cycle ends in
    deep sleep with exactly one wake-up timer programmed. *)
Theorem phase_cycle_sleeps_once (env : Env) (s : State) :
  0 <= getLocalTime_ms env <= 4294967285 ->
  exists s' us,
    Phase.setup env s = Suspended s'
    /\ timers (trace s') = timers (trace s) ++ [us]
    /\ last (trace s') DeepSleepStart = DeepSleepStart.
Proof.
  intros Hms.
  assert (H : single_sleep (Phase.setup env)).
  { unfold Phase.setup, Phase.networkUp, Phase.measureAndSleep,
      Phase.disableBuiltinLED, Phase.configTzTime, Phase.killWiFi,
      Phase.connectWiFi, Phase.initBME, Slot.initBME,
      Phase.bme_readTemperature, Phase.bme_readHumidity,
      Slot.bme_readTemperature, Slot.bme_readHumidity,
      Phase.powerDownBME, Slot.powerDownBME,
      Phase.postToSupabase, Phase.buildUtcTimestamp.
    repeat sleep_step;
      try (apply single_sleep_beginDeepSleep; exact Hms);
      apply single_sleep_returns;
      [apply quiet_waitForSNTPSync
      | intros s0; apply waitForSNTPSync_returns; exact Hms]. }
  destruct (phase_setup_suspends env Hms s) as [s' E].
  specialize (H s). rewrite E in H. destruct H as [[us Hu] Hl].
  exists s', us. split; [exact E|]. split; assumption.
Qed.

Lemma phase_cycle_sleeps_once_witness :
  exists s',
    Phase.setup (board t_10_17_00 true 201) boot = Suspended s'
    /\ last (trace s') DeepSleepStart = DeepSleepStart.
Proof.
  assert (Hms : 0 <= getLocalTime_ms (board t_10_17_00 true 201)
                <= 4294967285) by (cbn; lia).
  destruct (phase_cycle_sleeps_once (board t_10_17_00 true 201) boot Hms)
    as [s' [us [E [_ L]]]].
  exists s'. split; [exact E | exact L].
Defined.

End SingleSleep.

(** ** What a cycle measures and posts *)

Module Effects.
Import CInt Arduino Bench Observe CIntFacts ArduinoFacts Termination Polling.
Import SingleSleep.
Local Open Scope string_scope.
Local Open Scope list_scope.
Local Open Scope Z_scope.

(** [posts] and [pin_writes] over a trace that grows. *)
Lemma posts_app (l1 l2 : list Event) : posts (l1 ++ l2) = posts l1 ++ posts l2.
Proof. unfold posts. apply flat_map_app. Qed.

Lemma pin_writes_app (l1 l2 : list Event) :
  pin_writes (l1 ++ l2) = pin_writes l1 ++ pin_writes l2.
Proof. unfold pin_writes. apply flat_map_app. Qed.

Lemma idle_list (l : list Event) :
  Forall idle l -> posts l = [] /\ pin_writes l = [].
Proof.
  induction 1 as [|e l [Hp Hw] _ [IHp IHw]]; [split; reflexivity|].
  change (e :: l) with ([e] ++ l).
  rewrite posts_app, pin_writes_app, Hp, Hw, IHp, IHw. split; reflexivity.
Qed.

Lemma extends_idle (s s' : State) :
  extends idle s s' ->
  posts (trace s') = posts (trace s)
  /\ pin_writes (trace s') = pin_writes (trace s).
Proof.
  intros [l [E F]]. destruct (idle_list l F) as [Hp Hw].
  rewrite E, posts_app, pin_writes_app, Hp, Hw, !app_nil_r.
  split; reflexivity.
Qed.

Ltac idle_step :=
  lazymatch goal with
  | |- adds _ (bind _ _) => apply adds_bind; [|intros ?]
  | |- adds _ (ret _) => apply adds_ret
  | |- adds _ (emit _) => apply adds_emit; split; reflexivity
  | |- adds _ (esp_sleep_enable_timer_wakeup _) =>
      apply adds_emit; split; reflexivity
  | |- adds _ esp_deep_sleep_start =>
      apply adds_deep_sleep_start; split; reflexivity
  | |- adds _ (delay _) => apply adds_delay
  | |- adds _ get_millis => apply adds_get_millis
  | |- adds _ get_timeInfo => apply adds_get_timeInfo
  | |- adds _ (set_timeInfo _) => apply adds_set_timeInfo
  | |- adds _ (time_ _) => apply adds_time
  | |- adds _ (WiFi_connected _) => apply adds_WiFi_connected
  | |- adds _ (sntp_synced _) => apply adds_sntp_synced
  | |- adds _ (when _ _) => apply adds_when
  | |- adds _ (while_ _ _ _ _ _) => apply adds_while; intros ?
  | |- adds _ (if ?b then _ else _) => destruct b
  end.

(** The stages of a cycle that neither post nor write a pin. *)
Lemma idle_deepSleepSeconds seconds : adds idle (Slot.deepSleepSeconds seconds).
Proof. unfold Slot.deepSleepSeconds. repeat idle_step. Qed.

Lemma idle_connectWiFi env : adds idle (Slot.connectWiFi env).
Proof.
  unfold Slot.connectWiFi, Slot.connectWiFi_cond, Slot.connectWiFi_body,
    Slot.connectWiFi_after.
  repeat idle_step.
Qed.

Lemma idle_syncTime_poll env n : adds idle (Slot.syncTime_poll env n).
Proof.
  induction n as [|n IH]; cbn [Slot.syncTime_poll]; repeat idle_step.
  exact IH.
Qed.

Lemma idle_syncTime env : adds idle (Slot.syncTime env).
Proof. unfold Slot.syncTime. repeat idle_step. apply idle_syncTime_poll. Qed.

Lemma idle_slot_networkUp env : adds idle (Slot.networkUp env).
Proof.
  unfold Slot.networkUp. repeat idle_step;
    [apply idle_connectWiFi | apply idle_deepSleepSeconds].
Qed.

Lemma idle_getLocalTime env ms : adds idle (Phase.getLocalTime env ms).
Proof.
  unfold Phase.getLocalTime, Phase.getLocalTime_cond, Phase.getLocalTime_body.
  repeat idle_step.
Qed.

Lemma idle_waitForSNTPSync env : adds idle (Phase.waitForSNTPSync env).
Proof.
  unfold Phase.waitForSNTPSync, Phase.waitForSNTPSync_cond,
    Phase.waitForSNTPSync_body, Phase.printLocalTime.
  repeat idle_step. apply idle_getLocalTime.
Qed.

Lemma idle_beginDeepSleep env startTime :
  adds idle (Phase.beginDeepSleep env startTime).
Proof.
  unfold Phase.beginDeepSleep. repeat idle_step. apply idle_getLocalTime.
Qed.

Ltac project :=
  rewrite ?posts_app, ?pin_writes_app;
  cbn [posts pin_writes flat_map app];
  rewrite ?app_nil_r, <- ?app_assoc; cbn [app]; try reflexivity.

(** The measurement stage of the slot-check sketch, seen through its
    digital writes and its POSTs. *)
Lemma slot_measureAndSleep_effects (env : Env) (s : State) :
  exists s',
    Slot.measureAndSleep env s = Suspended s'
    /\ posts (trace s')
       = posts (trace s)
         ++ (if bme_begin env && http_begin env
             then [(bme_temperature env, bme_humidity env)] else [])
    /\ pin_writes (trace s')
       = pin_writes (trace s)
         ++ (Slot.PIN_BME_PWR, true)
            :: (if bme_begin env then [(Slot.PIN_BME_PWR, false)] else []).
Proof.
  destruct s as [m i tr].
  unfold Slot.measureAndSleep, Slot.initBME, Slot.bme_readTemperature,
    Slot.bme_readHumidity, Slot.powerDownBME, Slot.postToSupabase,
    Slot.deepSleepSeconds.
  destruct (bme_begin env);
    [destruct (http_begin env); [destruct (post_failed (http_POST env))|]|];
    cbv [bind emit ret when negb andb delay time_
         esp_sleep_enable_timer_wakeup esp_deep_sleep_start
         millis timeInfo trace];
    (eexists; split; [reflexivity|]); cbn [trace]; split; project.
Qed.

(** X13. After a successful connection and time sync, a cycle of the slot
    sketch posts one measurement, the sensor's readings, exactly when the
    minute is 0 or 30, the sensor starts and [http.begin] succeeds, and
    nothing otherwise; the sensor's power pin is driven high only in a slot
    and low again only when the sensor started. *)
Theorem slot_cycle_measures_in_slot_only (env : Env) (s0 s1 s2 : State) :
  Slot.networkUp env s0 = Returned tt s1 ->
  Slot.syncTime env s1 = Returned true s2 ->
  let in_slot := Slot.isMinuteSlot env (epoch_at env (millis s2)) in
  exists s3,
    Slot.setup env s0 = Suspended s3
    /\ posts (trace s3)
       = posts (trace s0)
         ++ (if in_slot && bme_begin env && http_begin env
             then [(bme_temperature env, bme_humidity env)] else [])
    /\ pin_writes (trace s3)
       = pin_writes (trace s0)
         ++ (if in_slot
             then (Slot.PIN_BME_PWR, true)
                  :: (if bme_begin env then [(Slot.PIN_BME_PWR, false)]
                      else [])
             else []).
Proof.
  intros H1 H2. cbv zeta.
  assert (I2 : posts (trace s2) = posts (trace s0)
               /\ pin_writes (trace s2) = pin_writes (trace s0)).
  { destruct (extends_idle s0 s1) as [P1 W1];
      [eapply adds_at; [apply idle_slot_networkUp | exact H1]|].
    destruct (extends_idle s1 s2) as [P2 W2];
      [eapply adds_at; [apply idle_syncTime | exact H2]|].
    split; congruence. }
  destruct I2 as [P2 W2].
  assert (Es : Slot.setup env s0 =
               bind (Slot.slotCheck env)
                    (fun _ => Slot.measureAndSleep env) s2).
  { unfold Slot.setup. rewrite (bind_returned _ _ _ _ _ H1).
    rewrite (bind_returned _ _ _ _ _ H2). reflexivity. }
  rewrite Es. unfold Slot.slotCheck, bind at 1 2. unfold time_.
  destruct (Slot.isMinuteSlot env (epoch_at env (millis s2)));
    cbn [negb when andb].
  - unfold ret.
    destruct (slot_measureAndSleep_effects env s2) as [s3 [E [P W]]].
    exists s3. split; [exact E|]. rewrite P, W, P2, W2.
    split; reflexivity.
  - cbv zeta. unfold bind, emit. rewrite StrategyA.deepSleepSeconds_run.
    eexists. split; [reflexivity|]. cbn [trace millis timeInfo].
    rewrite <- P2, <- W2. split; project.
Qed.

Lemma slot_cycle_measures_in_slot_only_witness :
  let env := board t_10_30_00 true 201 in
  let s1 := state_of (Slot.networkUp env boot) in
  let s2 := state_of (Slot.syncTime env s1) in
  Slot.networkUp env boot = Returned tt s1
  /\ Slot.syncTime env s1 = Returned true s2
  /\ exists s3,
       Slot.setup env boot = Suspended s3
       /\ posts (trace s3) = [(bme_temperature env, bme_humidity env)].
Proof.
  cbv zeta.
  pose (env := board t_10_30_00 true 201).
  pose (s1 := state_of (Slot.networkUp env boot)).
  pose (s2 := state_of (Slot.syncTime env s1)).
  assert (A1 : Slot.networkUp env boot = Returned tt s1)
    by (vm_compute; reflexivity).
  assert (A2 : Slot.syncTime env s1 = Returned true s2)
    by (vm_compute; reflexivity).
  split; [exact A1|]. split; [exact A2|].
  destruct (slot_cycle_measures_in_slot_only env boot s1 s2 A1 A2)
    as [s3 [E [P _]]].
  exists s3. split; [exact E|]. rewrite P. vm_compute. reflexivity.
Defined.

(** The measurement stage of the phase-aligned sketch. *)
Lemma phase_measureAndSleep_effects (env : Env) (startTime : Z) (s : State) :
  0 <= getLocalTime_ms env <= 4294967285 ->
  exists s',
    Phase.measureAndSleep env startTime s = Suspended s'
    /\ posts (trace s')
       = posts (trace s)
         ++ (if bme_begin env && http_begin env
             then [(bme_temperature env, bme_humidity env)] else [])
    /\ pin_writes (trace s')
       = pin_writes (trace s)
         ++ (Phase.PIN_BME_PWR, true)
            :: (if bme_begin env then [(Phase.PIN_BME_PWR, false)] else []).
Proof.
  intros Hms. destruct s as [m i tr].
  assert (Tail : forall s1, exists s',
            Phase.beginDeepSleep env startTime s1 = Suspended s'
            /\ posts (trace s') = posts (trace s1)
            /\ pin_writes (trace s') = pin_writes (trace s1)).
  { intros s1.
    destruct (beginDeepSleep_run env startTime s1 Hms) as [ok [s2 [_ [_ R]]]].
    eexists. split; [exact R|]. apply extends_idle.
    eapply adds_at_suspended; [apply idle_beginDeepSleep | exact R]. }
  unfold Phase.measureAndSleep, Phase.initBME, Slot.initBME,
    Phase.bme_readTemperature, Phase.bme_readHumidity,
    Slot.bme_readTemperature, Slot.bme_readHumidity,
    Phase.powerDownBME, Slot.powerDownBME, Phase.killWiFi,
    Phase.postToSupabase, Phase.buildUtcTimestamp.
  destruct (bme_begin env);
    [destruct (http_begin env);
       [destruct (post_failed (http_POST env))|];
       destruct (gettimeofday_ok env)|];
    cbv [bind emit ret when negb andb delay millis timeInfo trace];
    match goal with
    | |- context [Phase.beginDeepSleep env startTime ?s1] =>
        destruct (Tail s1) as [s' [E [P W]]]
    end;
    (exists s'; split; [rewrite E; reflexivity|]);
    cbv [trace] in P, W; rewrite P, W; split; project.
Qed.

(** X14. After a successful connection and time sync, every cycle of the
    phase-aligned sketch powers the sensor, whatever the minute, and posts
    one measurement exactly when the sensor starts and [http.begin]
    succeeds. *)
Theorem phase_cycle_measures_on_every_wake
    (env : Env) (s0 s1 s2 : State) (startTime : Z) :
  0 <= getLocalTime_ms env <= 4294967285 ->
  Phase.networkUp env s0 = Returned startTime s1 ->
  Phase.waitForSNTPSync env s1 = Returned true s2 ->
  exists s3,
    Phase.setup env s0 = Suspended s3
    /\ posts (trace s3)
       = posts (trace s1)
         ++ (if bme_begin env && http_begin env
             then [(bme_temperature env, bme_humidity env)] else [])
    /\ pin_writes (trace s3)
       = pin_writes (trace s1)
         ++ (Phase.PIN_BME_PWR, true)
            :: (if bme_begin env then [(Phase.PIN_BME_PWR, false)] else []).
Proof.
  intros Hms H1 H2.
  destruct (extends_idle s1 s2) as [P2 W2];
    [eapply adds_at; [apply idle_waitForSNTPSync | exact H2]|].
  destruct (phase_measureAndSleep_effects env startTime s2 Hms)
    as [s3 [E [P W]]].
  exists s3. split; [|rewrite P, W, P2, W2; split; reflexivity].
  unfold Phase.setup. rewrite (bind_returned _ _ _ _ _ H1).
  rewrite (bind_returned _ _ _ _ _ H2). cbn [negb when].
  unfold bind at 1, ret. exact E.
Qed.

Lemma phase_cycle_measures_on_every_wake_witness :
  let env := board t_10_17_00 true 201 in
  let s1 := state_of (Phase.networkUp env boot) in
  let s2 := state_of (Phase.waitForSNTPSync env s1) in
  0 <= getLocalTime_ms env <= 4294967285
  /\ Phase.networkUp env boot = Returned 0 s1
  /\ Phase.waitForSNTPSync env s1 = Returned true s2
  /\ exists s3,
       Phase.setup env boot = Suspended s3
       /\ posts (trace s3) = [(bme_temperature env, bme_humidity env)].
Proof.
  cbv zeta.
  pose (env := board t_10_17_00 true 201).
  pose (s1 := state_of (Phase.networkUp env boot)).
  pose (s2 := state_of (Phase.waitForSNTPSync env s1)).
  assert (Hms : 0 <= getLocalTime_ms env <= 4294967285) by (cbn; lia).
  assert (A1 : Phase.networkUp env boot = Returned 0 s1)
    by (vm_compute; reflexivity).
  assert (A2 : Phase.waitForSNTPSync env s1 = Returned true s2)
    by (vm_compute; reflexivity).
  split; [exact Hms|]. split; [exact A1|]. split; [exact A2|].
  destruct (phase_cycle_measures_on_every_wake env boot s1 s2 0 Hms A1 A2)
    as [s3 [E [P _]]].
  exists s3. split; [exact E|]. rewrite P. vm_compute. reflexivity.
Defined.

End Effects.

(** ** Invalid clock readings and a synchronisation that never comes *)

Module SyncFailure.
Import CInt Arduino Bench Observe CIntFacts ArduinoFacts Termination Polling.
Import SingleSleep Effects Cycle.
Local Open Scope string_scope.
Local Open Scope list_scope.
Local Open Scope Z_scope.

(** [printLocalTime], read by read. *)
Lemma printLocalTime_reads (env : Env) (s : State) :
  0 <= getLocalTime_ms env <= 4294967285 ->
  exists ok s' k,
    Phase.printLocalTime env s = Returned ok s'
    /\ 0 <= k <= getLocalTime_ms env / 10 + 1
    /\ millis s' = millis s + 10 * k
    /\ (forall j, 0 <= j < k ->
        tm_year (localtime_r env (epoch_at env (millis s + 10 * j))) <= 116)
    /\ (ok = true ->
        k <= getLocalTime_ms env / 10
        /\ 116 < tm_year (localtime_r env
                            (epoch_at env (millis s + 10 * k))))
    /\ (ok = false -> k = getLocalTime_ms env / 10 + 1).
Proof.
  intros Hms.
  assert (H0 : 0 <= getLocalTime_ms env / 10) by (apply Z.div_pos; lia).
  destruct (getLocalTime_loop_spec env _ Hms (millis s)
              (Z.to_nat (getLocalTime_ms env / 10) + 2) 0 s)
    as [ok [s1 [k [L [_ [Hk [Hm [Hall Hok]]]]]]]]; [lia | lia | lia |].
  assert (G : Phase.getLocalTime env (getLocalTime_ms env) s
              = Returned ok s1).
  { unfold Phase.getLocalTime.
    rewrite (bind_returned _ _ s (to_uint32 (millis s)) s) by reflexivity.
    exact L. }
  destruct (printLocalTime_run env s s1 ok G) as [msg P].
  exists ok. eexists. exists k. split; [exact P|]. cbn [millis].
  split; [lia|]. split; [exact Hm|]. split; [exact Hall|].
  destruct ok.
  - destruct Hok as [Hk' [Ei Hy]]. split; [|discriminate].
    intros _. split; [exact Hk'|]. rewrite <- Hm, <- Ei. exact Hy.
  - destruct Hok as [Ek _]. split; [discriminate|]. intros _. exact Ek.
Qed.

(** C7. Reading the time rejects a clearly invalid result and reads
    again, a bounded number of times, before it reports failure.
    [printLocalTime], through [getLocalTime], rejects a year up to 2016:
    it returns after [k] rejected readings 10 ms apart, true at the first
    valid one, and false only after [getLocalTime_ms / 10 + 1] of them.
    [syncTime] rejects a time up to 1700000000: true at the first valid
    reading, false only after 40 rejected ones, 250 ms apart.  In both, a
    single invalid reading followed by a valid one gives true. *)
Theorem invalid_time_reads_are_retried (env : Env) (s : State) :
  0 <= getLocalTime_ms env <= 4294967285 ->
  (exists ok s' k,
     Phase.printLocalTime env s = Returned ok s'
     /\ 0 <= k <= getLocalTime_ms env / 10 + 1
     /\ millis s' = millis s + 10 * k
     /\ (forall j, 0 <= j < k ->
         tm_year (localtime_r env (epoch_at env (millis s + 10 * j)))
         <= 116)
     /\ (ok = true ->
         116 < tm_year (localtime_r env
                          (epoch_at env (millis s + 10 * k))))
     /\ (ok = false -> k = getLocalTime_ms env / 10 + 1)
     /\ (10 <= getLocalTime_ms env ->
         tm_year (localtime_r env (epoch_at env (millis s))) <= 116 ->
         116 < tm_year (localtime_r env (epoch_at env (millis s + 10))) ->
         ok = true /\ k = 1))
  /\ (exists ok s' j,
        Slot.syncTime env s = Returned ok s'
        /\ 0 <= j <= 40
        /\ millis s' = millis s + 250 * j
        /\ (forall i, 0 <= i < j ->
            epoch_at env (millis s + 250 * i) <= 1700000000)
        /\ (ok = true -> 1700000000 < epoch_at env (millis s + 250 * j))
        /\ (ok = false -> j = 40)
        /\ (epoch_at env (millis s) <= 1700000000 ->
            1700000000 < epoch_at env (millis s + 250) ->
            ok = true /\ j = 1)).
Proof.
  intros Hms. split.
  - destruct (printLocalTime_reads env s Hms)
      as [ok [s' [k [P [Hk [Hm [Hall [Ht Hf]]]]]]]].
    exists ok, s', k. split; [exact P|]. split; [exact Hk|].
    split; [exact Hm|]. split; [exact Hall|].
    split; [intros H; exact (proj2 (Ht H))|]. split; [exact Hf|].
    intros H10 Hi Hv.
    assert (Hq : 1 <= getLocalTime_ms env / 10)
      by (apply Z.div_le_lower_bound; lia).
    assert (Ek : k = 1).
    { destruct (Z.lt_trichotomy k 1) as [Hlt|[Heq|Hgt]]; [exfalso|exact Heq|].
      - assert (k = 0) by lia. subst k. destruct ok.
        + destruct (Ht eq_refl) as [_ Hy].
          replace (millis s + 10 * 0) with (millis s) in Hy by lia. lia.
        + specialize (Hf eq_refl). lia.
      - exfalso. specialize (Hall 1 ltac:(lia)).
        replace (millis s + 10 * 1) with (millis s + 10) in Hall by lia.
        lia. }
    split; [|exact Ek]. subst k. destruct ok; [reflexivity|].
    specialize (Hf eq_refl). lia.
  - destruct (syncTime_poll_spec env 40
                (mk_State (millis s) (timeInfo s)
                   ((trace s ++ [SntpConfig])
                    ++ [SerialPrint "[TIME] Syncing via NTP..."])))
      as [ok [s' [j [E [Hj [Hm [Hall Hok]]]]]]].
    change (Z.of_nat 40) with 40 in Hj, Hok. cbn [millis] in Hm, Hall.
    exists ok, s', j. split.
    { unfold Slot.syncTime. unfold bind at 1 2, emit. exact E. }
    split; [exact Hj|]. split; [exact Hm|]. split; [exact Hall|].
    split; [|split].
    + intros ->. rewrite <- Hm. exact (proj2 Hok).
    + intros ->. exact Hok.
    + intros Hi Hv.
      assert (Ej : j = 1).
      { destruct (Z.lt_trichotomy j 1) as [Hlt|[Heq|Hgt]];
          [exfalso|exact Heq|exfalso].
        - assert (j = 0) by lia. subst j. destruct ok; [|lia].
          destruct Hok as [_ Hy].
          replace (millis s + 250 * 0) with (millis s) in Hm by lia.
          rewrite Hm in Hy. lia.
        - specialize (Hall 1 ltac:(lia)).
          replace (millis s + 250 * 1) with (millis s + 250) in Hall by lia.
          lia. }
      split; [|exact Ej]. subst j. destruct ok; [reflexivity|lia].
Qed.

Lemma invalid_time_reads_are_retried_witness :
  exists s',
    Phase.printLocalTime (board_synced_after 5) boot = Returned true s'
    /\ millis s' = 10.
Proof.
  assert (Hms : 0 <= getLocalTime_ms (board_synced_after 5) <= 4294967285)
    by (cbn; lia).
  destruct (invalid_time_reads_are_retried (board_synced_after 5) boot Hms)
    as [[ok [s' [k [P [_ [Hm [_ [_ [_ H1]]]]]]]]] _].
  destruct H1 as [Eo Ek].
  - cbn; lia.
  - vm_compute; discriminate.
  - vm_compute; reflexivity.
  - subst ok k. exists s'. split; [exact P | exact Hm].
Defined.

(** Without a synchronisation the wait of [waitForSNTPSync] runs its full
    20 seconds, unless [millis()] wraps within them. *)
Lemma waitForSNTPSync_wait_unsynced (env : Env) (s s' : State) (w : Z) :
  (forall j, 0 <= j <= 200 ->
   sntp_synced_at env (millis s + 100 * j) = false) ->
  to_uint32 (millis s) + 20000 < 4294967296 ->
  when (negb (sntp_synced_at env (millis s))
        && (to_uint32 (millis s)
            <? to_uint32 (to_uint32 (millis s) + Phase.NTP_TIMEOUT_MS)))
    (bind (emit (SerialPrint "Waiting for SNTP synchronization."))
       (fun _ => bind (delay 100) (fun _ =>
          while_ 202
            (Phase.waitForSNTPSync_cond env
               (to_uint32 (to_uint32 (millis s) + Phase.NTP_TIMEOUT_MS)))
            Phase.waitForSNTPSync_body
            (fun _ => bind (emit (SerialPrint "")) (fun _ => ret tt)) tt)))
    s
  = Returned tt s' ->
  millis s' = millis s + 100 * w ->
  w = 200.
Proof.
  unfold Phase.NTP_TIMEOUT_MS. intros Hu Hw E Hm.
  pose proof (to_uint32_range (millis s)) as Hr.
  rewrite (to_uint32_small (to_uint32 (millis s) + 20000)) in E
    by (change (2 ^ 32) with 4294967296; lia).
  assert (E0 : sntp_synced_at env (millis s) = false).
  { specialize (Hu 0 ltac:(lia)).
    replace (millis s + 100 * 0) with (millis s) in Hu by lia. exact Hu. }
  rewrite E0 in E.
  assert (El : (to_uint32 (millis s) <? to_uint32 (millis s) + 20000) = true)
    by (apply Z.ltb_lt; lia).
  rewrite El in E.
  destruct (waitForSNTPSync_loop_spec env (millis s) Hw 202 1
              (mk_State (millis s + 100) (timeInfo s)
                 (trace s
                  ++ [SerialPrint "Waiting for SNTP synchronization."])))
    as [s'' [k [L [Hk [Hmk [_ [Hlt _]]]]]]];
    [lia | cbn [millis]; lia | lia |].
  assert (E' : while_ 202
                 (Phase.waitForSNTPSync_cond env
                    (to_uint32 (millis s) + 20000))
                 Phase.waitForSNTPSync_body
                 (fun _ => bind (emit (SerialPrint "")) (fun _ => ret tt)) tt
                 (mk_State (millis s + 100) (timeInfo s)
                    (trace s
                     ++ [SerialPrint "Waiting for SNTP synchronization."]))
               = Returned tt s') by exact E.
  rewrite L in E'. injection E' as <-.
  destruct (Z.lt_ge_cases k 200) as [Hk'|Hk']; [exfalso|lia].
  specialize (Hlt Hk'). rewrite Hmk, (Hu k ltac:(lia)) in Hlt.
  discriminate.
Qed.

(** [waitForSNTPSync], stage by stage. *)
Lemma waitForSNTPSync_stages (env : Env) (s : State) :
  0 <= getLocalTime_ms env <= 4294967285 ->
  exists ok s' w k,
    Phase.waitForSNTPSync env s = Returned ok s'
    /\ 0 <= w <= 200
    /\ 0 <= k <= getLocalTime_ms env / 10 + 1
    /\ millis s' = millis s + 100 * w + 10 * k
    /\ ((forall j, 0 <= j <= 200 ->
         sntp_synced_at env (millis s + 100 * j) = false) ->
        to_uint32 (millis s) + 20000 < 4294967296 -> w = 200)
    /\ (forall j, 0 <= j < k ->
        tm_year (localtime_r env
                   (epoch_at env (millis s + 100 * w + 10 * j))) <= 116)
    /\ (ok = true ->
        116 < tm_year (localtime_r env (epoch_at env (millis s'))))
    /\ (ok = false -> k = getLocalTime_ms env / 10 + 1).
Proof.
  intros Hms. unfold Phase.waitForSNTPSync.
  rewrite (bind_returned _ _ s (to_uint32 (millis s)) s) by reflexivity.
  cbv zeta.
  rewrite (bind_returned _ _ s (sntp_synced_at env (millis s)) s)
    by reflexivity.
  rewrite (bind_returned _ _ s (to_uint32 (millis s)) s) by reflexivity.
  destruct (waitForSNTPSync_wait_spec env s) as [s1 [w [E [Hw [Hm _]]]]].
  cbv zeta in E. rewrite (bind_returned _ _ _ _ _ E).
  destruct (printLocalTime_reads env s1 Hms)
    as [ok [s2 [k [P [Hk [Hm2 [Hall [Ht Hf]]]]]]]].
  exists ok, s2, w, k. split; [exact P|]. split; [exact Hw|].
  split; [exact Hk|]. split; [lia|]. split; [|split; [|split]].
  - intros Hu Hn. exact (waitForSNTPSync_wait_unsynced env s s1 w Hu Hn E Hm).
  - intros j Hj. rewrite <- Hm. apply Hall. exact Hj.
  - intros H. rewrite Hm2. exact (proj2 (Ht H)).
  - exact Hf.
Qed.

(** C5, as the code has it.  Slot-check sketch: when no reading of the
    clock in the 40 polls of [syncTime] is valid, the cycle ends, ten
    seconds later, in the fallback sleep of 60 seconds, and nothing drives
    the sensor's power pin high.  Phase-aligned sketch: when SNTP never
    reports a synchronisation during the wait of [waitForSNTPSync], which
    then lasts its full 20 seconds unless [millis()] wraps, the result is
    that of the clock alone.  If every reading of [printLocalTime] is
    invalid, the sketch prints the failure, disconnects WiFi and calls
    [beginDeepSleep], which programs the Strategy B duration and no
    60-second fallback, and nothing drives the sensor's power pin high.
    If a reading is valid, as with a clock kept from an earlier cycle, no
    failure is seen: the cycle powers the sensor and posts as after a
    synchronisation. *)
Theorem time_sync_failure_path
    (env : Env) (a0 a1 b0 b1 : State) (startTime : Z) :
  (Slot.networkUp env a0 = Returned tt a1 ->
   (forall i, 0 <= i < 40 ->
    epoch_at env (millis a1 + 250 * i) <= 1700000000) ->
   exists a3,
     Slot.setup env a0 = Suspended a3
     /\ millis a3 = millis a1 + 10000
     /\ trace a3 =
        trace a1 ++ [SntpConfig; SerialPrint "[TIME] Syncing via NTP...";
                     SerialPrint "[TIME] NTP sync failed.";
                     TimerWakeup 60000000;
                     SerialPrintNum "[SLEEP] Deep sleeping for seconds" 60;
                     DeepSleepStart]
     /\ (Forall Slot.sensor_off (trace a0) ->
         Forall Slot.sensor_off (trace a3)))
  /\ (0 <= getLocalTime_ms env <= 4294967285 ->
      Phase.networkUp env b0 = Returned startTime b1 ->
      (forall j, 0 <= j <= 200 ->
       sntp_synced_at env (millis b1 + 100 * j) = false) ->
      exists ok b2 b3 w k,
        Phase.waitForSNTPSync env b1 = Returned ok b2
        /\ Phase.setup env b0 = Suspended b3
        /\ 0 <= w <= 200
        /\ 0 <= k <= getLocalTime_ms env / 10 + 1
        /\ millis b2 = millis b1 + 100 * w + 10 * k
        /\ (to_uint32 (millis b1) + 20000 < 4294967296 -> w = 200)
        /\ (forall j, 0 <= j < k ->
            tm_year (localtime_r env
                       (epoch_at env (millis b1 + 100 * w + 10 * j)))
            <= 116)
        /\ (ok = false ->
            k = getLocalTime_ms env / 10 + 1
            /\ exists l,
                 trace b3
                 = trace b2
                   ++ [SerialPrint "Time Synchronization Failed";
                       WiFiDisconnect] ++ l
                 /\ Forall Slot.sensor_off l
                 /\ timers l
                    = [to_uint64
                         (Phase.sleepDuration Phase.WAKE_TIME
                            Phase.SLEEP_DURATION (timeInfo b3) * 1000000)]
                 /\ (Forall Slot.sensor_off (trace b0) ->
                     Forall Slot.sensor_off (trace b3)))
        /\ (ok = true ->
            116 < tm_year (localtime_r env (epoch_at env (millis b2)))
            /\ pin_writes (trace b3)
               = pin_writes (trace b1)
                 ++ (Phase.PIN_BME_PWR, true)
                    :: (if bme_begin env then [(Phase.PIN_BME_PWR, false)]
                        else [])
            /\ posts (trace b3)
               = posts (trace b1)
                 ++ (if bme_begin env && http_begin env
                     then [(bme_temperature env, bme_humidity env)]
                     else []))).
Proof.
  split.
  - intros A1 Hinv.
    destruct (syncTime_poll_spec env 40
                (mk_State (millis a1) (timeInfo a1)
                   ((trace a1 ++ [SntpConfig])
                    ++ [SerialPrint "[TIME] Syncing via NTP..."])))
      as [ok [a2 [j [E [Hj [Hm [_ Hok]]]]]]].
    change (Z.of_nat 40) with 40 in Hj, Hok. cbn [millis] in Hm.
    assert (A2 : Slot.syncTime env a1 = Returned ok a2).
    { unfold Slot.syncTime. unfold bind at 1 2, emit. exact E. }
    destruct ok.
    { exfalso. destruct Hok as [Hlt Hv]. rewrite Hm in Hv.
      specialize (Hinv j ltac:(lia)). lia. }
    subst j. eexists. split; [|split; [|split]].
    + unfold Slot.setup. rewrite (bind_returned _ _ _ _ _ A1).
      rewrite (bind_returned _ _ _ _ _ A2). cbn [negb when].
      unfold bind at 1. rewrite StrategyA.deepSleepSeconds_run. reflexivity.
    + cbn [millis]. lia.
    + cbn [trace]. rewrite (syncTime_false env _ _ A2).
      rewrite <- app_assoc. reflexivity.
    + intros H0. cbn [trace]. apply Forall_app. split.
      * eapply extends_Forall; [|eapply extends_Forall; [|exact H0]].
        -- eapply adds_at; [apply adds_syncTime | exact A2].
        -- eapply adds_at; [apply adds_slot_networkUp | exact A1].
      * repeat constructor; unfold Slot.sensor_off; discriminate.
  - intros Hms B1 Hu.
    destruct (waitForSNTPSync_stages env b1 Hms)
      as [ok [b2 [w [k [B2 [Hw [Hk [Hm [Hfull [Hall [Ht Hf]]]]]]]]]]].
    destruct ok.
    + (* the clock is valid: no failure is seen *)
      destruct (extends_idle b1 b2) as [P2 W2];
        [eapply adds_at; [apply idle_waitForSNTPSync | exact B2]|].
      destruct (phase_measureAndSleep_effects env startTime b2 Hms)
        as [b3 [E [P W]]].
      exists true, b2, b3, w, k. split; [exact B2|]. split.
      { unfold Phase.setup. rewrite (bind_returned _ _ _ _ _ B1).
        rewrite (bind_returned _ _ _ _ _ B2). cbn [negb when].
        unfold bind at 1, ret. exact E. }
      split; [exact Hw|]. split; [exact Hk|]. split; [exact Hm|].
      split; [exact (Hfull Hu)|]. split; [exact Hall|].
      split; [discriminate|]. intros _.
      split; [exact (Ht eq_refl)|]. rewrite P, W, P2, W2.
      split; reflexivity.
    + (* the clock is not set: the failure branch *)
      pose (s2 := mk_State (millis b2) (timeInfo b2)
          (trace b2
           ++ [SerialPrint "Time Synchronization Failed"; WiFiDisconnect])).
      destruct (beginDeepSleep_run env startTime s2 Hms)
        as [ok [s3 [E [T R]]]].
      exists false, b2. eexists. exists w, k. split; [exact B2|]. split.
      { unfold Phase.setup. rewrite (bind_returned _ _ _ _ _ B1).
        rewrite (bind_returned _ _ _ _ _ B2). cbn [negb when].
        cbv [bind emit Phase.killWiFi]. cbn [millis timeInfo trace].
        rewrite <- app_assoc. cbn [app]. fold s2. rewrite R. reflexivity. }
      split; [exact Hw|]. split; [exact Hk|]. split; [exact Hm|].
      split; [exact (Hfull Hu)|]. split; [exact Hall|].
      split; [|discriminate]. intros _. split; [exact (Hf eq_refl)|].
      cbn [trace timeInfo].
      exists ((if ok then [] else [SerialPrint Phase.failed_sync_msg])
              ++ [TimerWakeup
                    (to_uint64 (Phase.sleepDuration Phase.WAKE_TIME
                                  Phase.SLEEP_DURATION (timeInfo s3)
                                * 1000000));
                  SerialPrintNum "Awake for (ms)"
                    (to_uint32 (to_uint32 (millis s3) - startTime));
                  SerialPrintNum "Entering deep sleep for (s)"
                    (Phase.sleepDuration Phase.WAKE_TIME
                       Phase.SLEEP_DURATION (timeInfo s3));
                  DeepSleepStart]).
      assert (Fl : Forall Slot.sensor_off
                     ((if ok then [] else [SerialPrint Phase.failed_sync_msg])
                      ++ [TimerWakeup
                            (to_uint64
                               (Phase.sleepDuration Phase.WAKE_TIME
                                  Phase.SLEEP_DURATION (timeInfo s3)
                                * 1000000));
                          SerialPrintNum "Awake for (ms)"
                            (to_uint32 (to_uint32 (millis s3) - startTime));
                          SerialPrintNum "Entering deep sleep for (s)"
                            (Phase.sleepDuration Phase.WAKE_TIME
                               Phase.SLEEP_DURATION (timeInfo s3));
                          DeepSleepStart])).
      { destruct ok; repeat constructor; unfold Slot.sensor_off;
          discriminate. }
      split; [|split; [exact Fl|split]].
      * unfold s2. cbn [trace]. rewrite <- !app_assoc. reflexivity.
      * rewrite timers_app. destruct ok; reflexivity.
      * intros H0. unfold s2. cbn [trace].
        apply Forall_app. split; [apply Forall_app; split|exact Fl].
        -- eapply extends_Forall; [|eapply extends_Forall; [|exact H0]].
           ++ eapply adds_at; [apply adds_waitForSNTPSync | exact B2].
           ++ eapply adds_at; [apply adds_phase_networkUp | exact B1].
        -- repeat constructor; unfold Slot.sensor_off; discriminate.
Qed.

Lemma time_sync_failure_path_witness :
  0 <= getLocalTime_ms board_unsynced <= 4294967285
  /\ exists a3 b3,
       Slot.setup board_unsynced boot = Suspended a3
       /\ Phase.setup board_unsynced boot = Suspended b3
       /\ Forall Slot.sensor_off (trace a3).
Proof.
  assert (Hms : 0 <= getLocalTime_ms board_unsynced <= 4294967285)
    by (cbn; lia).
  split; [exact Hms|].
  pose (a1 := state_of (Slot.networkUp board_unsynced boot)).
  pose (b1 := state_of (Phase.networkUp board_unsynced boot)).
  assert (A1 : Slot.networkUp board_unsynced boot = Returned tt a1)
    by (vm_compute; reflexivity).
  assert (B1 : Phase.networkUp board_unsynced boot = Returned 0 b1)
    by (vm_compute; reflexivity).
  destruct (time_sync_failure_path board_unsynced boot a1 boot b1 0)
    as [HA HB].
  destruct HA as [a3 [Ha [_ [_ Fa]]]]; [exact A1| |].
  { intros i Hi. change (millis a1) with 200.
    cbn [epoch_at board_unsynced].
    assert ((200 + 250 * i) / 1000 <= 10)
      by (apply Z.lt_succ_r; apply Z.div_lt_upper_bound; lia).
    lia. }
  destruct (HB Hms B1 (fun _ _ => eq_refl))
    as [ok [b2 [b3 [w [k [_ [Hb _]]]]]]].
  exists a3, b3. split; [exact Ha|]. split; [exact Hb|].
  apply Fa. constructor.
Defined.

(** Two boards whose SNTP client never synchronises.  On the one whose
    clock was never set the phase-aligned sketch reports the failure and
    sleeps 1775 seconds, not 60; on the one whose clock is right it
    reports no failure, powers the sensor and posts. *)
Lemma phase_without_sntp_has_no_short_sleep :
  (forall m, sntp_synced_at board_unsynced m = false)
  /\ timers (final_trace (Phase.setup board_unsynced boot))
     = [1775 * 1000000]
  /\ ~ In (TimerWakeup (60 * 1000000))
          (final_trace (Phase.setup board_unsynced boot))
  /\ (forall m, sntp_synced_at (board_without_sntp t_10_17_00) m = false)
  /\ pin_writes
       (final_trace (Phase.setup (board_without_sntp t_10_17_00) boot))
     = [(2, false); (Phase.PIN_BME_PWR, true); (Phase.PIN_BME_PWR, false)]
  /\ posts (final_trace (Phase.setup (board_without_sntp t_10_17_00) boot))
     = [(Float32.of_Z 21, Float32.of_Z 55)]
  /\ ~ In (TimerWakeup (60 * 1000000))
          (final_trace (Phase.setup (board_without_sntp t_10_17_00) boot)).
Proof.
  split; [intros m; reflexivity|]. split; [vm_compute; reflexivity|].
  split.
  { vm_compute. intros H.
    repeat (destruct H as [H|H]; [discriminate H|]). exact H. }
  split; [intros m; reflexivity|]. split; [vm_compute; reflexivity|].
  split; [vm_compute; reflexivity|].
  vm_compute. intros H.
  repeat (destruct H as [H|H]; [discriminate H|]). exact H.
Qed.

End SyncFailure.

(** ** A cycle without the access point *)

Module Offline.
Import CInt Arduino Bench Observe CIntFacts ArduinoFacts Termination Polling.
Import SingleSleep Effects.
Local Open Scope string_scope.
Local Open Scope list_scope.
Local Open Scope Z_scope.

Ltac offline_step :=
  lazymatch goal with
  | |- adds _ (bind _ _) => apply adds_bind; [|intros ?]
  | |- adds _ (ret _) => apply adds_ret
  | |- adds _ (emit _) => apply adds_emit; cbn; auto
  | |- adds _ (esp_sleep_enable_timer_wakeup _) => apply adds_emit; exact I
  | |- adds _ esp_deep_sleep_start => apply adds_deep_sleep_start; exact I
  | |- adds _ (delay _) => apply adds_delay
  | |- adds _ get_millis => apply adds_get_millis
  | |- adds _ get_timeInfo => apply adds_get_timeInfo
  | |- adds _ (set_timeInfo _) => apply adds_set_timeInfo
  | |- adds _ (time_ _) => apply adds_time
  | |- adds _ (WiFi_connected _) => apply adds_WiFi_connected
  | |- adds _ (sntp_synced _) => apply adds_sntp_synced
  | |- adds _ (when _ _) => apply adds_when
  | |- adds _ (while_ _ _ _ _ _) => apply adds_while; intros ?
  | |- adds _ (if ?b then _ else _) => destruct b
  end.

(** The stages of a cycle that stay off the network services and the
    sensor. *)
Lemma offline_connectWiFi env : adds offline (Slot.connectWiFi env).
Proof.
  unfold Slot.connectWiFi, Slot.connectWiFi_cond, Slot.connectWiFi_body,
    Slot.connectWiFi_after.
  repeat offline_step.
Qed.

Lemma offline_deepSleepSeconds seconds :
  adds offline (Slot.deepSleepSeconds seconds).
Proof. unfold Slot.deepSleepSeconds. repeat offline_step. Qed.

Lemma offline_beginDeepSleep env startTime :
  adds offline (Phase.beginDeepSleep env startTime).
Proof.
  unfold Phase.beginDeepSleep, Phase.getLocalTime, Phase.getLocalTime_cond,
    Phase.getLocalTime_body.
  repeat offline_step.
Qed.

(** [connectWiFi] on a board whose WiFi never comes up. *)
Lemma connectWiFi_never_connected (env : Env) (s : State) :
  (forall j, 0 <= j <= 60 ->
   wifi_connected_at env (millis s + 250 * j) = false) ->
  exists s',
    Slot.connectWiFi env s = Returned false s'
    /\ millis s' = millis s + 15000
    /\ timeInfo s' = timeInfo s
    /\ extends offline s s'
    /\ timers (trace s') = timers (trace s).
Proof.
  intros Hoff. assert (R := offline_connectWiFi env s).
  assert (Q := quiet_connectWiFi env s).
  unfold Slot.connectWiFi in *.
  rewrite (bind_returned _ _ s tt
             (mk_State (millis s) (timeInfo s) (trace s ++ [WiFiBegin])))
    in * by reflexivity.
  rewrite (bind_returned _ _ _ (to_uint32 (millis s)) _) in * by reflexivity.
  destruct (connectWiFi_loop_spec env (millis s) 62 0
              (mk_State (millis s) (timeInfo s) (trace s ++ [WiFiBegin])))
    as [ok [s' [k [E [Hk [Hm [Ht [Ho [Hlt _]]]]]]]]];
    [lia | cbn [millis]; lia | lia |].
  cbn [millis] in E. rewrite E in *.
  assert (Eok : ok = false).
  { rewrite Ho, Hm. apply Hoff. lia. }
  clear Ho. subst ok. exists s'. split; [reflexivity|].
  assert (k = 60).
  { destruct (Z.lt_ge_cases k 60) as [H|H]; [|lia].
    specialize (Hlt H). discriminate. }
  subst k. split; [lia|]. split; [exact Ht|]. split; [exact R|].
  apply extends_quiet. exact Q.
Qed.

(** X15. When the access point is out of reach for the 15 seconds of
    [connectWiFi], the slot sketch goes to sleep for 60 seconds right at the
    timeout: no SNTP, sensor or HTTP call, no pin driven high. *)
Theorem slot_wifi_failure (env : Env) (s0 : State) :
  (forall j, 0 <= j <= 60 ->
   wifi_connected_at env (millis s0 + 200 + 250 * j) = false) ->
  exists s' l,
    Slot.setup env s0 = Suspended s'
    /\ millis s' = millis s0 + 200 + Slot.WIFI_CONNECT_TIMEOUT_MS
    /\ trace s' = trace s0 ++ l
    /\ Forall offline l
    /\ timers l = [60 * 1000000].
Proof.
  intros Hoff.
  pose (sb := mk_State (millis s0 + 200) (timeInfo s0)
                (trace s0 ++ [SerialPrint banner])).
  destruct (connectWiFi_never_connected env sb Hoff)
    as [s1 [E [Hm [_ [[l1 [T1 F1]] Q1]]]]].
  assert (Es : Slot.setup env s0 = Slot.deepSleepSeconds 60 s1).
  { unfold Slot.setup, Slot.networkUp.
    unfold bind at 1 2 3. unfold delay, emit. cbn [millis timeInfo trace].
    fold sb. unfold bind at 1. rewrite E. reflexivity. }
  rewrite Es, StrategyA.deepSleepSeconds_run.
  eexists. exists ([SerialPrint banner] ++ l1
                   ++ [TimerWakeup 60000000;
                       SerialPrintNum "[SLEEP] Deep sleeping for seconds" 60;
                       DeepSleepStart]).
  split; [reflexivity|]. cbn [millis trace].
  split; [unfold Slot.WIFI_CONNECT_TIMEOUT_MS; unfold sb in Hm;
          cbn [millis] in Hm; lia|].
  split; [rewrite T1; unfold sb; cbn [trace]; rewrite <- !app_assoc;
          reflexivity|].
  split.
  - apply Forall_app. split; [repeat constructor|].
    apply Forall_app. split; [exact F1 | repeat constructor].
  - rewrite !Cycle.timers_app.
    assert (timers l1 = []).
    { rewrite T1, Cycle.timers_app in Q1.
      apply (app_inv_head (timers (trace sb))). rewrite Q1, app_nil_r.
      reflexivity. }
    rewrite H. reflexivity.
Qed.

Lemma slot_wifi_failure_witness :
  exists s',
    Slot.setup (board_offline 0) boot = Suspended s' /\ millis s' = 15200.
Proof.
  destruct (slot_wifi_failure (board_offline 0) boot (fun _ _ => eq_refl))
    as [s' [l [E [Hm _]]]].
  exists s'. split; [exact E | exact Hm].
Defined.

(** X16. When the access point is out of reach, the phase-aligned sketch
    goes to sleep without an SNTP, sensor or HTTP call and without
    [WiFi.disconnect]; the sleep is the aligned duration computed from the
    clock as it is, at least 123 seconds when that clock is valid. *)
Theorem phase_wifi_failure (env : Env) (s0 : State) :
  0 <= getLocalTime_ms env <= 4294967285 ->
  (forall j, 0 <= j <= 60 ->
   wifi_connected_at env (millis s0 + 250 * j) = false) ->
  exists s' l,
    Phase.setup env s0 = Suspended s'
    /\ trace s' = trace s0 ++ l
    /\ Forall offline l
    /\ ~ In WiFiDisconnect l
    /\ timers l
       = [to_uint64 (Phase.sleepDuration Phase.WAKE_TIME Phase.SLEEP_DURATION
                       (timeInfo s') * 1000000)]
    /\ (Phase.valid_clock (timeInfo s') ->
        123 <= Phase.sleepDuration Phase.WAKE_TIME Phase.SLEEP_DURATION
                 (timeInfo s')).
Proof.
  intros Hms Hoff.
  pose (sb := mk_State (millis s0) (mk_tm 0 0 0 0 0 0)
                (trace s0 ++ [PinMode (LED_BUILTIN env);
                              DigitalWrite (LED_BUILTIN env) false;
                              GpioHold (LED_BUILTIN env);
                              SerialPrint banner])).
  destruct (connectWiFi_never_connected env sb Hoff)
    as [s1 [E [Hm [_ [X1 Q1]]]]].
  assert (N1 : extends (fun e => e <> WiFiDisconnect) sb s1).
  { assert (A : adds (fun e => e <> WiFiDisconnect) (Slot.connectWiFi env)).
    { unfold Slot.connectWiFi, Slot.connectWiFi_cond, Slot.connectWiFi_body,
        Slot.connectWiFi_after.
      repeat lazymatch goal with
      | |- adds _ (bind _ _) => apply adds_bind; [|intros ?]
      | |- adds _ (ret _) => apply adds_ret
      | |- adds _ (emit _) => apply adds_emit; discriminate
      | |- adds _ (delay _) => apply adds_delay
      | |- adds _ get_millis => apply adds_get_millis
      | |- adds _ (WiFi_connected _) => apply adds_WiFi_connected
      | |- adds _ (while_ _ _ _ _ _) => apply adds_while; intros ?
      | |- adds _ (if ?b then _ else _) => destruct b
      end. }
    eapply adds_at; [exact A | exact E]. }
  destruct X1 as [l1 [T1 F1]]. destruct N1 as [l1' [T1' G1]].
  assert (l1' = l1) by (rewrite T1 in T1'; apply app_inv_head in T1';
                        symmetry; exact T1').
  subst l1'.
  destruct (beginDeepSleep_run env (to_uint32 (millis s0)) s1 Hms)
    as [ok [s2 [_ [_ R]]]].
  assert (Es : Phase.setup env s0
               = Phase.beginDeepSleep env (to_uint32 (millis s0)) s1).
  { unfold Phase.setup, Phase.networkUp, Phase.disableBuiltinLED,
      Phase.connectWiFi.
    cbv [bind get_millis emit set_timeInfo millis timeInfo trace].
    rewrite <- !app_assoc. cbn [app].
    change (mk_State (let (m, _, _) := s0 in m) (mk_tm 0 0 0 0 0 0)
              ((let (_, _, t) := s0 in t)
               ++ [PinMode (LED_BUILTIN env);
                   DigitalWrite (LED_BUILTIN env) false;
                   GpioHold (LED_BUILTIN env); SerialPrint banner]))
      with sb.
    rewrite E. cbn [negb when].
    change (let (m, _, _) := s0 in m) with (millis s0).
    rewrite R. reflexivity. }
  rewrite Es, R. eexists. eexists.
  split; [reflexivity|]. cbn [trace timeInfo].
  split; [rewrite T1; unfold sb; cbn [trace]; rewrite <- !app_assoc;
          cbn [app]; reflexivity|].
  split; [|split; [|split]].
  - repeat (apply Forall_cons; [cbn; auto|]).
    apply Forall_app. split; [exact F1|].
    destruct ok; repeat constructor.
  - intros Hin. cbn [In] in Hin.
    repeat (destruct Hin as [Hin|Hin]; [discriminate Hin|]).
    apply in_app_or in Hin. destruct Hin as [Hin|Hin].
    + rewrite Forall_forall in G1. exact (G1 _ Hin eq_refl).
    + destruct ok; cbn [app In] in Hin;
        repeat (destruct Hin as [Hin|Hin]; [discriminate Hin|]); exact Hin.
  - assert (Hq : timers l1 = []).
    { rewrite T1, Cycle.timers_app in Q1.
      apply (app_inv_head (timers (trace sb))). rewrite Q1, app_nil_r.
      reflexivity. }
    do 4 lazymatch goal with
    | |- timers (?e :: ?x) = _ => change (timers (e :: x)) with (timers x)
    end.
    rewrite Cycle.timers_app, Hq.
    destruct ok; reflexivity.
  - intros Hv.
    destruct (PhaseSchedule.alignedSeconds_range Phase.WAKE_TIME (timeInfo s2)
                ltac:(unfold Phase.WAKE_TIME; lia) Hv) as [Hr _].
    pose proof (StrategyB.compensate_bounds
                  (Phase.alignedSeconds Phase.WAKE_TIME 30 (timeInfo s2))
                  ltac:(lia)) as Hc.
    unfold Phase.sleepDuration, Phase.SLEEP_DURATION. lia.
Qed.

Lemma phase_wifi_failure_witness :
  exists s' l,
    Phase.setup (board_offline t_10_17_00) boot = Suspended s'
    /\ trace s' = trace boot ++ l
    /\ Forall offline l.
Proof.
  assert (Hms : 0 <= getLocalTime_ms (board_offline t_10_17_00)
                <= 4294967285) by (cbn; lia).
  destruct (phase_wifi_failure (board_offline t_10_17_00) boot Hms
              (fun _ _ => eq_refl))
    as [s' [l [E [T [F _]]]]].
  exists s', l. split; [exact E|]. split; [exact T | exact F].
Defined.

End Offline.

(** ** A wake on time *)

Module OnTime.
Import CInt Arduino Bench Observe CIntFacts ArduinoFacts Termination Polling.
Import SingleSleep Effects SlotSchedule.
Local Open Scope string_scope.
Local Open Scope list_scope.
Local Open Scope Z_scope.

Ltac timers_project :=
  rewrite ?Cycle.timers_app;
  cbn [timers timer_of flat_map app];
  rewrite ?app_nil_r, <- ?app_assoc; cbn [app]; try reflexivity.

(** The measurement stage of the slot-check sketch when the sensor
    answers: 50 ms later, one timer for the wait read off the clock. *)
Lemma slot_measureAndSleep_timer (env : Env) (s : State) :
  bme_begin env = true ->
  exists s',
    Slot.measureAndSleep env s = Suspended s'
    /\ millis s' = millis s + 50
    /\ timers (trace s')
       = timers (trace s)
         ++ [to_uint64
               (Slot.clampSeconds
                  (Slot.secondsUntilNextHalfHourBoundary
                     (epoch_at env (millis s + 50))) * 1000000)].
Proof.
  intros Hb. destruct s as [m i tr].
  unfold Slot.measureAndSleep, Slot.initBME, Slot.bme_readTemperature,
    Slot.bme_readHumidity, Slot.powerDownBME, Slot.postToSupabase,
    Slot.deepSleepSeconds.
  rewrite Hb.
  destruct (http_begin env); [destruct (post_failed (http_POST env))|];
    cbv [bind emit ret when negb andb delay time_
         esp_sleep_enable_timer_wakeup esp_deep_sleep_start
         millis timeInfo trace];
    (eexists; split; [reflexivity|]); cbn [trace millis];
    (split; [reflexivity|]); timers_project.
Qed.

(** X19. A cycle of the slot sketch in which every reading of the clock
    falls in the first minute after a half-hour boundary, the access point
    answers within the timeout and the sensor and [http.begin] succeed,
    posts one measurement and goes to sleep for the wait computed from the
    last reading: more than 1740 and at most 1800 seconds. *)
Theorem slot_wake_on_time_measures (env : Env) (s0 : State) (b : Z) :
  minute_follows_epoch env ->
  b mod 1800 = 0 -> 1700000000 < b < TimeT.LAST_HALF_HOUR - 1800 ->
  (forall m, millis s0 <= m <= millis s0 + 15250 ->
             b <= epoch_at env m < b + 60) ->
  (exists j, 0 <= j <= 60
             /\ wifi_connected_at env (millis s0 + 200 + 250 * j) = true) ->
  bme_begin env = true -> http_begin env = true ->
  exists s' us,
    Slot.setup env s0 = Suspended s'
    /\ posts (trace s')
       = posts (trace s0) ++ [(bme_temperature env, bme_humidity env)]
    /\ timers (trace s') = timers (trace s0) ++ [us]
    /\ us = TimeT.secondsUntilNextHalfHourBoundary
              (epoch_at env (millis s')) * 1000000
    /\ 1740 * 1000000 < us <= 1800 * 1000000.
Proof.
  intros He Hb0 Hb Hclock [j [Hj Hup]] Hb' Hh.
  pose (sb := mk_State (millis s0 + 200) (timeInfo s0)
                (trace s0 ++ [SerialPrint banner])).
  (* the connection *)
  destruct (connectWiFi_loop_spec env (millis sb) 62 0
              (mk_State (millis sb) (timeInfo sb) (trace sb ++ [WiFiBegin])))
    as [ok [s1 [k [E1 [Hk [Hm1 [_ [Ho [Hlt Hall]]]]]]]]];
    [lia | cbn [millis]; lia | lia |].
  assert (Hok : ok = true).
  { destruct (Z.lt_ge_cases k 60) as [H|H]; [exact (Hlt H)|].
    assert (k = 60) by lia. subst k.
    destruct (Z.lt_ge_cases j 60) as [H'|H'].
    - specialize (Hall j ltac:(lia)). cbn [millis sb] in Hall. congruence.
    - assert (j = 60) by lia. subst j. rewrite Ho, Hm1. cbn [millis sb].
      exact Hup. }
  clear Ho. subst ok.
  assert (Cw : Slot.connectWiFi env sb = Returned true s1).
  { unfold Slot.connectWiFi.
    rewrite (bind_returned _ _ sb tt
               (mk_State (millis sb) (timeInfo sb) (trace sb ++ [WiFiBegin])))
      by reflexivity.
    rewrite (bind_returned _ _ _ (to_uint32 (millis sb)) _) by reflexivity.
    exact E1. }
  assert (N1 : Slot.networkUp env s0 = Returned tt s1).
  { unfold Slot.networkUp.
    rewrite (bind_returned _ _ s0 tt
               (mk_State (millis s0 + 200) (timeInfo s0) (trace s0)))
      by reflexivity.
    rewrite (bind_returned _ _ _ tt sb) by reflexivity.
    rewrite (bind_returned _ _ _ _ _ Cw). reflexivity. }
  (* the time sync: the first reading is valid *)
  assert (Hm1' : millis s0 + 200 <= millis s1 <= millis s0 + 15200)
    by (cbn [millis sb] in Hm1; lia).
  assert (V1 : 1700000000 < epoch_at env (millis s1)).
  { specialize (Hclock (millis s1) ltac:(lia)). lia. }
  destruct (syncTime_poll_spec env 40
              (mk_State (millis s1) (timeInfo s1)
                 ((trace s1 ++ [SntpConfig])
                  ++ [SerialPrint "[TIME] Syncing via NTP..."])))
    as [ok2 [s2 [i [E2 [Hi [Hm2 [Hinv Hok2]]]]]]].
  cbn [millis] in Hm2, Hinv.
  assert (Hi0 : i = 0).
  { destruct (Z.eq_dec i 0) as [Ez|Hne]; [exact Ez|exfalso].
    specialize (Hinv 0 ltac:(lia)).
    replace (millis s1 + 250 * 0) with (millis s1) in Hinv by lia. lia. }
  subst i. destruct ok2; [|change (Z.of_nat 40) with 40 in Hok2; lia].
  assert (S2 : Slot.syncTime env s1 = Returned true s2).
  { unfold Slot.syncTime. unfold bind at 1 2, emit. exact E2. }
  assert (Hm2' : millis s2 = millis s1) by lia.
  (* the slot check *)
  assert (Hwin : forall m, millis s0 <= m <= millis s0 + 15250 ->
            epoch_at env m mod 1800 = epoch_at env m - b
            /\ 0 <= epoch_at env m < TimeT.LAST_HALF_HOUR).
  { intros m Hm. specialize (Hclock m Hm).
    pose proof (Z.div_mod b 1800 ltac:(lia)) as D.
    unfold TimeT.LAST_HALF_HOUR in *. split; [|lia].
    symmetry. apply (Z.mod_unique _ _ (b / 1800)); lia. }
  assert (Slot2 : Slot.isMinuteSlot env (epoch_at env (millis s2)) = true).
  { destruct (Hwin (millis s2) ltac:(lia)) as [Hw Hp].
    rewrite (SlotSchedule.isMinuteSlot_window env _ He (proj1 Hp)).
    apply Z.ltb_lt. specialize (Hclock (millis s2) ltac:(lia)). lia. }
  (* measurement and sleep *)
  destruct (slot_measureAndSleep_timer env s2 Hb') as [s3 [E3 [Hm3 T3]]].
  destruct (slot_measureAndSleep_effects env s2) as [s3' [E3' [P3 _]]].
  rewrite E3 in E3'. injection E3' as <-.
  assert (Es : Slot.setup env s0 = Suspended s3).
  { unfold Slot.setup. rewrite (bind_returned _ _ _ _ _ N1).
    rewrite (bind_returned _ _ _ _ _ S2). cbn [negb when].
    rewrite (bind_returned _ _ s2 tt s2) by reflexivity.
    unfold Slot.slotCheck, bind at 1 2. unfold time_. rewrite Slot2.
    cbn [negb when]. unfold ret. exact E3. }
  destruct (extends_idle s0 s1) as [P1 _];
    [eapply adds_at; [apply idle_slot_networkUp | exact N1]|].
  destruct (extends_idle s1 s2) as [P2 _];
    [eapply adds_at; [apply idle_syncTime | exact S2]|].
  assert (Q1 : timers (trace s1) = timers (trace s0)).
  { rewrite (extends_quiet sb s1)
      by (eapply adds_at; [apply quiet_connectWiFi | exact Cw]).
    unfold sb. cbn [trace]. rewrite Cycle.timers_app. apply app_nil_r. }
  assert (Q2 : timers (trace s2) = timers (trace s1)).
  { apply extends_quiet. eapply adds_at; [apply quiet_syncTime | exact S2]. }
  destruct (Hwin (millis s2 + 50) ltac:(lia)) as [Hw Hp].
  specialize (Hclock (millis s2 + 50) ltac:(lia)).
  destruct (StrategyA.time_t_wait_nonneg _ Hp) as [_ [Et Ez]].
  eexists s3, _. split; [exact Es|].
  split; [rewrite P3, P2, P1, Hb', Hh; reflexivity|].
  split; [rewrite T3, Q2, Q1; reflexivity|].
  rewrite Hm3, Et, Ez, Hw.
  rewrite StrategyA.clampSeconds_max.
  rewrite Z.max_l by lia.
  rewrite to_uint64_small
    by (change (2 ^ 64) with 18446744073709551616; lia).
  split; [reflexivity | lia].
Qed.

Lemma slot_wake_on_time_measures_witness :
  exists s',
    Slot.setup (board t_10_30_00 true 201) boot = Suspended s'
    /\ posts (trace s')
       = [(bme_temperature (board t_10_30_00 true 201),
           bme_humidity (board t_10_30_00 true 201))].
Proof.
  destruct (slot_wake_on_time_measures (board t_10_30_00 true 201) boot
              t_10_30_00) as [s' [us [E [P _]]]].
  - apply SlotSchedule.gmtime_minute_follows_epoch. reflexivity.
  - reflexivity.
  - vm_compute; split; reflexivity.
  - intros m Hm. cbn [epoch_at board]. change (millis boot) with 0 in Hm.
    assert (0 <= m / 1000 <= 15).
    { split; [apply Z.div_pos; lia|].
      apply Z.lt_succ_r. apply Z.div_lt_upper_bound; lia. }
    lia.
  - exists 0. split; [lia | reflexivity].
  - reflexivity.
  - reflexivity.
  - exists s'. split; [exact E | exact P].
Defined.

End OnTime.

(** ** The text of [created_at] *)

Module TimestampFacts.
Import CInt Arduino Bench Timestamp.
Local Open Scope string_scope.
Local Open Scope list_scope.
Local Open Scope Z_scope.

(** Lengths, and numerals read left to right. *)
Lemma length_append (a b : string) :
  String.length (a ++ b) = (String.length a + String.length b)%nat.
Proof.
  induction a as [|c a IH]; cbn; [reflexivity | rewrite IH; reflexivity].
Qed.

Lemma append_assoc (a b c : string) :
  ((a ++ b) ++ c = a ++ (b ++ c))%string.
Proof.
  induction a as [|x a IH]; cbn; [reflexivity | rewrite IH; reflexivity].
Qed.

Lemma substring_all (s : string) (n : nat) :
  (String.length s <= n)%nat -> substring 0 n s = s.
Proof.
  revert n. induction s as [|c s IH]; intros n H.
  - destruct n; reflexivity.
  - destruct n as [|n]; cbn in H; [lia|].
    cbn. rewrite IH by lia. reflexivity.
Qed.

Lemma numeral_from_append (a b : string) (acc : Z) :
  numeral_from acc (a ++ b) = numeral_from (numeral_from acc a) b.
Proof.
  revert acc.
  induction a as [|c a IH]; intros acc; cbn; [reflexivity | apply IH].
Qed.

Lemma digit_value (d : Z) :
  0 <= d <= 9 -> Z.of_N (N_of_ascii (digit d)) - 48 = d.
Proof.
  intros H. unfold digit. rewrite N_ascii_embedding by lia. lia.
Qed.

Lemma length_zeros (n : nat) : String.length (zeros n) = n.
Proof. induction n as [|n IH]; cbn; [reflexivity | f_equal; exact IH]. Qed.

Lemma numeral_zeros (n : nat) : numeral_from 0 (zeros n) = 0.
Proof. induction n as [|n IH]; cbn; [reflexivity | exact IH]. Qed.

(** [decimal] writes the digits of [n], most significant first, in front
    of [acc]: at most [k] of them when [n < 10 ^ k]. *)
Lemma decimal_spec (k : nat) :
  forall (fuel : nat) (n : Z) (acc : string),
    (1 <= k <= fuel)%nat -> 0 <= n < 10 ^ Z.of_nat k ->
    exists ds,
      decimal fuel n acc = (ds ++ acc)%string
      /\ numeral ds = n
      /\ (1 <= String.length ds <= k)%nat.
Proof.
  induction k as [|k IH]; intros fuel n acc Hk Hn; [lia|].
  destruct fuel as [|fuel]; [lia|].
  cbn [decimal]. cbv zeta.
  pose proof (Z.mod_pos_bound n 10 ltac:(lia)) as Hd.
  destruct (Z.ltb_spec n 10) as [Hlt|Hge].
  - exists (String (digit (n mod 10)) "").
    split; [reflexivity|]. split; [|cbn; lia].
    unfold numeral. cbn [numeral_from].
    rewrite digit_value by lia. rewrite Z.mod_small by lia. lia.
  - destruct k as [|k]; [change (10 ^ Z.of_nat 1) with 10 in Hn; lia|].
    assert (Hq : 0 <= n / 10 < 10 ^ Z.of_nat (S k)).
    { split; [apply Z.div_pos; lia|].
      apply Z.div_lt_upper_bound; [lia|].
      replace (Z.of_nat (S (S k))) with (Z.succ (Z.of_nat (S k))) in Hn
        by lia.
      rewrite Z.pow_succ_r in Hn by lia. lia. }
    destruct (IH fuel (n / 10) (String (digit (n mod 10)) acc)
                ltac:(lia) Hq) as [ds [E [V L]]].
    exists (ds ++ String (digit (n mod 10)) "")%string.
    split; [rewrite E, append_assoc; reflexivity|].
    split.
    + unfold numeral in *. rewrite numeral_from_append, V.
      cbn [numeral_from]. rewrite digit_value by lia.
      pose proof (Z.div_mod n 10 ltac:(lia)). lia.
    + rewrite length_append. cbn [String.length]. lia.
Qed.

(** [%0wd] of a number of at most [w] digits: exactly [w] characters that
    read back as the number. *)
Lemma fmt_0d_fixed (w : nat) (n : Z) :
  (1 <= w <= 20)%nat -> 0 <= n < 10 ^ Z.of_nat w ->
  String.length (fmt_0d w n) = w /\ numeral (fmt_0d w n) = n.
Proof.
  intros Hw Hn. unfold fmt_0d. cbv zeta.
  destruct (Z.ltb_spec n 0) as [Hneg|_]; [lia|].
  rewrite Z.abs_eq by lia.
  destruct (decimal_spec w 20 n "" ltac:(lia) Hn) as [ds [E [V L]]].
  assert (E' : decimal 20 n "" = ds).
  { rewrite E. clear. induction ds as [|c ds IH]; cbn;
      [reflexivity | rewrite IH; reflexivity]. }
  rewrite E'. split.
  - rewrite length_append, length_zeros. lia.
  - unfold numeral in *. rewrite numeral_from_append, numeral_zeros.
    exact V.
Qed.



End TimestampFacts.
